(** * xload-agent: the filesystem tools [grep_tool], [ls_tool], [tree_tool]

    A shallow embedding of [src/src/xload_agent/tools/fs/{grep,ls,tree}.py].

    The three tools read a file system, match names with [fnmatch.fnmatch]
    and (grep) search lines with a compiled [re] pattern.  Those three
    platform services are parameters of the model:

    - the file system is a lookup from a path string to the [entry] found
      there; an entry is a regular file, a directory or a special file, and
      carries what [open] / [iterdir] deliver or raise on it;
    - [fnmatch] is any function [name -> pattern -> bool];
    - [re_compile] is any function giving a search function or a [re.error].

    Python exceptions are explicit: a tool returns [Return r] or [Raise e].
    Text is [string]; one [ascii] stands for one character. *)

From Stdlib Require Import String Ascii List ZArith Lia Bool Arith Sorted.
Import ListNotations.
Local Open Scope string_scope.
Local Open Scope list_scope.

(* ================================================================= *)
(** ** Strings as Python uses them here *)

Module Str.

(** [s[:n]] *)
Fixpoint take (n : nat) (s : string) : string :=
  match n, s with
  | S n', String c s' => String c (take n' s')
  | _, _ => EmptyString
  end.

(** [s[n:]] *)
Fixpoint drop (n : nat) (s : string) : string :=
  match n, s with
  | S n', String _ s' => drop n' s'
  | _, _ => s
  end.

(** [s[a:b]] for non-negative [a], [b]: out-of-range indices are clipped,
    and the slice is empty when [b <= a]. *)
Definition slice (a b : nat) (s : string) : string := take (b - a) (drop a s).

Definition is_newline (c : ascii) : bool :=
  (Ascii.eqb c "010" || Ascii.eqb c "013")%char.

(** [s.rstrip('\n\r')] *)
Fixpoint rstrip_newline (s : string) : string :=
  match s with
  | EmptyString => EmptyString
  | String c s' =>
      match rstrip_newline s' with
      | EmptyString => if is_newline c then EmptyString else String c EmptyString
      | r => String c r
      end
  end.

(** The string consists of line-terminator characters only. *)
Fixpoint all_newline (s : string) : bool :=
  match s with
  | EmptyString => true
  | String c s' => is_newline c && all_newline s'
  end.

Definition lower_char (c : ascii) : ascii :=
  let n := nat_of_ascii c in
  if ((65 <=? n)%nat && (n <=? 90)%nat)%bool then ascii_of_nat (n + 32) else c.

(** [s.lower()] on ASCII text: the letters A to Z are lowered and every
    other character is left as it is.  Python also lowers cased letters
    outside ASCII, so for a name with such letters this is not the code's
    [lower], and statements about the order of names are made for ASCII
    names. *)
Fixpoint lower (s : string) : string :=
  match s with
  | EmptyString => EmptyString
  | String c s' => String (lower_char c) (lower s')
  end.

(** [PurePosixPath(s).is_absolute()]: the string starts with a slash. *)
Definition is_absolute (s : string) : bool :=
  match s with
  | String "/"%char _ => true
  | _ => false
  end.

(** [str(Path(parent) / name)] for a parent in pathlib's normal form and a
    plain file name. *)
Definition child (parent name : string) : string :=
  if String.eqb parent "/" then "/" ++ name else parent ++ "/" ++ name.

End Str.

(* ================================================================= *)
(** ** Exceptions and results *)

(** The two classes the [except] clauses of the tools tell apart:
    [except PermissionError] and [except Exception as e] (with [str(e)]). *)
Inductive exn : Type :=
| PermissionError
| OtherError (msg : string).

(** What a call does: return a value, or let an exception out. *)
Inductive outcome (A : Type) : Type :=
| Return (a : A)
| Raise (e : exn).
Arguments Return {A} a.
Arguments Raise {A} e.

(** [x or []] for an [Optional[List[str]]]. *)
Definition or_empty (o : option (list string)) : list string :=
  match o with
  | Some l => l
  | None => []
  end.

(** Truthiness of an [Optional[List[str]]]: [None] and [[]] are false. *)
Definition truthy (o : option (list string)) : bool :=
  match o with
  | Some (_ :: _) => true
  | _ => false
  end.

(* ================================================================= *)
(** ** The file system *)

(** What [open(p, 'r', encoding='utf-8', errors='ignore')] followed by line
    iteration delivers: [open] raises, or the lines come one by one (each
    with its terminator, as Python hands them over) and the iteration then
    ends normally or with an exception. *)
Inductive file_data : Type :=
| OpenFails (e : exn)
| Lines (ls : list string) (tail : option exn).

Set Warnings "-register-all".

(** A directory entry.  For a directory, [denied = Some e] means that
    enumerating it ([iterdir], [scandir]) raises [e]; [children] is what is
    on disk, in the order the operating system lists it.  A special file
    (device, socket, FIFO) is neither [is_file()] nor [is_dir()]. *)
Inductive entry : Type :=
| File (name : string) (data : file_data)
| Dir (name : string) (denied : option exn) (children : list entry)
| Special (name : string) (data : file_data).

Definition name (e : entry) : string :=
  match e with
  | File n _ | Dir n _ _ | Special n _ => n
  end.

Definition is_file (e : entry) : bool :=
  match e with File _ _ => true | _ => false end.

Definition is_dir (e : entry) : bool :=
  match e with Dir _ _ _ => true | _ => false end.

(** What [open] gives on the entry; a directory cannot be opened. *)
Definition data_of (e : entry) : file_data :=
  match e with
  | File _ d | Special _ d => d
  | Dir _ _ _ => OpenFails (OtherError "[Errno 21] Is a directory")
  end.

(** [list(p.iterdir())] *)
Definition iterdir (e : entry) : list entry + exn :=
  match e with
  | Dir _ None children => inl children
  | Dir _ (Some ex) _ => inr ex
  | _ => inr (OtherError "[Errno 20] Not a directory")
  end.

(* ================================================================= *)
(** ** Sorting: [items.sort(key=lambda x: (x.is_file(), x.name.lower()))] *)

Definition sort_key (e : entry) : bool * string := (is_file e, Str.lower (name e)).

(** Tuple order: [False < True], then the strings by code point. *)
Definition key_leb (k1 k2 : bool * string) : bool :=
  if Bool.eqb (fst k1) (fst k2) then String.leb (snd k1) (snd k2)
  else negb (fst k1).

(** The order the sort puts the entries in. *)
Definition entry_le (x y : entry) : Prop :=
  key_leb (sort_key x) (sort_key y) = true.

Fixpoint insert_by_key (x : entry) (l : list entry) : list entry :=
  match l with
  | [] => [x]
  | y :: l' =>
      if key_leb (sort_key x) (sort_key y) then x :: y :: l'
      else y :: insert_by_key x l'
  end.

(** A stable sort by key, as [list.sort] is: entries with equal keys keep
    the order they had. *)
Definition sort_entries (l : list entry) : list entry :=
  fold_right insert_by_key [] l.

(* ================================================================= *)
(** ** A glob matcher for [fnmatch.fnmatch] on POSIX

    The tools are stated for any [fnmatch]; this one is used to run them on
    concrete directories.  It follows [fnmatch.translate]: [*] is any run of
    characters, [?] one character, [[seq]] one character of [seq] (ranges
    [a-z] allowed), [[!seq]] one character not in it; a bracket that is
    never closed stands for itself.  Matching is case-sensitive. *)

Module Glob.

Inductive token : Type :=
| TStar
| TAny
| TLit (c : ascii)
| TClass (negated : bool) (ranges : list (ascii * ascii)).

(** The characters of a class body as ranges; a single character [c] is the
    range [(c, c)]. *)
Fixpoint ranges (body : list ascii) : list (ascii * ascii) :=
  match body with
  | lo :: "-"%char :: hi :: rest => (lo, hi) :: ranges rest
  | c :: rest => (c, c) :: ranges rest
  | [] => []
  end.

(** Splits [body ] rest] at the first closing bracket. *)
Fixpoint until_close (p : list ascii) : option (list ascii * list ascii) :=
  match p with
  | [] => None
  | "]"%char :: rest => Some ([], rest)
  | c :: p' =>
      match until_close p' with
      | Some (body, rest) => Some (c :: body, rest)
      | None => None
      end
  end.

(** After an opening bracket: an optional [!], then a [ ] ] that comes first
    belongs to the class, then everything up to the closing bracket. *)
Definition split_class (p : list ascii)
  : option (bool * list ascii * list ascii) :=
  let (neg, p1) := match p with
                   | "!"%char :: q => (true, q)
                   | _ => (false, p)
                   end in
  match p1 with
  | "]"%char :: q =>
      match until_close q with
      | Some (body, rest) => Some (neg, "]"%char :: body, rest)
      | None => None
      end
  | _ =>
      match until_close p1 with
      | Some (body, rest) => Some (neg, body, rest)
      | None => None
      end
  end.

Fixpoint tokenize (fuel : nat) (p : list ascii) : list token :=
  match fuel with
  | O => []
  | S fuel' =>
      match p with
      | [] => []
      | "*"%char :: p' => TStar :: tokenize fuel' p'
      | "?"%char :: p' => TAny :: tokenize fuel' p'
      | "["%char :: p' =>
          match split_class p' with
          | Some (neg, body, rest) => TClass neg (ranges body) :: tokenize fuel' rest
          | None => TLit "["%char :: tokenize fuel' p'
          end
      | c :: p' => TLit c :: tokenize fuel' p'
      end
  end.

Definition in_range (c : ascii) (r : ascii * ascii) : bool :=
  (Ascii.leb (fst r) c && Ascii.leb c (snd r))%bool.

Definition token_accepts (t : token) (c : ascii) : bool :=
  match t with
  | TStar | TAny => true
  | TLit d => Ascii.eqb c d
  | TClass neg rs => xorb neg (existsb (in_range c) rs)
  end.

(** The whole name must match the whole pattern. *)
Fixpoint matches (ts : list token) (s : list ascii) {struct ts} : bool :=
  match ts with
  | [] => match s with [] => true | _ => false end
  | TStar :: ts' =>
      (fix star (s : list ascii) : bool :=
         (matches ts' s
          || match s with
             | [] => false
             | _ :: s' => star s'
             end)%bool) s
  | t :: ts' =>
      match s with
      | [] => false
      | c :: s' => (token_accepts t c && matches ts' s')%bool
      end
  end.

Definition fnmatch (name pattern : string) : bool :=
  let p := list_ascii_of_string pattern in
  matches (tokenize (S (List.length p)) p) (list_ascii_of_string name).

End Glob.

(* ================================================================= *)
(** ** Literal patterns for [re]

    A compiled pattern is its [search] method: the span [(start, end)] of
    the leftmost match in a string, if any.  The tools are stated for any
    [re_compile]; this instance covers the patterns without metacharacters,
    which denote themselves, and is used to run the tools on concrete
    files.  A pattern with a metacharacter is not covered and is reported
    through the [re.error] branch. *)

Definition regex : Type := string -> option (nat * nat).

Module Literal.

Definition is_meta (c : ascii) : bool :=
  existsb (Ascii.eqb c)
    (list_ascii_of_string ".^$*+?{}[]\|()").

(** Index of the leftmost occurrence of [pat] in [s]. *)
Fixpoint find (pat s : string) : option nat :=
  if String.prefix pat s then Some 0
  else match s with
       | EmptyString => None
       | String _ s' => option_map S (find pat s')
       end.

Definition search (pat : string) (ignorecase : bool) : regex :=
  fun line =>
    let found := if ignorecase then find (Str.lower pat) (Str.lower line)
                 else find pat line in
    option_map (fun i => (i, i + String.length pat)) found.

Definition re_compile (pattern : string) (ignorecase : bool) : regex + string :=
  if existsb is_meta (list_ascii_of_string pattern)
  then inr "pattern with metacharacters"
  else inl (search pattern ignorecase).

End Literal.

(* ================================================================= *)
(** ** What the tools return *)

(** The dictionary a tool returns: [{"status": "success", ...}] with its
    payload, or [{"status": "error", "message": ...}]. *)
Inductive result (A : Type) : Type :=
| Success (payload : A)
| Error (message : string).
Arguments Success {A} payload.
Arguments Error {A} message.

Definition status {A : Type} (r : result A) : string :=
  match r with
  | Success _ => "success"
  | Error _ => "error"
  end.

(** The messages, as the f-strings build them. *)
Module Msg.

Definition not_absolute (path : string) : string :=
  "错误: 路径 " ++ path ++ " 不是绝对路径。请提供绝对路径。".

Definition not_found (path : string) : string :=
  "错误: 路径 " ++ path ++ " 不存在。请提供有效的路径。".

Definition not_a_directory (path : string) : string :=
  "错误: 路径 " ++ path ++ " 不是目录。请提供有效的目录路径。".

Definition invalid_regex (pattern err : string) : string :=
  "错误: 无效的正则表达式 '" ++ pattern ++ "': " ++ err.

Definition filtered_out (path : string) : string :=
  "错误: 文件 " ++ path ++ " 被忽略模式过滤。".

Definition no_permission (path : string) : string :=
  "错误: 没有权限访问路径 " ++ path ++ "。".

Definition access_exception (err : string) : string :=
  "错误: 访问路径时发生异常: " ++ err.

End Msg.

(* ================================================================= *)
(** ** grep.py *)

Module Grep.

Definition DEFAULT_IGNORE_PATTERNS : list string :=
  [ "*.pyc"; "__pycache__"; ".git"; ".svn"; ".hg"; ".DS_Store";
    "*.tmp"; "*.temp"; "*.log"; ".idea"; "*.vscode"; "node_modules" ].

(** One element of [matches]; the three [ctx_] fields are the ["context"]
    dictionary. *)
Record SearchMatch : Type := {
  m_file : string;
  m_line : nat;
  m_content : string;
  m_start : nat;
  m_end : nat;
  ctx_prefix : string;
  ctx_match : string;
  ctx_suffix : string
}.

Record Stats : Type := {
  files_searched : nat;
  files_matched : nat;
  lines_matched : nat;
  results_truncated : bool
}.

(** What the search does to the file system, in order: a call of [open] on
    a path, and the pattern being run on a line of an opened file.  The
    Python function does not return this log; the model keeps it so that
    "no further file is opened" can be stated. *)
Inductive io_event : Type :=
| Opened (path : string)
| Searched (path : string) (line_num : nat).

(** The [nonlocal] variables of [search_file], and the log. *)
Record state : Type := {
  stats : Stats;
  matches : list SearchMatch;
  io : list io_event
}.

Definition initial : state :=
  {| stats := {| files_searched := 0; files_matched := 0;
                 lines_matched := 0; results_truncated := false |};
     matches := [];
     io := [] |}.

Definition with_stats (f : Stats -> Stats) (st : state) : state :=
  {| stats := f (stats st); matches := matches st; io := io st |}.

(** [stats["files_searched"] += 1] *)
Definition count_searched : state -> state :=
  with_stats (fun s =>
    {| files_searched := S (files_searched s); files_matched := files_matched s;
       lines_matched := lines_matched s; results_truncated := results_truncated s |}).

(** [stats["files_matched"] += 1] *)
Definition count_file_matched : state -> state :=
  with_stats (fun s =>
    {| files_searched := files_searched s; files_matched := S (files_matched s);
       lines_matched := lines_matched s; results_truncated := results_truncated s |}).

(** [stats["lines_matched"] += 1] *)
Definition count_line_matched : state -> state :=
  with_stats (fun s =>
    {| files_searched := files_searched s; files_matched := files_matched s;
       lines_matched := S (lines_matched s); results_truncated := results_truncated s |}).

(** [stats["results_truncated"] = True] *)
Definition set_truncated : state -> state :=
  with_stats (fun s =>
    {| files_searched := files_searched s; files_matched := files_matched s;
       lines_matched := lines_matched s; results_truncated := true |}).

(** [matches.append(match_result)] *)
Definition append_match (m : SearchMatch) (st : state) : state :=
  {| stats := stats st; matches := matches st ++ [m]; io := io st |}.

Definition log (ev : io_event) (st : state) : state :=
  {| stats := stats st; matches := matches st; io := io st ++ [ev] |}.

Definition truncated (st : state) : bool := results_truncated (stats st).

(** The dictionary [match_result] built for a line and the span of the
    match found in it. *)
Definition match_result (file_path : string) (line_num : nat) (line : string)
    (span : nat * nat) : SearchMatch :=
  let line_content := Str.rstrip_newline line in
  let match_start := fst span in
  let match_end := snd span in
  let context_start := Nat.max 0 (match_start - 10) in
  let context_end := Nat.min (String.length line_content) (match_end + 10) in
  {| m_file := file_path;
     m_line := line_num;
     m_content := line_content;
     m_start := match_start;
     m_end := match_end;
     ctx_prefix := Str.slice context_start match_start line_content;
     ctx_match := Str.slice match_start match_end line_content;
     ctx_suffix := Str.slice match_end context_end line_content |}.

Section Search.

Variable fnmatch : string -> string -> bool.
Variable ignore_patterns : list string.
Variable file_pattern : option (list string).
Variable regex_pattern : regex.
Variable max_results : Z.

Definition should_ignore (name : string) : bool :=
  existsb (fnmatch name) ignore_patterns.

Definition should_search_file (name : string) : bool :=
  if should_ignore name then false
  else if truthy file_pattern then existsb (fnmatch name) (or_empty file_pattern)
  else true.

(** [len(matches) >= max_results] *)
Definition cap_reached (st : state) : bool :=
  (max_results <=? Z.of_nat (List.length (matches st)))%Z.

(** The body of [for line_num, line in enumerate(f, 1)], from line
    [line_num] on; [file_matched] is the local flag. *)
Fixpoint scan_lines (file_path : string) (lines : list string) (line_num : nat)
    (file_matched : bool) (st : state) : state :=
  match lines with
  | [] => st
  | line :: rest =>
      if cap_reached st then set_truncated st
      else
        let st := log (Searched file_path line_num) st in
        match regex_pattern line with
        | None => scan_lines file_path rest (S line_num) file_matched st
        | Some span =>
            let st := if file_matched then st else count_file_matched st in
            let st := count_line_matched st in
            let st := append_match (match_result file_path line_num line span) st in
            scan_lines file_path rest (S line_num) true st
        end
  end.

(** [search_file]: both [except] clauses only [pass], so a failure of
    [open], or of the read after the last line delivered, leaves the state
    as it is at that point. *)
Definition search_file (file_path : string) (data : file_data) (st : state) : state :=
  let st := count_searched st in
  if cap_reached st then set_truncated st
  else
    let st := log (Opened file_path) st in
    match data with
    | OpenFails _ => st
    | Lines ls _ => scan_lines file_path ls 1 false st
    end.

(** [for file in files: ...] of the recursive search. *)
Fixpoint search_files (root : string) (files : list entry) (st : state) : state :=
  match files with
  | [] => st
  | f :: rest =>
      let st := if should_search_file (name f)
                then search_file (Str.child root (name f)) (data_of f) st
                else st in
      if truncated st then st else search_files root rest st
  end.

(** [Path.walk()], top-down, with the pruning the loop body does by
    assigning to [dirs[:]]: the [(root, files)] pairs in the order they are
    yielded.  [files] are the entries that are not directories.  A directory
    that cannot be scanned yields nothing ([on_error] is [None]). *)
Fixpoint walk (root : string) (e : entry) : list (string * list entry) :=
  match e with
  | Dir _ None children =>
      (root, filter (fun c => negb (is_dir c)) children)
      :: flat_map (fun d => if is_dir d && negb (should_ignore (name d))
                            then walk (Str.child root (name d)) d
                            else [])
           children
  | _ => []
  end.

(** [for root, dirs, files in _path.walk(): ...] *)
Fixpoint search_walk (yielded : list (string * list entry)) (st : state) : state :=
  match yielded with
  | [] => st
  | (root, files) :: rest =>
      let st := search_files root files st in
      if truncated st then st else search_walk rest st
  end.

(** [for item in _path.iterdir(): ...] of the non-recursive search. *)
Fixpoint search_items (path : string) (items : list entry) (st : state) : state :=
  match items with
  | [] => st
  | item :: rest =>
      let st := if is_file item && should_search_file (name item)
                then search_file (Str.child path (name item)) (data_of item) st
                else st in
      if truncated st then st else search_items path rest st
  end.

(** The part of [grep_tool] after the pattern is compiled. *)
Definition search (path : string) (target : entry) (recursive : bool)
  : outcome (result state) :=
  if is_file target then
    if should_search_file (name target)
    then Return (Success (search_file path (data_of target) initial))
    else Return (Error (Msg.filtered_out path))
  else if recursive then
    Return (Success (search_walk (walk path target) initial))
  else
    match iterdir target with
    | inl items => Return (Success (search_items path items initial))
    | inr PermissionError => Return (Error (Msg.no_permission path))
    | inr e => Raise e
    end.

End Search.

Section Tool.

Variable lookup : string -> option entry.
Variable fnmatch : string -> string -> bool.
Variable re_compile : string -> bool -> regex + string.

(** [grep_tool]; the second argument of [re_compile] says whether
    [re.IGNORECASE] is passed.  [re_compile] gives the pattern object or
    the text of the [re.error]; a pattern on which [re.compile] raises
    another exception (an [OverflowError] for a repeat count that is too
    large, a [RecursionError]) is not covered. *)
Definition grep_tool (pattern path : string) (recursive : bool)
    (file_pattern ignore : option (list string)) (case_sensitive : bool)
    (max_results : Z) : outcome (result state) :=
  if negb (Str.is_absolute path) then Return (Error (Msg.not_absolute path))
  else
    match lookup path with
    | None => Return (Error (Msg.not_found path))
    | Some target =>
        match re_compile pattern (negb case_sensitive) with
        | inr err => Return (Error (Msg.invalid_regex pattern err))
        | inl regex_pattern =>
            let ignore_patterns := or_empty ignore ++ DEFAULT_IGNORE_PATTERNS in
            search fnmatch ignore_patterns file_pattern regex_pattern
              max_results path target recursive
        end
    end.

End Tool.

End Grep.

(* ================================================================= *)
(** ** ls.py *)

Module Ls.

Definition DEFAULT_IGNORE_PATTERNS : list string :=
  [ "*.pyc"; "__pycache__"; "*.swp"; ".DS_Store"; ".git"; ".svn"; ".hg";
    "*.tmp"; "*.temp"; "*.log"; ".idea"; "*.vscode"; "node_modules" ].

Record Listing : Type := {
  items : list string;
  count : nat
}.

(** [item.name + "/"] for a directory, [item.name] otherwise. *)
Definition display (item : entry) : string :=
  if is_dir item then name item ++ "/" else name item.

Section Tool.

Variable lookup : string -> option entry.
Variable fnmatch : string -> string -> bool.

(** The entries left after the sort, the [match] filter and the [ignore]
    filter. *)
Definition listed (match_ ignore : option (list string)) (items : list entry)
  : list entry :=
  let items := sort_entries items in
  let items :=
    if truthy match_
    then filter (fun item => existsb (fnmatch (name item)) (or_empty match_)) items
    else items in
  let ignore := or_empty ignore ++ DEFAULT_IGNORE_PATTERNS in
  filter (fun item => negb (existsb (fnmatch (name item)) ignore)) items.

Definition ls_tool (path : string) (match_ ignore : option (list string))
  : outcome (result Listing) :=
  if negb (Str.is_absolute path) then Return (Error (Msg.not_absolute path))
  else
    match lookup path with
    | None => Return (Error (Msg.not_found path))
    | Some target =>
        if negb (is_dir target) then Return (Error (Msg.not_a_directory path))
        else
          match iterdir target with
          | inr PermissionError => Return (Error (Msg.no_permission path))
          | inr (OtherError msg) => Return (Error (Msg.access_exception msg))
          | inl items =>
              let result_items := map display (listed match_ ignore items) in
              Return (Success {| items := result_items;
                                 count := List.length result_items |})
          end
    end.

End Tool.

End Ls.

(* ================================================================= *)
(** ** tree.py *)

Module Tree.

Definition DEFAULT_IGNORE_PATTERNS : list string :=
  [ "*.pyc"; "__pycache__"; "*.swp"; ".DS_Store"; ".git"; ".svn"; ".hg";
    "*.tmp"; "*.temp"; "*.log"; ".idea"; "*.vscode"; "node_modules" ].

Inductive node_type : Type := directory | file.

(** One dictionary of the tree.  [children = None] and [error = None] mean
    that the key is absent. *)
Inductive TreeNode : Type :=
| Node (node_name : string) (type : node_type) (node_path : string)
       (children : option (list TreeNode)) (error : option string).

Definition node_name (n : TreeNode) : string :=
  match n with Node x _ _ _ _ => x end.

Definition type (n : TreeNode) : node_type :=
  match n with Node _ x _ _ _ => x end.

Definition node_path (n : TreeNode) : string :=
  match n with Node _ _ x _ _ => x end.

Definition children (n : TreeNode) : option (list TreeNode) :=
  match n with Node _ _ _ x _ => x end.

Definition error (n : TreeNode) : option string :=
  match n with Node _ _ _ _ x => x end.

Record TreeResult : Type := {
  max_depth : Z;
  tree : list TreeNode;
  directories : nat;
  files : nat;
  total : nat
}.

(** [min(max(1, max_depth), 3)] *)
Definition effective_depth (max_depth : Z) : Z := Z.min (Z.max 1 max_depth) 3.

(** The dictionary appended by the two [except] clauses of
    [_walk_directory]. *)
Definition error_node (current_path : string) (current : entry) (e : exn)
  : TreeNode :=
  Node (name current) directory current_path None
       (Some match e with
             | PermissionError => "Permission denied"
             | OtherError msg => msg
             end).

(** [_count_items]: the pair [(dir_count, file_count)] it adds up. *)
Fixpoint count_item (n : TreeNode) : nat * nat :=
  match n with
  | Node _ directory _ ch _ =>
      let below :=
        match ch with
        | Some l =>
            (fix count_list (l : list TreeNode) : nat * nat :=
               match l with
               | [] => (0, 0)
               | x :: l' =>
                   (fst (count_item x) + fst (count_list l'),
                    snd (count_item x) + snd (count_list l'))
               end) l
        | None => (0, 0)
        end in
      (S (fst below), snd below)
  | Node _ file _ _ _ => (0, 1)
  end.

Definition _count_items (items : list TreeNode) : nat * nat :=
  fold_right (fun n acc => (fst (count_item n) + fst acc,
                            snd (count_item n) + snd acc)) (0, 0) items.

Section Walk.

Variable fnmatch : string -> string -> bool.
Variable ignore_patterns : list string.
Variable match_ : option (list string).
Variable max_depth : Z.

(** Whether the loop body reaches [items.append(item_info)] for the item:
    it is not ignored and, when a match list is given, matches it. *)
Definition kept (item : entry) : bool :=
  negb (existsb (fnmatch (name item)) ignore_patterns)
  && (negb (truthy match_) || existsb (fnmatch (name item)) (or_empty match_)).

(** [_walk_directory].  The recursion is on [fuel], the number of further
    levels that may be entered; [tree_tool] passes enough of it for the
    last branch never to be taken. *)
Fixpoint _walk_directory (fuel : nat) (current_path : string) (current : entry)
    (current_depth : Z) : list TreeNode :=
  match iterdir current with
  | inr e => [error_node current_path current e]
  | inl directory_items =>
      flat_map
        (fun item =>
           if kept item then
             let item_path := Str.child current_path (name item) in
             [Node (name item) (if is_dir item then directory else file) item_path
                (if is_dir item && (current_depth <? max_depth)%Z
                 then match fuel with
                      | S fuel' =>
                          Some (_walk_directory fuel' item_path item (current_depth + 1))
                      | O => Some []
                      end
                 else None)
                None]
           else [])
        (sort_entries directory_items)
  end.

End Walk.

Section Tool.

Variable lookup : string -> option entry.
Variable fnmatch : string -> string -> bool.

Definition tree_tool (path : string) (max_depth : Z)
    (match_ ignore : option (list string)) : outcome (result TreeResult) :=
  let max_depth := effective_depth max_depth in
  if negb (Str.is_absolute path) then Return (Error (Msg.not_absolute path))
  else
    match lookup path with
    | None => Return (Error (Msg.not_found path))
    | Some target =>
        if negb (is_dir target) then Return (Error (Msg.not_a_directory path))
        else
          let ignore_patterns := or_empty ignore ++ DEFAULT_IGNORE_PATTERNS in
          let tree_structure :=
            _walk_directory fnmatch ignore_patterns match_ max_depth
              (Z.to_nat max_depth) path target 1 in
          let counts := _count_items tree_structure in
          Return (Success {| max_depth := max_depth;
                             tree := tree_structure;
                             directories := fst counts;
                             files := snd counts;
                             total := fst counts + snd counts |})
    end.

End Tool.

End Tree.

(* ================================================================= *)
(** ** Vocabulary for the statements about trees *)

(** The nodes [level] steps into a tree: level 1 is the list itself, level
    2 the children of its nodes, and so on. *)
Fixpoint nodes_at (level : nat) (items : list Tree.TreeNode) : list Tree.TreeNode :=
  match level with
  | 0 => []
  | 1 => items
  | S level' =>
      flat_map (fun n => match Tree.children n with
                         | Some sub => nodes_at level' sub
                         | None => []
                         end) items
  end.

(** [In_tree top n]: the node [n] occurs in the tree [top], at any level. *)
Inductive In_tree (top : list Tree.TreeNode) : Tree.TreeNode -> Prop :=
| in_top (n : Tree.TreeNode) :
    In n top -> In_tree top n
| in_children (parent : Tree.TreeNode) (sub : list Tree.TreeNode) (n : Tree.TreeNode) :
    In_tree top parent -> Tree.children parent = Some sub -> In n sub ->
    In_tree top n.

(** The dictionary [item_info] the walker builds for an item it keeps. *)
Definition item_node (fnmatch : string -> string -> bool)
    (ignore_patterns : list string) (match_ : option (list string))
    (max_depth : Z) (fuel : nat) (current_path : string) (current_depth : Z)
    (item : entry) : Tree.TreeNode :=
  let item_path := Str.child current_path (name item) in
  Tree.Node (name item) (if is_dir item then Tree.directory else Tree.file) item_path
    (if is_dir item && (current_depth <? max_depth)%Z
     then match fuel with
          | S fuel' =>
              Some (Tree._walk_directory fnmatch ignore_patterns match_ max_depth
                      fuel' item_path item (current_depth + 1)%Z)
          | O => Some []
          end
     else None)
    None.

(** [clamp x lo hi], in the words of the specification. *)
Definition clamp (x lo hi : Z) : Z :=
  if (x <? lo)%Z then lo else if (hi <? x)%Z then hi else x.

Section Walked.

Variable fnmatch : string -> string -> bool.
Variable ignore_patterns : list string.
Variable match_ : option (list string).
Variable max_depth : Z.
Variable root_path : string.
Variable root : entry.

(** [walked path dir depth]: during [tree_tool] on [root], the function
    [_walk_directory] is called on the directory [dir], found at [path],
    with [current_depth = depth].  It is called on the root at depth 1, and
    on every directory that is kept in the listing of a directory it was
    called on below the maximum depth. *)
Inductive walked : string -> entry -> Z -> Prop :=
| walked_root : walked root_path root 1
| walked_into (path : string) (dir : entry) (depth : Z)
    (items : list entry) (item : entry) :
    walked path dir depth ->
    iterdir dir = inl items ->
    In item items ->
    Tree.kept fnmatch ignore_patterns match_ item = true ->
    is_dir item = true ->
    (depth < max_depth)%Z ->
    walked (Str.child path (name item)) item (depth + 1).

End Walked.

(* ================================================================= *)
(** ** Vocabulary for the statements about ignored entries *)

(** [without sel e]: what is on disk at [e] once every entry below [e]
    whose name [sel] selects has been deleted, at every level, with all
    that lies under it. *)
Fixpoint without (sel : string -> bool) (e : entry) : entry :=
  match e with
  | Dir n denied children =>
      Dir n denied
        ((fix rest (l : list entry) : list entry :=
            match l with
            | [] => []
            | c :: l' => if sel (name c) then rest l' else without sel c :: rest l'
            end) children)
  | File _ _ | Special _ _ => e
  end.

(** The name matches one of the patterns. *)
Definition matches_any (fnmatch : string -> string -> bool) (patterns : list string)
    (n : string) : bool :=
  existsb (fnmatch n) patterns.

(* ================================================================= *)
(** ** Vocabulary for the statements about grep *)

Section Complete.

Variable fnmatch : string -> string -> bool.
Variable ignore_patterns : list string.
Variable file_pattern : option (list string).
Variable regex_pattern : regex.
Variable max_results : Z.

(** The files [search_file] is called on when nothing stops the search, in
    the order of the calls: the path, and what [open] gives there. *)
Definition candidates (path : string) (target : entry) (recursive : bool)
  : list (string * file_data) :=
  if is_file target then
    if Grep.should_search_file fnmatch ignore_patterns file_pattern (name target)
    then [(path, data_of target)]
    else []
  else if recursive then
    flat_map
      (fun yielded : string * list entry =>
         map (fun f => (Str.child (fst yielded) (name f), data_of f))
           (filter (fun f => Grep.should_search_file fnmatch ignore_patterns
                               file_pattern (name f))
              (snd yielded)))
      (Grep.walk fnmatch ignore_patterns path target)
  else
    match iterdir target with
    | inl items =>
        map (fun item => (Str.child path (name item), data_of item))
          (filter (fun item =>
                     is_file item
                     && Grep.should_search_file fnmatch ignore_patterns
                          file_pattern (name item))
             items)
    | inr _ => []
    end.

(** The lines a file delivers before its iteration ends or fails. *)
Definition lines_of (data : file_data) : list string :=
  match data with
  | OpenFails _ => []
  | Lines ls _ => ls
  end.

(** The match of every matching line among [lines], numbered from
    [line_num] on: what a search without a cap records. *)
Fixpoint line_matches (file_path : string) (line_num : nat) (lines : list string)
  : list Grep.SearchMatch :=
  match lines with
  | [] => []
  | line :: rest =>
      match regex_pattern line with
      | Some span =>
          Grep.match_result file_path line_num line span
          :: line_matches file_path (S line_num) rest
      | None => line_matches file_path (S line_num) rest
      end
  end.

Definition file_matches (c : string * file_data) : list Grep.SearchMatch :=
  line_matches (fst c) 1 (lines_of (snd c)).

(** What a search without a cap does on a file: it opens it and runs the
    pattern on every line delivered. *)
Definition file_log (c : string * file_data) : list Grep.io_event :=
  Grep.Opened (fst c)
  :: map (Grep.Searched (fst c)) (seq 1 (List.length (lines_of (snd c)))).

Definition complete_matches (cands : list (string * file_data))
  : list Grep.SearchMatch :=
  flat_map file_matches cands.

Definition complete_log (cands : list (string * file_data)) : list Grep.io_event :=
  flat_map file_log cands.

(** How many more matches the cap lets in. *)
Definition room (st : Grep.state) : nat :=
  Z.to_nat (max_results - Z.of_nat (List.length (Grep.matches st))).

(** [search_file] on each candidate in turn, until the truncation flag is
    set: the three loops of [grep_tool] all come down to this one. *)
Fixpoint search_all (cands : list (string * file_data)) (st : Grep.state)
  : Grep.state :=
  match cands with
  | [] => st
  | c :: rest =>
      let st := Grep.search_file regex_pattern max_results (fst c) (snd c) st in
      if Grep.truncated st then st else search_all rest st
  end.

(** Whether a search without a cap finds a match in the file. *)
Definition has_match (c : string * file_data) : bool :=
  match file_matches c with
  | [] => false
  | _ :: _ => true
  end.

(** What [scan_lines] does from [st], in terms of a search without a cap:
    it records the first [room st] matches of the lines, counts them, and
    runs the pattern on the first [k] lines; the flag tells whether it cut
    the file short. *)
Definition scan_spec (file_path : string) (line_num : nat) (lines : list string)
    (file_matched : bool) (st st' : Grep.state) : Prop :=
  let found := firstn (room st) (line_matches file_path line_num lines) in
  Grep.matches st' = Grep.matches st ++ found
  /\ Grep.files_searched (Grep.stats st') = Grep.files_searched (Grep.stats st)
  /\ Grep.lines_matched (Grep.stats st')
     = Grep.lines_matched (Grep.stats st) + List.length found
  /\ Grep.files_matched (Grep.stats st')
     = Grep.files_matched (Grep.stats st)
       + (if file_matched then 0 else match found with [] => 0 | _ => 1 end)
  /\ exists k,
       Grep.io st' = Grep.io st ++ map (Grep.Searched file_path) (seq line_num k)
       /\ k <= List.length lines
       /\ (Grep.truncated st' = false ->
           k = List.length lines /\ found = line_matches file_path line_num lines)
       /\ (Grep.truncated st' = true -> k < List.length lines /\ room st' = 0).

(** The same for [search_file] on one candidate. *)
Definition file_spec (c : string * file_data) (st st' : Grep.state) : Prop :=
  let found := firstn (room st) (file_matches c) in
  Grep.matches st' = Grep.matches st ++ found
  /\ Grep.files_searched (Grep.stats st') = S (Grep.files_searched (Grep.stats st))
  /\ Grep.lines_matched (Grep.stats st')
     = Grep.lines_matched (Grep.stats st) + List.length found
  /\ Grep.files_matched (Grep.stats st')
     = Grep.files_matched (Grep.stats st) + match found with [] => 0 | _ => 1 end
  /\ exists log rest,
       Grep.io st' = Grep.io st ++ log
       /\ file_log c = log ++ rest
       /\ (Grep.truncated st' = false -> rest = [] /\ found = file_matches c)
       /\ (Grep.truncated st' = true -> rest <> [] /\ room st' = 0).

(** The same for the whole search. *)
Definition all_spec (cands : list (string * file_data)) (st st' : Grep.state)
  : Prop :=
  let found := firstn (room st) (complete_matches cands) in
  Grep.matches st' = Grep.matches st ++ found
  /\ Grep.lines_matched (Grep.stats st')
     = Grep.lines_matched (Grep.stats st) + List.length found
  /\ Grep.files_matched (Grep.stats st') + Grep.files_searched (Grep.stats st)
     <= Grep.files_matched (Grep.stats st) + Grep.files_searched (Grep.stats st')
  /\ Grep.files_searched (Grep.stats st')
     <= Grep.files_searched (Grep.stats st) + List.length cands
  /\ exists log rest,
       Grep.io st' = Grep.io st ++ log
       /\ complete_log cands = log ++ rest
       /\ (Grep.truncated st' = false ->
           rest = []
           /\ found = complete_matches cands
           /\ Grep.files_searched (Grep.stats st')
              = Grep.files_searched (Grep.stats st) + List.length cands
           /\ Grep.files_matched (Grep.stats st')
              = Grep.files_matched (Grep.stats st)
                + List.length (filter has_match cands))
       /\ (Grep.truncated st' = true -> rest <> [] /\ room st' = 0).

End Complete.

(* ================================================================= *)
(** ** More of the sources: imports for what follows *)

From Stdlib Require Import Permutation DecimalString.

(** [str(n)] for a natural number and for an integer. *)
Definition str_nat (n : nat) : string := NilZero.string_of_uint (Nat.to_uint n).

Definition str_int (z : Z) : string := NilZero.string_of_int (Z.to_int z).

(** ["\n".join(lines)] *)
Definition join_lines (lines : list string) : string :=
  String.concat (String "010" EmptyString) lines.

(* ================================================================= *)
(** ** Vocabulary for the statements about the order of a listing *)

(** What is in a directory on disk. *)
Definition children_of (e : entry) : list entry :=
  match e with
  | Dir _ _ children => children
  | _ => []
  end.

(** The name has ASCII characters only.  On such a name [Str.lower] is
    Python's [str.lower], which changes the letters A to Z and nothing
    else there. *)
Fixpoint ascii_only (s : string) : bool :=
  match s with
  | EmptyString => true
  | String c s' => (nat_of_ascii c <? 128)%nat && ascii_only s'
  end.

(* ================================================================= *)
(** ** tree.py: [tree_tool_formatted] *)

Module TreeFormat.

(** The lines [_format_tree] puts out for one item and what lies under it;
    [is_last] stands for [i == len(items) - 1]. *)
Fixpoint format_item (level : nat) (prefix : string) (is_last : bool)
    (item : Tree.TreeNode) {struct item} : list string :=
  match item with
  | Tree.Node item_name item_type _ item_children item_error =>
      let connector : string :=
        if Nat.eqb level 0 then "" else if is_last then "└── " else "├── " in
      let new_prefix : string :=
        if Nat.eqb level 0 then "    "
        else if is_last then (prefix ++ "    ")%string else (prefix ++ "│   ")%string in
      let item_marker : string :=
        match item_type with Tree.directory => "[D] " | Tree.file => "[F] " end in
      let output_line : string :=
        (prefix ++ connector ++ item_marker ++ item_name
         ++ match item_error with
            | Some err => "  [ERROR: " ++ err ++ "]"
            | None => ""
            end)%string in
      output_line
      :: match item_children with
         | Some sub =>
             (fix format_list (l : list Tree.TreeNode) : list string :=
                match l with
                | [] => []
                | x :: l' =>
                    format_item (S level) new_prefix
                      (match l' with [] => true | _ :: _ => false end) x
                    ++ format_list l'
                end) sub
         | None => []
         end
  end.

(** [_format_tree(items, level, prefix)] *)
Definition _format_tree (items : list Tree.TreeNode) (level : nat) (prefix : string)
  : list string :=
  (fix format_list (l : list Tree.TreeNode) : list string :=
     match l with
     | [] => []
     | x :: l' =>
         format_item level prefix (match l' with [] => true | _ :: _ => false end) x
         ++ format_list l'
     end) items.

(** The list [formatted_lines] built for a success. *)
Definition formatted_lines (path : string) (result : Tree.TreeResult) : list string :=
  [("目录树: " ++ path ++ " (最大深度: " ++ str_int (Tree.max_depth result) ++ ")")%string]
  ++ _format_tree (Tree.tree result) 0 ""
  ++ [ "";
       "统计信息:";
       ("  目录数: " ++ str_nat (Tree.directories result))%string;
       ("  文件数: " ++ str_nat (Tree.files result))%string;
       ("  总计: " ++ str_nat (Tree.total result))%string ].

Section Tool.

Variable lookup : string -> option entry.
Variable fnmatch : string -> string -> bool.

Definition tree_tool_formatted (path : string) (max_depth : Z)
    (match_ ignore : option (list string)) : outcome string :=
  match Tree.tree_tool lookup fnmatch path max_depth match_ ignore with
  | Raise e => Raise e
  | Return (Error message) => Return message
  | Return (Success result) => Return (join_lines (formatted_lines path result))
  end.

End Tool.

End TreeFormat.

(* ================================================================= *)
(** ** Vocabulary: all the nodes of a tree *)

(** The node and everything under it, parents before children, in the
    order of the children lists. *)
Fixpoint nodes_of (n : Tree.TreeNode) : list Tree.TreeNode :=
  match n with
  | Tree.Node _ _ _ ch _ =>
      n :: match ch with
           | Some sub => flat_map nodes_of sub
           | None => []
           end
  end.

Definition all_nodes (items : list Tree.TreeNode) : list Tree.TreeNode :=
  flat_map nodes_of items.

Definition is_directory_node (n : Tree.TreeNode) : bool :=
  match Tree.type n with Tree.directory => true | Tree.file => false end.

(** What one line of the formatted tree says about its node: after the
    indentation [lead] come the kind marker, the name and, for an error
    leaf, the error. *)
Definition line_shows (line : string) (n : Tree.TreeNode) : Prop :=
  exists lead : string,
    line = (lead
            ++ (if is_directory_node n then "[D] " else "[F] ")
            ++ Tree.node_name n
            ++ match Tree.error n with
               | Some err => "  [ERROR: " ++ err ++ "]"
               | None => ""
               end)%string.

(* ================================================================= *)
(** ** grep.py: [grep_tool_formatted] *)

Module GrepFormat.

(** [c * n] for a one-character string. *)
Fixpoint repeat_char (c : ascii) (n : nat) : string :=
  match n with
  | O => EmptyString
  | S n' => String c (repeat_char c n')
  end.

(** [f"{n:5d}"]: the decimal digits, right-aligned in a field of 5. *)
Definition width5 (n : nat) : string :=
  let digits := str_nat n in
  (repeat_char " " (5 - String.length digits) ++ digits)%string.

(** [str(b)] for a boolean. *)
Definition str_bool (b : bool) : string := if b then "True" else "False".

(** [", ".join(l)] *)
Definition join_comma (l : list string) : string := String.concat ", " l.

(** The line put out for one match, with the matched part between
    markers. *)
Definition highlighted_line (m : Grep.SearchMatch) : string :=
  let line_info := (width5 (Grep.m_line m) ++ ": ")%string in
  let content := Grep.m_content m in
  let match_start := Grep.m_start m in
  let match_end := Grep.m_end m in
  (line_info
   ++ Str.take match_start content
   ++ "[MATCH]" ++ Str.slice match_start match_end content ++ "[/MATCH]"
   ++ Str.drop match_end content)%string.

(** [for match in result["matches"]: ...]; [current_file] is [None] before
    the first match. *)
Fixpoint match_lines (current_file : option string) (matches : list Grep.SearchMatch)
  : list string :=
  match matches with
  | [] => []
  | m :: rest =>
      (if match current_file with
          | Some f => String.eqb (Grep.m_file m) f
          | None => false
          end
       then []
       else [(String "010" "文件: " ++ Grep.m_file m)%string; repeat_char "-" 80])
      ++ [highlighted_line m]
      ++ match_lines (Some (Grep.m_file m)) rest
  end.

(** The list [formatted_lines] built for a success. *)
Definition formatted_lines (pattern path : string) (recursive : bool)
    (file_pattern : option (list string)) (case_sensitive : bool) (max_results : Z)
    (st : Grep.state) : list string :=
  let stats := Grep.stats st in
  [ ("搜索结果: '" ++ pattern ++ "' 在 '" ++ path ++ "'")%string;
    ("搜索选项: 递归=" ++ str_bool recursive ++ ", 区分大小写="
     ++ str_bool case_sensitive)%string ]
  ++ (if truthy file_pattern
      then [("文件过滤: " ++ join_comma (or_empty file_pattern))%string]
      else [])
  ++ [ (String "010" "统计信息: 搜索 " ++ str_nat (Grep.files_searched stats)
        ++ " 个文件, 找到 " ++ str_nat (Grep.files_matched stats)
        ++ " 个匹配文件, 共 " ++ str_nat (Grep.lines_matched stats)
        ++ " 个匹配行")%string ]
  ++ (if Grep.results_truncated stats
      then [("注意: 结果已截断，显示前" ++ str_int max_results ++ "个匹配项")%string]
      else [])
  ++ match Grep.matches st with
     | [] => [(String "010" "未找到匹配项。")%string]
     | _ :: _ =>
         [ (String "010" "匹配详情:")%string; repeat_char "=" 80 ]
         ++ match_lines None (Grep.matches st)
     end
  ++ [ (String "010" (repeat_char "=" 80)) ].

Section Tool.

Variable lookup : string -> option entry.
Variable fnmatch : string -> string -> bool.
Variable re_compile : string -> bool -> regex + string.

Definition grep_tool_formatted (pattern path : string) (recursive : bool)
    (file_pattern ignore : option (list string)) (case_sensitive : bool)
    (max_results : Z) : outcome string :=
  match Grep.grep_tool lookup fnmatch re_compile pattern path recursive
          file_pattern ignore case_sensitive max_results with
  | Raise e => Raise e
  | Return (Error message) => Return message
  | Return (Success st) =>
      Return (join_lines (formatted_lines pattern path recursive file_pattern
                            case_sensitive max_results st))
  end.

End Tool.

End GrepFormat.

(* ================================================================= *)
(** ** config.py *)

Module Config.

(** A key of a mapping: a string, or something else (a number, a date),
    which never equals a string. *)
Inductive key : Type :=
| KStr (s : string)
| KOther (repr : string).

(** What [yaml.safe_load] returns.  A mapping is the list of its items;
    looking a key up takes the first item that has it.  [YOther] is a value
    of any other type (a float, a date), with the name of its type. *)
Inductive yaml : Type :=
| YNone
| YBool (b : bool)
| YInt (z : Z)
| YStr (s : string)
| YOther (type_name repr : string)
| YList (l : list yaml)
| YDict (d : list (key * yaml)).

(** [type(v).__name__] *)
Definition type_name (v : yaml) : string :=
  match v with
  | YNone => "NoneType"
  | YBool _ => "bool"
  | YInt _ => "int"
  | YStr _ => "str"
  | YOther t _ => t
  | YList _ => "list"
  | YDict _ => "dict"
  end.

(** [k in d] and [d[k]] for a string [k]: [None] when the key is absent. *)
Fixpoint item (d : list (key * yaml)) (k : string) : option yaml :=
  match d with
  | [] => None
  | (KStr s, v) :: d' => if String.eqb s k then Some v else item d' k
  | (KOther _, _) :: d' => item d' k
  end.

(** [s.split(sep)] for a one-character separator: never the empty list. *)
Fixpoint split (sep : ascii) (s : string) : list string :=
  match s with
  | EmptyString => [EmptyString]
  | String c s' =>
      if Ascii.eqb c sep then EmptyString :: split sep s'
      else match split sep s' with
           | h :: t => String c h :: t
           | [] => [String c EmptyString]
           end
  end.

(** The loop of [Config.get] over [keys], from [value]. *)
Fixpoint get_loop (keys : list string) (value default : yaml) : yaml :=
  match keys with
  | [] => value
  | k :: rest =>
      match value with
      | YDict d =>
          match item d k with
          | Some v => get_loop rest v default
          | None => default
          end
      | _ => default
      end
  end.

(** [Config.get(key_path, default)] on the loaded data. *)
Definition get (_config_data : yaml) (key_path : string) (default : yaml) : yaml :=
  get_loop (split "." key_path) _config_data default.

(** [v.get(k, default)], the method of [dict]: any other value has no such
    attribute. *)
Definition dict_get (v : yaml) (k : string) (default : yaml) : outcome yaml :=
  match v with
  | YDict d => Return match item d k with
                      | Some x => x
                      | None => default
                      end
  | _ => Raise (OtherError ("'" ++ type_name v ++ "' object has no attribute 'get'"))
  end.

Definition and_then {A B : Type} (o : outcome A) (f : A -> outcome B) : outcome B :=
  match o with
  | Return a => f a
  | Raise e => Raise e
  end.

(** The properties of [Config]. *)
Definition model (_config_data : yaml) : outcome yaml :=
  dict_get _config_data "model" (YDict []).

Definition volcengine (_config_data : yaml) : outcome yaml :=
  dict_get _config_data "volcengine" (YDict []).

Definition observability (_config_data : yaml) : outcome yaml :=
  dict_get _config_data "observability" (YDict []).

Definition database (_config_data : yaml) : outcome yaml :=
  dict_get _config_data "database" (YDict []).

Definition logging_level (_config_data : yaml) : outcome yaml :=
  and_then (dict_get _config_data "logging" (YDict []))
    (fun logging => dict_get logging "level" (YStr "INFO")).

Definition workspace_path (_config_data : yaml) : outcome yaml :=
  and_then (dict_get _config_data "project" (YDict []))
    (fun project =>
       and_then (dict_get project "workspace" (YDict []))
         (fun workspace => dict_get workspace "path" (YStr "/tmp"))).

(** What is found at [config_path]: nothing, a file that cannot be opened
    or read (for a reason other than its absence), or a text. *)
Inductive config_file : Type :=
| Missing
| Unreadable (e : exn)
| Text (content : string).

Section Load.

(** [yaml.safe_load]: a value, or a [YAMLError] with its text. *)
Variable safe_load : string -> yaml + string.

(** [_load_config]: the two handlers return [{}]. *)
Definition _load_config (f : config_file) : outcome yaml :=
  match f with
  | Missing => Return (YDict [])
  | Unreadable e => Raise e
  | Text content =>
      match safe_load content with
      | inl data => Return data
      | inr _ => Return (YDict [])
      end
  end.

End Load.

End Config.

(** ** Vocabulary for the statements about the configuration *)

(** The mapping that holds [v] under the nested keys [keys]. *)
Fixpoint nested (keys : list string) (v : Config.yaml) : Config.yaml :=
  match keys with
  | [] => v
  | k :: rest => Config.YDict [(Config.KStr k, nested rest v)]
  end.

(** The value reached from [value] through [keys], if every key is there. *)
Fixpoint resolve (keys : list string) (value : Config.yaml) : option Config.yaml :=
  match keys with
  | [] => Some value
  | k :: rest =>
      match value with
      | Config.YDict d =>
          match Config.item d k with
          | Some v => resolve rest v
          | None => None
          end
      | _ => None
      end
  end.

Definition is_dict (v : Config.yaml) : bool :=
  match v with Config.YDict _ => true | _ => false end.

(* ================================================================= *)
(** ** terminal/bash.py

    [BashTerminal] is imported from a module that is not among the
    sources; its constructor and its methods [close] and [execute] are
    parameters here.  Each of them may raise, and what it does may depend on
    everything that happened before. *)

Module Bash.

(** The calls made on terminals, in order.  A terminal is named by a
    number; [Created] is logged when the constructor has returned,
    [Closed] and [Executed] when the method is called. *)
Inductive event : Type :=
| Created (terminal : nat) (cwd : option Config.yaml)
| Closed (terminal : nat)
| Executed (terminal : nat) (command : string).

(** The module's global [keep_alive_terminal], and the calls so far. *)
Record world : Type := {
  keep_alive_terminal : option nat;
  history : list event
}.

Definition start : world := {| keep_alive_terminal := None; history := [] |}.

(** The name a terminal created now gets. *)
Definition fresh (h : list event) : nat := List.length h.

Section Tool.

(** The data of the module's [config = Config()]. *)
Variable _config_data : Config.yaml.

(** [BashTerminal(cwd)]: [Some msg] when it raises an exception [e] with
    [str(e) = msg]. *)
Variable construct : list event -> option Config.yaml -> option string.

(** [terminal.close()] *)
Variable close : list event -> nat -> option string.

(** [terminal.execute(command)]: the output, or the text of the exception. *)
Variable execute : list event -> nat -> string -> string + string.

(** The statements under [try] before the command is run: the terminal to
    use and the world they leave, or the text of the exception with the
    world at that point. *)
Definition prepare (reset_cwd : bool) (project_workspace : option Config.yaml)
    (w : world) : nat * world + string * world :=
  match keep_alive_terminal w with
  | None =>
      match construct (history w) project_workspace with
      | Some msg => inr (msg, w)
      | None =>
          let terminal := fresh (history w) in
          inl (terminal,
               {| keep_alive_terminal := Some terminal;
                  history := history w ++ [Created terminal project_workspace] |})
      end
  | Some terminal =>
      if reset_cwd then
        let closing := history w ++ [Closed terminal] in
        match close (history w) terminal with
        | Some msg => inr (msg, {| keep_alive_terminal := Some terminal;
                                   history := closing |})
        | None =>
            match construct closing project_workspace with
            | Some msg => inr (msg, {| keep_alive_terminal := Some terminal;
                                       history := closing |})
            | None =>
                let terminal' := fresh closing in
                inl (terminal',
                     {| keep_alive_terminal := Some terminal';
                        history := closing ++ [Created terminal' project_workspace] |})
            end
        end
      else inl (terminal, w)
  end.

Definition failed (msg : string) : result string :=
  Error ("执行命令时出错: " ++ msg).

(** The statements before [try]: [tool_context] says whether a tool
    context is given. *)
Definition project_workspace (tool_context : bool) : outcome (option Config.yaml) :=
  if tool_context
  then Config.and_then (Config.workspace_path _config_data)
         (fun path => Return (Some path))
  else Return None.

(** [bash_tool].  The result is the dictionary (its ["output"] or its
    ["message"]) and the world after the call. *)
Definition bash_tool (command : string) (reset_cwd : bool) (tool_context : bool)
    (w : world) : outcome (result string) * world :=
  match project_workspace tool_context with
  | Raise e => (Raise e, w)
  | Return project_workspace =>
      match prepare reset_cwd project_workspace w with
      | inr (msg, w') => (Return (failed msg), w')
      | inl (terminal, w') =>
          let after := {| keep_alive_terminal := keep_alive_terminal w';
                          history := history w' ++ [Executed terminal command] |} in
          match execute (history w') terminal command with
          | inl output => (Return (Success output), after)
          | inr msg => (Return (failed msg), after)
          end
      end
  end.

(** A sequence of calls, each with its command and its two flags. *)
Fixpoint calls (l : list (string * bool * bool)) (w : world) : world :=
  match l with
  | [] => w
  | (command, reset_cwd, tool_context) :: rest =>
      calls rest (snd (bash_tool command reset_cwd tool_context w))
  end.

End Tool.

End Bash.

(** ** Vocabulary for the statements about the terminal *)

(** A terminal that was created and on which [close] was never called. *)
Definition open_terminal (h : list Bash.event) (t : nat) : Prop :=
  (exists cwd, In (Bash.Created t cwd) h) /\ ~ In (Bash.Closed t) h.

Definition terminal_of (ev : Bash.event) : nat :=
  match ev with
  | Bash.Created t _ | Bash.Closed t | Bash.Executed t _ => t
  end.

(** The state the calls keep: terminals are named in the order of the
    history, and a terminal that is still open is the one the global
    names. *)
Definition tidy (w : Bash.world) : Prop :=
  (forall ev, In ev (Bash.history w) -> terminal_of ev < List.length (Bash.history w))
  /\ (forall t, Bash.keep_alive_terminal w = Some t -> t < List.length (Bash.history w))
  /\ (forall t, open_terminal (Bash.history w) t -> Bash.keep_alive_terminal w = Some t).

(* ================================================================= *)
(** ** k6/run.py

    The operating system is a parameter: whether a path is a regular file,
    what [subprocess.run] does with a command, the name of the temporary
    file and what is found in it after the run, and [json.loads]. *)

Module K6.

(** A decoded JSON document.  An object is the list of its items; looking
    a key up takes the first item that has it. *)
Inductive json : Type :=
| JNull
| JBool (b : bool)
| JNumber (repr : string)
| JString (s : string)
| JArray (l : list json)
| JObject (d : list (string * json)).

(** [d.get(k, default)] *)
Fixpoint dict_get (d : list (string * json)) (k : string) (default : json) : json :=
  match d with
  | [] => default
  | (k', v) :: d' => if String.eqb k' k then v else dict_get d' k default
  end.

(** The dictionary [k6_tool] returns; [stdout] is [None] when the key is
    absent. *)
Record K6Result : Type := {
  success : bool;
  data : option json;
  error : option string;
  stats : option json;
  stdout : option string
}.

Definition failure (message : string) : K6Result :=
  {| success := false; data := None; error := Some message; stats := None;
     stdout := None |}.

(** [s.endswith(suffix)] *)
Definition endswith (suffix s : string) : bool :=
  (String.length suffix <=? String.length s)%nat
  && String.eqb (Str.drop (String.length s - String.length suffix) s) suffix.

(** A mapping of environment variables, and [d[k] = v] and [d.update(new)]
    on it. *)
Definition environment : Type := list (string * string).

Fixpoint set_item (d : environment) (k v : string) : environment :=
  match d with
  | [] => [(k, v)]
  | (k', v') :: d' =>
      if String.eqb k' k then (k, v) :: d' else (k', v') :: set_item d' k v
  end.

Definition update (d new : environment) : environment :=
  fold_left (fun d kv => set_item d (fst kv) (snd kv)) new d.

(** What the calls of the function do outside of it, in order:
    [subprocess.run] with a command (and the environment passed, [None]
    when it is inherited), the creation of the temporary file, and
    [os.unlink]. *)
Inductive event : Type :=
| Run (cmd : list string) (env : option environment)
| Created (path : string)
| Unlinked (path : string).

(** [subprocess.run(["k6", "--version"], check=True, ...)]: it returns, or
    raises one of [SubprocessError] and [FileNotFoundError], or raises
    another exception. *)
Inductive version_outcome : Type :=
| Installed
| NotRunnable
| VersionRaises (e : exn).

(** The temporary file after the run: removed, one that [open] refuses, one
    whose bytes are not UTF-8 (so [read] raises), or a text.  The strings
    are the texts of the exceptions. *)
Inductive temp_state : Type :=
| Gone
| CannotOpen (msg : string)
| Undecodable (msg : string)
| Content (text : string).

Definition temp_exists (t : temp_state) : bool :=
  match t with Gone => false | _ => true end.

(** [subprocess.run(cmd, env=..., text=True)] without [check]: an
    exception, or the completed process and the state of the temporary
    file it leaves. *)
Inductive run_outcome : Type :=
| RunRaises (msg : string)
| Completed (returncode : Z) (out err : string) (temp : temp_state).

(** An open text file: its text and the position of the next read. *)
Record file : Type := { text : string; pos : nat }.

(** [f.read()]: the rest of the text; the position moves to the end. *)
Definition read (f : file) : string * file :=
  (Str.drop (pos f) (text f),
   {| text := text f; pos := String.length (text f) |}).

Definition version_cmd : list string := ["k6"; "--version"].

(** The arguments the loop over [options] adds; a value is [None], or
    [Some] of its [str]. *)
Definition option_args (options : list (string * option string)) : list string :=
  flat_map (fun kv => match snd kv with
                      | Some value => [("--" ++ fst kv)%string; value]
                      | None => []
                      end) options.

Definition out_args (format temp_file_path : string) : list string :=
  if String.eqb format "json" then ["--out"; ("json=" ++ temp_file_path)%string]
  else if String.eqb format "csv" then ["--out"; ("csv=" ++ temp_file_path)%string]
  else [].

Definition command (script_path : string) (options : list (string * option string))
    (format temp_file_path : string) : list string :=
  (["k6"; "run"] ++ option_args options) ++ out_args format temp_file_path
  ++ [script_path].

Definition stats_of (format : string) (output : json) : option json :=
  if String.eqb format "json" then
    match output with
    | JObject d => Some (dict_get d "stats" (JObject []))
    | _ => None
    end
  else None.

Section Tool.

Variable isfile : string -> bool.
Variable environ : environment.
Variable version : version_outcome.

(** [tempfile.NamedTemporaryFile(delete=False, suffix='.json')] and the
    [with] block around it: the name of the file, or the text of the
    exception. *)
Variable mktemp : string + string.
Variable run : list string -> environment -> run_outcome.

(** [json.loads]: [None] for a [JSONDecodeError]. *)
Variable loads : string -> option json.

(** [json.load(f)] is [json.loads(f.read())]. *)
Definition load (f : file) : option json * file :=
  let (s, f') := read f in (loads s, f').

(** The [try] that reads the result: [output], or the text of the
    exception that leaves it. *)
Definition read_output (format : string) (temp : temp_state) : json + string :=
  match temp with
  | Gone => inl (JObject [])
  | CannotOpen msg => inr msg
  | Undecodable msg => inr msg
  | Content content =>
      let f := {| text := content; pos := 0 |} in
      if String.eqb format "json" then
        match load f with
        | (Some output, _) => inl output
        | (None, f') => inl (JObject [("raw_output", JString (fst (read f')))])
        end
      else inl (JObject [("raw_output", JString (fst (read f)))])
  end.

Definition run_failed (msg : string) : K6Result :=
  failure ("执行k6脚本时出错: " ++ msg)%string.

(** [k6_tool], with [options] and [env_vars] as the lists of their items
    ([None] is the empty list): what it returns or raises, and what it did
    outside. *)
Definition k6_tool (script_path : string) (options : list (string * option string))
    (env_vars : environment) (format : string) : outcome K6Result * list event :=
  if negb (Str.is_absolute script_path) then
    (Return (failure ("路径必须是绝对路径: " ++ script_path)%string), [])
  else if negb (isfile script_path) then
    (Return (failure ("脚本文件不存在: " ++ script_path)%string), [])
  else if negb (endswith ".js" script_path || endswith ".ts" script_path) then
    (Return (failure ("不支持的脚本文件格式，只支持.js或.ts: " ++ script_path)%string), [])
  else
    match version with
    | VersionRaises e => (Raise e, [Run version_cmd None])
    | NotRunnable => (Return (failure "k6未安装或不在PATH中"), [Run version_cmd None])
    | Installed =>
        let process_env := update environ env_vars in
        match mktemp with
        | inr msg => (Return (run_failed msg), [Run version_cmd None])
        | inl temp_file_path =>
            let cmd := command script_path options format temp_file_path in
            let launched := [Run version_cmd None; Created temp_file_path;
                             Run cmd (Some process_env)] in
            match run cmd process_env with
            | RunRaises msg => (Return (run_failed msg), launched)
            | Completed returncode out err temp =>
                let done :=
                  launched ++ (if temp_exists temp then [Unlinked temp_file_path]
                               else []) in
                match read_output format temp with
                | inr msg => (Return (run_failed msg), done)
                | inl output =>
                    let success := Z.eqb returncode 0 in
                    (Return {| success := success;
                               data := Some output;
                               error := if success then None else Some err;
                               stats := stats_of format output;
                               stdout := Some out |},
                     done)
                end
            end
        end
    end.

End Tool.

End K6.

(** ** Vocabulary for the statements about [k6_tool] *)

(** The script path passes the three checks of [k6_tool]. *)
Definition valid_script (isfile : string -> bool) (script_path : string) : bool :=
  Str.is_absolute script_path && isfile script_path
  && (K6.endswith ".js" script_path || K6.endswith ".ts" script_path).

(** [last_arg cmd a]: the last argument of the command [cmd] is [a]. *)
Definition last_arg (cmd : list string) (a : string) : Prop :=
  exists front, cmd = front ++ [a].

(* ================================================================= *)
(** ** Concrete directories the tools are run on *)

Module Example.

Definition nl : string := String "010" EmptyString.

(** A line of text with its terminator. *)
Definition ln (s : string) : string := (s ++ nl)%string.

(** A repository checkout: [/repo] holds [.git/] (with a file inside) and
    [README.md], and nothing else. *)
Definition git_dir : entry :=
  Dir ".git" None [File "config" (Lines [ln "[core]"] None)].

Definition readme : entry :=
  File "README.md" (Lines [ln "hello foo"; ln "FOO"] None).

Definition repo : entry := Dir "repo" None [git_dir; readme].

(** A project tree four levels deep under [/w], with a directory that
    cannot be read and a character device next to the files:
<<
    /w/a/b/c/deep.txt    /w/a/notes.txt    /w/locked/ (unreadable)
    /w/docs/guide.md     /w/main.py        /w/null (device)
>> *)
Definition deep : entry :=
  Dir "a" None
    [ Dir "b" None [Dir "c" None [File "deep.txt" (Lines [ln "x"] None)]];
      File "notes.txt" (Lines [ln "todo: foo"; ln "done"] None) ].

Definition locked : entry :=
  Dir "locked" (Some PermissionError) [File "secret" (OpenFails PermissionError)].

Definition docs : entry :=
  Dir "docs" None [File "guide.md" (Lines [ln "foo bar"] None)].

Definition main_py : entry :=
  File "main.py" (Lines [ln "import foo"; ln "foo()"; ln "bar()"] None).

Definition null_device : entry := Special "null" (Lines [] None).

Definition w : entry := Dir "w" None [main_py; deep; locked; docs; null_device].

(** A mail directory [/mail]: a file that reads well, one that cannot be
    opened, one whose read fails after its first line, and an empty one. *)
Definition mail : entry :=
  Dir "mail" None
    [ File "inbox.txt" (Lines [ln "foo"; ln "bar"; ln "bar foo"] None);
      File "sealed.txt" (OpenFails PermissionError);
      File "broken.txt" (Lines [ln "foo first"] (Some (OtherError "Input/output error")));
      File "empty.txt" (Lines [] None) ].

Definition lookup (path : string) : option entry :=
  if String.eqb path "/repo" then Some repo
  else if String.eqb path "/w" then Some w
  else if String.eqb path "/w/main.py" then Some main_py
  else if String.eqb path "/w/locked" then Some locked
  else if String.eqb path "/mail" then Some mail
  else if String.eqb path "/dev/null" then Some null_device
  else None.

(** The same file system after [/repo/.git] has been deleted. *)
Definition lookup_without_git (path : string) : option entry :=
  if String.eqb path "/repo" then Some (Dir "repo" None [readme]) else None.

(** A workspace [/ws] with ignored entries below its first level:
<<
    /ws/app/.git/config    /ws/app/run.py    /ws/app/debug.log
    /ws/app/lib/__pycache__/core.pyc          /ws/app/lib/core.py
>> *)
Definition ws : entry :=
  Dir "ws" None
    [ Dir "app" None
        [ Dir ".git" None [File "config" (Lines [ln "core = app"] None)];
          File "run.py" (Lines [ln "import core"] None);
          File "debug.log" (Lines [ln "core dumped"] None);
          Dir "lib" None
            [ Dir "__pycache__" None [File "core.pyc" (Lines [ln "core"] None)];
              File "core.py" (Lines [ln "# core"] None) ] ] ].

Definition lookup_ws (path : string) : option entry :=
  if String.eqb path "/ws" then Some ws else None.

(** [/ws] after the ignored entries have been deleted. *)
Definition ws_clean : entry :=
  Dir "ws" None
    [ Dir "app" None
        [ File "run.py" (Lines [ln "import core"] None);
          Dir "lib" None [File "core.py" (Lines [ln "# core"] None)] ] ].

Definition lookup_ws_clean (path : string) : option entry :=
  if String.eqb path "/ws" then Some ws_clean else None.

Definition grep_tool := Grep.grep_tool lookup Glob.fnmatch Literal.re_compile.
Definition ls_tool := Ls.ls_tool lookup Glob.fnmatch.
Definition tree_tool := Tree.tree_tool lookup Glob.fnmatch.

End Example.

(* ================================================================= *)
(** ** More concrete directories *)

Module More.

(** [/proj] lists, in this order, [b.txt], the directory [A], [c.txt] and
    the directory [B]. *)
Definition proj : entry :=
  Dir "proj" None
    [ File "b.txt" (Lines [Example.ln "beta"] None);
      Dir "A" None [];
      File "c.txt" (Lines [Example.ln "gamma"] None);
      Dir "B" None [] ].

Definition lookup (path : string) : option entry :=
  if String.eqb path "/proj" then Some proj else Example.lookup path.

Definition grep_tool := Grep.grep_tool lookup Glob.fnmatch Literal.re_compile.
Definition ls_tool := Ls.ls_tool lookup Glob.fnmatch.
Definition tree_tool := Tree.tree_tool lookup Glob.fnmatch.

(** A machine on which a second shell cannot be started: the constructor
    of [BashTerminal] raises once a terminal has been closed.  [close]
    returns, and [execute] returns the command as its output. *)
Definition is_closed (ev : Bash.event) : bool :=
  match ev with Bash.Closed _ => true | _ => false end.

Definition construct_once (h : list Bash.event) (cwd : option Config.yaml)
    : option string :=
  if existsb is_closed h then Some "cannot start bash" else None.

Definition construct_ok (h : list Bash.event) (cwd : option Config.yaml)
    : option string := None.

Definition close_ok (h : list Bash.event) (terminal : nat) : option string := None.

Definition execute_echo (h : list Bash.event) (terminal : nat) (command : string)
    : string + string := inl command.

(** A [config.yaml] whose [workspace:] line has no value. *)
Definition blank_workspace : Config.yaml :=
  Config.YDict [(Config.KStr "project",
                 Config.YDict [(Config.KStr "workspace", Config.YNone)])].

(** A machine with k6 and the script [/srv/load.js]; the temporary file is
    [/tmp/tmpa.json].  k6 writes one JSON document per line, so what it
    leaves is not one JSON document: [loads] accepts the text [{}] only. *)
Definition isfile (path : string) : bool := String.eqb path "/srv/load.js".

Definition loads (s : string) : option K6.json :=
  if String.eqb s "{}" then Some (K6.JObject []) else None.

Definition two_points : string :=
  Example.ln "{'metric':'vus'}" ++ Example.ln "{'metric':'http_reqs'}".

Definition run_k6 (cmd : list string) (env : K6.environment) : K6.run_outcome :=
  K6.Completed 0 "done" "" (K6.Content two_points).

Definition run_raises (cmd : list string) (env : K6.environment) : K6.run_outcome :=
  K6.RunRaises "[Errno 7] Argument list too long: 'k6'".

Definition k6_tool :=
  K6.k6_tool isfile [] K6.Installed (inl "/tmp/tmpa.json") run_k6 loads.

End More.

(* ================================================================= *)
(** * Properties *)

(* ----------------------------------------------------------------- *)
(** ** Path validation *)

Section PathValidation.

Variable lookup : string -> option entry.
Variable fnmatch : string -> string -> bool.
Variable re_compile : string -> bool -> regex + string.








End PathValidation.


(* ----------------------------------------------------------------- *)
(** ** The sort is stable: it commutes with filtering *)

Lemma ascii_compare_lt_trans (x y z : ascii) :
  Ascii.compare x y = Lt -> Ascii.compare y z = Lt -> Ascii.compare x z = Lt.
Proof.
  unfold Ascii.compare. rewrite !N.compare_lt_iff. lia.
Qed.

Lemma string_leb_trans (a b c : string) :
  String.leb a b = true -> String.leb b c = true -> String.leb a c = true.
Proof.
  unfold String.leb. revert b c.
  induction a as [|x a IH]; intros [|y b] [|z c]; simpl; try easy.
  destruct (Ascii.compare x y) eqn:Exy; try easy.
  - apply Ascii.compare_eq_iff in Exy. subst y.
    destruct (Ascii.compare x z); try easy. apply IH.
  - destruct (Ascii.compare y z) eqn:Eyz; try easy.
    + apply Ascii.compare_eq_iff in Eyz. subst z. now rewrite Exy.
    + now rewrite (ascii_compare_lt_trans _ _ _ Exy Eyz).
Qed.

Lemma key_leb_trans (a b c : bool * string) :
  key_leb a b = true -> key_leb b c = true -> key_leb a c = true.
Proof.
  destruct a as [[] a], b as [[] b], c as [[] c]; unfold key_leb; simpl;
    try easy; apply string_leb_trans.
Qed.

Lemma key_leb_total (a b : bool * string) :
  key_leb a b = false -> key_leb b a = true.
Proof.
  destruct a as [[] a], b as [[] b]; unfold key_leb; simpl; try easy;
    intros H; destruct (String.leb_total a b) as [T|T]; congruence.
Qed.

Lemma insert_by_key_in (x y : entry) (l : list entry) :
  In y (insert_by_key x l) <-> y = x \/ In y l.
Proof.
  induction l as [|z l IH]; simpl.
  - intuition congruence.
  - destruct (key_leb (sort_key x) (sort_key z)); simpl; rewrite ?IH;
      intuition congruence.
Qed.

Lemma sort_entries_in (y : entry) (l : list entry) :
  In y (sort_entries l) <-> In y l.
Proof.
  induction l as [|x l IH]; simpl; [tauto|].
  rewrite insert_by_key_in, IH. intuition congruence.
Qed.

Lemma insert_by_key_front (x : entry) (l : list entry) :
  Forall (entry_le x) l -> insert_by_key x l = x :: l.
Proof.
  destruct l as [|y l]; simpl; [easy|].
  intros H. inversion H as [|? ? Hy _]; subst. now rewrite Hy.
Qed.

Lemma insert_by_key_sorted (x : entry) (l : list entry) :
  StronglySorted entry_le l -> StronglySorted entry_le (insert_by_key x l).
Proof.
  induction 1 as [|y l S IH F]; simpl.
  - repeat constructor.
  - destruct (key_leb (sort_key x) (sort_key y)) eqn:E.
    + constructor; [now constructor|]. constructor; [exact E|].
      eapply Forall_impl; [|exact F]. intros z L.
      eapply key_leb_trans; [exact E | exact L].
    + constructor; [exact IH|]. apply Forall_forall. intros z Hz.
      apply insert_by_key_in in Hz. destruct Hz as [->|Hz].
      * now apply key_leb_total.
      * rewrite Forall_forall in F. now apply F.
Qed.

Lemma sort_entries_sorted (l : list entry) : StronglySorted entry_le (sort_entries l).
Proof.
  induction l as [|x l IH]; simpl; [constructor|]. now apply insert_by_key_sorted.
Qed.

Lemma filter_insert_by_key (p : entry -> bool) (x : entry) (l : list entry) :
  StronglySorted entry_le l ->
  filter p (insert_by_key x l)
  = if p x then insert_by_key x (filter p l) else filter p l.
Proof.
  induction 1 as [|y l S IH F]; simpl.
  - now destruct (p x).
  - destruct (key_leb (sort_key x) (sort_key y)) eqn:E; simpl.
    + destruct (p x) eqn:Px; [|reflexivity].
      symmetry. apply (insert_by_key_front x (filter p (y :: l))).
      apply Forall_forall. intros z Hz. apply filter_In in Hz.
      destruct Hz as [[->|Hz] _]; [exact E|].
      rewrite Forall_forall in F.
      eapply key_leb_trans; [exact E | now apply F].
    + rewrite IH. destruct (p y), (p x); simpl; try reflexivity.
      now rewrite E.
Qed.

(** Filtering the sorted list is the same as sorting the filtered list. *)
Lemma filter_sort_entries (p : entry -> bool) (l : list entry) :
  filter p (sort_entries l) = sort_entries (filter p l).
Proof.
  induction l as [|x l IH]; simpl; [reflexivity|].
  rewrite filter_insert_by_key by apply sort_entries_sorted.
  rewrite IH. now destruct (p x).
Qed.

Lemma flat_map_filter {A B : Type} (p : A -> bool) (f : A -> list B) (l : list A) :
  (forall x, p x = false -> f x = []) ->
  flat_map f l = flat_map f (filter p l).
Proof.
  intros H. induction l as [|x l IH]; simpl; [reflexivity|].
  destruct (p x) eqn:Px; simpl; rewrite IH; [reflexivity|].
  now rewrite (H x Px).
Qed.

Lemma filter_without (p : entry -> bool) (e : entry) (l1 l2 : list entry) :
  p e = false -> filter p (l1 ++ e :: l2) = filter p (l1 ++ l2).
Proof.
  intros H. rewrite !filter_app. simpl. now rewrite H.
Qed.

(* ----------------------------------------------------------------- *)
(** ** The tree walker *)

Section TreeWalk.

Variable fnmatch : string -> string -> bool.
Variable ignore_patterns : list string.
Variable match_ : option (list string).
Variable max_depth : Z.

#[local] Abbreviation walk := (Tree._walk_directory fnmatch ignore_patterns match_ max_depth).
#[local] Abbreviation kept := (Tree.kept fnmatch ignore_patterns match_).

#[local] Abbreviation item_node := (item_node fnmatch ignore_patterns match_ max_depth).

Lemma walk_unfold fuel current_path current current_depth :
  walk fuel current_path current current_depth
  = match iterdir current with
    | inr e => [Tree.error_node current_path current e]
    | inl directory_items =>
        flat_map (fun item => if kept item
                              then [item_node fuel current_path current_depth item]
                              else [])
          (sort_entries directory_items)
    end.
Proof. destruct fuel; reflexivity. Qed.

(** What a node of one call of the walker can be. *)
Lemma walk_node fuel current_path current current_depth n :
  In n (walk fuel current_path current current_depth) ->
  (exists e, iterdir current = inr e /\ n = Tree.error_node current_path current e)
  \/ (exists items item,
        iterdir current = inl items /\ In item items /\ kept item = true
        /\ n = item_node fuel current_path current_depth item).
Proof.
  rewrite walk_unfold. destruct (iterdir current) as [items|e].
  - intros H. apply in_flat_map in H. destruct H as (item & Hin & Hn).
    right. exists items, item. apply (proj1 (sort_entries_in _ _)) in Hin.
    destruct (kept item) eqn:K; [|easy].
    destruct Hn as [<-|[]]. repeat split; assumption.
  - intros [<-|[]]. left. now exists e.
Qed.

Lemma walk_item fuel current_path current current_depth items item :
  iterdir current = inl items -> In item items -> kept item = true ->
  In (item_node fuel current_path current_depth item)
     (walk fuel current_path current current_depth).
Proof.
  intros HI Hin K. rewrite walk_unfold, HI. apply in_flat_map.
  exists item. split; [now apply sort_entries_in|]. rewrite K. now left.
Qed.

(** Enough fuel: with [max_depth - current_depth] levels of fuel or more the
    walker never runs out, so any such amount gives the same tree. *)
Lemma walk_fuel_enough fuel fuel' current_path current current_depth :
  (max_depth - current_depth <= Z.of_nat fuel)%Z ->
  (max_depth - current_depth <= Z.of_nat fuel')%Z ->
  walk fuel current_path current current_depth
  = walk fuel' current_path current current_depth.
Proof.
  revert fuel' current_path current current_depth.
  induction fuel as [|fuel IH]; intros fuel' p cur c H H';
    rewrite (walk_unfold _ p cur c), (walk_unfold fuel' p cur c);
    destruct (iterdir cur) as [items|e]; try reflexivity;
    apply flat_map_ext; intros item; destruct (kept item); try reflexivity;
    unfold item_node; destruct (is_dir item); simpl; try reflexivity;
    destruct (Z.ltb_spec c max_depth) as [L|L]; try reflexivity.
  - simpl in H. lia.
  - destruct fuel' as [|fuel']; [simpl in H'; lia|].
    do 3 f_equal. apply IH; lia.
Qed.

Lemma nodes_at_nil level : nodes_at level [] = [].
Proof. destruct level as [|[|level]]; reflexivity. Qed.

Lemma nodes_at_step level items n :
  In n (nodes_at (S (S level)) items) ->
  exists parent sub,
    In parent items /\ Tree.children parent = Some sub /\ In n (nodes_at (S level) sub).
Proof.
  change (nodes_at (S (S level)) items)
    with (flat_map (fun n => match Tree.children n with
                             | Some sub => nodes_at (S level) sub
                             | None => []
                             end) items).
  intros H. apply in_flat_map in H. destruct H as (parent & Hp & Hn).
  destruct (Tree.children parent) as [sub|] eqn:E; [|easy].
  now exists parent, sub.
Qed.

Lemma nodes_at_below level items n :
  In n (nodes_at (S (S level)) items) ->
  exists parent sub,
    In parent (nodes_at (S level) items)
    /\ Tree.children parent = Some sub /\ In n sub.
Proof.
  revert items n. induction level as [|level IH]; intros items n Hn;
    apply nodes_at_step in Hn; destruct Hn as (parent & sub & Hp & Hc & Hn).
  - now exists parent, sub.
  - apply IH in Hn. destruct Hn as (parent' & sub' & Hp' & Hc' & Hn').
    exists parent', sub'. split; [|easy].
    change (nodes_at (S (S level)) items)
      with (flat_map (fun n => match Tree.children n with
                               | Some sub => nodes_at (S level) sub
                               | None => []
                               end) items).
    apply in_flat_map. exists parent. split; [exact Hp|]. now rewrite Hc.
Qed.

(** A node the walker produces at the maximum depth is a leaf. *)
Lemma walk_leaf_at_max_depth level fuel current_path current current_depth n :
  (current_depth + Z.of_nat level = max_depth)%Z ->
  In n (nodes_at (S level) (walk fuel current_path current current_depth)) ->
  Tree.children n = None.
Proof.
  revert fuel current_path current current_depth n.
  induction level as [|level IH]; intros fuel p cur c n Hd Hn.
  - simpl in Hn. apply walk_node in Hn.
    destruct Hn as [(e & _ & ->)|(items & item & _ & _ & _ & ->)]; [reflexivity|].
    simpl. replace (c <? max_depth)%Z with false by (symmetry; apply Z.ltb_ge; lia).
    now rewrite andb_false_r.
  - apply nodes_at_step in Hn. destruct Hn as (parent & sub & Hp & Hc & Hn).
    apply walk_node in Hp.
    destruct Hp as [(e & _ & ->)|(items & item & _ & _ & _ & ->)]; [discriminate|].
    simpl in Hc.
    destruct (is_dir item && (c <? max_depth)%Z); [|discriminate].
    destruct fuel as [|fuel]; injection Hc as <-.
    + now rewrite nodes_at_nil in Hn.
    + apply IH in Hn; [exact Hn | lia].
Qed.

(** A directory node above the maximum depth has a children field. *)
Lemma walk_children_above_max_depth level fuel current_path current current_depth n :
  (current_depth + Z.of_nat level < max_depth)%Z ->
  In n (nodes_at (S level) (walk fuel current_path current current_depth)) ->
  Tree.type n = Tree.directory -> Tree.error n = None ->
  exists sub, Tree.children n = Some sub.
Proof.
  revert fuel current_path current current_depth n.
  induction level as [|level IH]; intros fuel p cur c n Hd Hn Ty Er.
  - simpl in Hn. apply walk_node in Hn.
    destruct Hn as [(e & _ & ->)|(items & item & _ & _ & _ & ->)];
      [now destruct e|].
    simpl in Ty |- *. destruct (is_dir item); [|discriminate]. simpl.
    replace (c <? max_depth)%Z with true by (symmetry; apply Z.ltb_lt; lia).
    destruct fuel; eexists; reflexivity.
  - apply nodes_at_step in Hn. destruct Hn as (parent & sub & Hp & Hc & Hn).
    apply walk_node in Hp.
    destruct Hp as [(e & _ & ->)|(items & item & _ & _ & _ & ->)]; [discriminate|].
    simpl in Hc.
    destruct (is_dir item && (c <? max_depth)%Z); [|discriminate].
    destruct fuel as [|fuel]; injection Hc as <-.
    + now rewrite nodes_at_nil in Hn.
    + apply IH in Hn; [exact Hn | lia | exact Ty | exact Er].
Qed.

End TreeWalk.

Lemma effective_depth_clamp (d : Z) : Tree.effective_depth d = clamp d 1 3.
Proof.
  unfold Tree.effective_depth, clamp.
  destruct (Z.ltb_spec d 1), (Z.ltb_spec 3 d); lia.
Qed.

(* ----------------------------------------------------------------- *)
(** ** Directories that cannot be read *)

Section Unreadable.

Variable fnmatch : string -> string -> bool.
Variable ignore_patterns : list string.
Variable match_ : option (list string).
Variable max_depth : Z.
Variable root_path : string.
Variable root : entry.

#[local] Abbreviation walk' := (Tree._walk_directory fnmatch ignore_patterns match_ max_depth).
#[local] Abbreviation reached :=
  (walked fnmatch ignore_patterns match_ max_depth root_path root).

(** Everything a call of the walker returns is part of the tree [tree_tool]
    returns. *)
Lemma walked_in_tree fuel0 path dir depth :
  (max_depth - 1 <= Z.of_nat fuel0)%Z ->
  reached path dir depth ->
  exists fuel,
    (max_depth - depth <= Z.of_nat fuel)%Z
    /\ forall n, In n (walk' fuel path dir depth) ->
                 In_tree (walk' fuel0 root_path root 1) n.
Proof.
  intros F W. induction W as [|path dir depth items item W IH HI Hin K D L].
  - exists fuel0. split; [exact F|]. intros n Hn. now apply in_top.
  - destruct IH as (fuel & Hf & IH).
    destruct fuel as [|fuel]; [simpl in Hf; lia|].
    exists fuel. split; [lia|]. intros n Hn.
    eapply in_children with
      (parent := item_node fnmatch ignore_patterns match_ max_depth (S fuel) path depth item).
    + apply IH. eapply walk_item; eassumption.
    + simpl. rewrite D. simpl.
      replace (depth <? max_depth)%Z with true by (symmetry; apply Z.ltb_lt; lia).
      reflexivity.
    + exact Hn.
Qed.

Lemma error_leaf_in_tree fuel0 path dir depth e :
  (max_depth - 1 <= Z.of_nat fuel0)%Z ->
  reached path dir depth -> iterdir dir = inr e ->
  In_tree (walk' fuel0 root_path root 1) (Tree.error_node path dir e).
Proof.
  intros F W E. destruct (walked_in_tree fuel0 path dir depth F W) as (fuel & _ & H).
  apply H. rewrite walk_unfold, E. now left.
Qed.

Lemma kept_item_in_tree fuel0 path dir depth items item :
  (max_depth - 1 <= Z.of_nat fuel0)%Z ->
  reached path dir depth -> iterdir dir = inl items -> In item items ->
  Tree.kept fnmatch ignore_patterns match_ item = true ->
  exists n,
    In_tree (walk' fuel0 root_path root 1) n
    /\ Tree.node_name n = name item
    /\ Tree.node_path n = Str.child path (name item)
    /\ Tree.error n = None.
Proof.
  intros F W HI Hin K. destruct (walked_in_tree fuel0 path dir depth F W) as (fuel & _ & H).
  exists (item_node fnmatch ignore_patterns match_ max_depth fuel path depth item).
  split; [|easy]. apply H. eapply walk_item; eassumption.
Qed.

(** Every node of the tree comes out of some call of the walker. *)
Lemma in_tree_walked fuel0 n :
  In_tree (walk' fuel0 root_path root 1) n ->
  exists fuel path dir depth, In n (walk' fuel path dir depth).
Proof.
  induction 1 as [n Hn|parent sub n _ IH Hc Hn].
  - now exists fuel0, root_path, root, 1%Z.
  - destruct IH as (fuel & path & dir & depth & Hp).
    apply walk_node in Hp.
    destruct Hp as [(e & _ & ->)|(items & item & _ & _ & _ & ->)]; [discriminate|].
    simpl in Hc. destruct (is_dir item && (depth <? max_depth)%Z); [|discriminate].
    destruct fuel as [|fuel]; injection Hc as <-; [easy|].
    now exists fuel, (Str.child path (name item)), item, (depth + 1)%Z.
Qed.

(** No node has both a children field and an error field. *)
Lemma error_excludes_children fuel0 n :
  In_tree (walk' fuel0 root_path root 1) n ->
  Tree.error n = None \/ Tree.children n = None.
Proof.
  intros H. apply in_tree_walked in H. destruct H as (fuel & path & dir & depth & Hn).
  apply walk_node in Hn.
  destruct Hn as [(e & _ & ->)|(items & item & _ & _ & _ & ->)]; [now right | now left].
Qed.

(** The walker is called at the depths from 1 to the maximum only. *)
Lemma walked_depth path dir depth :
  (1 <= max_depth)%Z -> reached path dir depth -> (1 <= depth <= max_depth)%Z.
Proof.
  intros M W. induction W as [|path dir depth items item W IH HI Hin K D L]; lia.
Qed.

(** The node of a kept directory: above the maximum depth it holds what the
    walker returns for the directory, at the maximum depth it has no
    children field. *)
Lemma kept_directory_in_tree fuel0 fuel1 path dir depth items item :
  (max_depth - 1 <= Z.of_nat fuel0)%Z ->
  (max_depth - (depth + 1) <= Z.of_nat fuel1)%Z ->
  reached path dir depth -> iterdir dir = inl items -> In item items ->
  Tree.kept fnmatch ignore_patterns match_ item = true -> is_dir item = true ->
  In_tree (walk' fuel0 root_path root 1)
    (Tree.Node (name item) Tree.directory (Str.child path (name item))
       (if (depth <? max_depth)%Z
        then Some (walk' fuel1 (Str.child path (name item)) item (depth + 1)%Z)
        else None)
       None).
Proof.
  intros F F1 W HI Hin K D.
  destruct (walked_in_tree fuel0 path dir depth F W) as (fuel & Hf & H).
  assert (Hn := walk_item fnmatch ignore_patterns match_ max_depth fuel path dir depth
                  items item HI Hin K).
  apply H in Hn. unfold item_node in Hn. rewrite D in Hn. cbn [andb] in Hn.
  destruct (Z.ltb_spec depth max_depth) as [L|L]; [|exact Hn].
  destruct fuel as [|fuel]; [simpl in Hf; lia|].
  rewrite (walk_fuel_enough fnmatch ignore_patterns match_ max_depth fuel fuel1) in Hn;
    [exact Hn | lia | lia].
Qed.

End Unreadable.

(** [tree_tool] always returns. *)
Lemma tree_tool_returns lookup fnmatch path d match_ ignore :
  exists r, Tree.tree_tool lookup fnmatch path d match_ ignore = Return r.
Proof.
  unfold Tree.tree_tool.
  destruct (negb (Str.is_absolute path)); [eauto|].
  destruct (lookup path); [|eauto].
  destruct (negb (is_dir e)); eauto.
Qed.

(** C6.  Whatever depth [d] is asked for, a successful [tree_tool] walks
    with the effective depth [clamp d 1 3], which it also reports; the walk
    starts on the given directory with the depth counter at 1, so the
    entries of that directory are level 1 of the tree (any amount of fuel
    that covers the remaining levels gives this same tree); and every node
    at the level equal to the effective depth has no children field,
    whatever the directory holds on disk.  Nothing lies below that level.
    Above that level the walk does go on: every directory node at a level
    below the effective depth (other than an error leaf) has a children
    field.  In terms of the disk: the walker is called at the depths from 1
    to the effective depth only, and a directory that is kept in the
    listing of a directory it is called on at depth [k] is returned with a
    children field, holding what the walker returns for it at depth
    [k + 1], when [k] is less than the effective depth, and without a
    children field when [k] is the effective depth. *)
Theorem tree_depth_limit (lookup : string -> option entry)
    (fnmatch : string -> string -> bool) (path : string) (d : Z)
    (match_ ignore : option (list string)) (r : Tree.TreeResult) :
  Tree.tree_tool lookup fnmatch path d match_ ignore = Return (Success r) ->
  let depth := clamp d 1 3 in
  Tree.max_depth r = depth
  /\ (1 <= depth <= 3)%Z
  /\ (exists target,
        lookup path = Some target
        /\ forall fuel,
             (depth - 1 <= Z.of_nat fuel)%Z ->
             Tree.tree r
             = Tree._walk_directory fnmatch
                 (or_empty ignore ++ Tree.DEFAULT_IGNORE_PATTERNS)
                 match_ depth fuel path target 1)
  /\ (forall n, In n (nodes_at (Z.to_nat depth) (Tree.tree r)) ->
                Tree.children n = None)
  /\ nodes_at (S (Z.to_nat depth)) (Tree.tree r) = []
  /\ (forall level n,
        1 <= level -> (Z.of_nat level < depth)%Z ->
        In n (nodes_at level (Tree.tree r)) ->
        Tree.type n = Tree.directory -> Tree.error n = None ->
        exists sub, Tree.children n = Some sub)
  /\ (forall root p dir k items item,
        lookup path = Some root ->
        walked fnmatch (or_empty ignore ++ Tree.DEFAULT_IGNORE_PATTERNS) match_ depth
          path root p dir k ->
        iterdir dir = inl items -> In item items ->
        Tree.kept fnmatch (or_empty ignore ++ Tree.DEFAULT_IGNORE_PATTERNS) match_ item
        = true ->
        is_dir item = true ->
        (1 <= k <= depth)%Z
        /\ In_tree (Tree.tree r)
             (Tree.Node (name item) Tree.directory (Str.child p (name item))
                (if (k <? depth)%Z
                 then Some (Tree._walk_directory fnmatch
                              (or_empty ignore ++ Tree.DEFAULT_IGNORE_PATTERNS)
                              match_ depth (Z.to_nat depth)
                              (Str.child p (name item)) item (k + 1))
                 else None)
                None)).
Proof.
  intros H depth. unfold Tree.tree_tool in H.
  rewrite effective_depth_clamp in H. fold depth in H.
  destruct (negb (Str.is_absolute path)); [discriminate|].
  destruct (lookup path) as [target|]; [|discriminate].
  destruct (negb (is_dir target)); [discriminate|].
  injection H as <-. cbn [Tree.max_depth Tree.tree].
  assert (B : (1 <= depth <= 3)%Z).
  { unfold depth, clamp. destruct (Z.ltb_spec d 1), (Z.ltb_spec 3 d); lia. }
  assert (L : forall n,
             In n (nodes_at (Z.to_nat depth)
                     (Tree._walk_directory fnmatch
                        (or_empty ignore ++ Tree.DEFAULT_IGNORE_PATTERNS) match_ depth
                        (Z.to_nat depth) path target 1)) ->
             Tree.children n = None).
  { intros n Hn. replace (Z.to_nat depth) with (S (Z.to_nat (depth - 1))) in Hn at 1 by lia.
    eapply walk_leaf_at_max_depth; [|exact Hn]. lia. }
  split; [reflexivity|]. split; [exact B|]. split.
  { exists target. split; [reflexivity|]. intros fuel Hf.
    apply walk_fuel_enough; lia. }
  split; [exact L|]. split.
  { match goal with |- ?x = [] => destruct x as [|n rest] eqn:E end; [reflexivity|].
    exfalso.
    assert (Hn : In n (nodes_at (S (Z.to_nat depth))
                         (Tree._walk_directory fnmatch
                            (or_empty ignore ++ Tree.DEFAULT_IGNORE_PATTERNS) match_ depth
                            (Z.to_nat depth) path target 1))).
    { rewrite E. now left. }
    replace (Z.to_nat depth) with (S (Z.to_nat (depth - 1))) in Hn at 1 by lia.
    apply nodes_at_below in Hn. destruct Hn as (parent & sub & Hp & Hc & _).
    replace (S (Z.to_nat (depth - 1))) with (Z.to_nat depth) in Hp by lia.
    apply L in Hp. congruence. }
  split.
  { intros level n L1 L2 Hn Ty Er.
    destruct level as [|level]; [lia|].
    eapply walk_children_above_max_depth; [|exact Hn|exact Ty|exact Er]. lia. }
  intros root p dir k items item R W HI Hin K D. injection R as <-.
  split; [apply (walked_depth _ _ _ _ _ _ _ _ _ (proj1 B) W)|].
  apply (kept_directory_in_tree fnmatch (or_empty ignore ++ Tree.DEFAULT_IGNORE_PATTERNS)
           match_ depth path target (Z.to_nat depth) (Z.to_nat depth) p dir k items item);
    try assumption; try lia.
  pose proof (walked_depth _ _ _ _ _ _ _ _ _ (proj1 B) W). lia.
Qed.

(** [tree_depth_limit] on [/w].  With depth 2 the directory [/w/a/b] holds
    [c/] on disk and is returned at level 2 without a children field.  With
    depth 7 the effective depth is 3: [/w/a/b] is returned at level 2 with
    its children, and [/w/a/b/c], which holds [deep.txt], at level 3
    without a children field. *)
Lemma tree_depth_limit_witness :
  (exists r,
     Example.tree_tool "/w" 2 None None = Return (Success r)
     /\ Tree.max_depth r = 2%Z
     /\ In (Tree.Node "b" Tree.directory "/w/a/b" None None) (nodes_at 2 (Tree.tree r))
     /\ (forall n, In n (nodes_at 2 (Tree.tree r)) -> Tree.children n = None))
  /\ (exists r,
        Example.tree_tool "/w" 7 None None = Return (Success r)
        /\ Tree.max_depth r = 3%Z
        /\ In (Tree.Node "b" Tree.directory "/w/a/b"
                 (Some [Tree.Node "c" Tree.directory "/w/a/b/c" None None]) None)
             (nodes_at 2 (Tree.tree r))
        /\ (exists sub,
              Tree.children
                (Tree.Node "b" Tree.directory "/w/a/b"
                   (Some [Tree.Node "c" Tree.directory "/w/a/b/c" None None]) None)
              = Some sub)
        /\ (forall n, In n (nodes_at 3 (Tree.tree r)) -> Tree.children n = None)
        /\ nodes_at 4 (Tree.tree r) = []).
Proof.
  split.
  - eexists. split; [reflexivity|].
    destruct (tree_depth_limit Example.lookup Glob.fnmatch "/w" 2 None None _ eq_refl)
      as (M & _ & _ & L & _).
    split; [exact M|]. split; [simpl; tauto | exact L].
  - eexists. split; [reflexivity|].
    destruct (tree_depth_limit Example.lookup Glob.fnmatch "/w" 7 None None _ eq_refl)
      as (M & _ & _ & L & E & A & _).
    split; [exact M|]. split; [simpl; tauto|].
    split; [|split; [exact L | exact E]].
    apply (A 2 _ (le_S _ _ (le_n 1)) eq_refl); [simpl; tauto | reflexivity | reflexivity].
Defined.

(** C2.  Let [tree_tool] be run on a directory [root].  It returns a result
    and raises nothing.  For every directory [dir] the walker is called on
    (the root, or a kept directory entry above the depth limit): if
    enumerating [dir] fails with [e], the call returns exactly one node, a
    leaf for [dir] of kind directory, without a children field and with an
    error string (["Permission denied"] for a permission error, [str(e)]
    otherwise), and that leaf is in the returned tree; if enumerating [dir]
    succeeds, every entry of [dir] that passes the filters has its node in
    the returned tree, so the entries next to an unreadable directory are
    all there.  No node of the tree has both a children field and an error
    field.  (For a directory other than the root the leaf is the one
    element of the children list of the directory's own node.) *)
Theorem unreadable_directory_is_error_leaf (lookup : string -> option entry)
    (fnmatch : string -> string -> bool) (path : string) (d : Z)
    (match_ ignore : option (list string)) (root : entry) (r : Tree.TreeResult) :
  lookup path = Some root ->
  Tree.tree_tool lookup fnmatch path d match_ ignore = Return (Success r) ->
  let ignore_patterns := or_empty ignore ++ Tree.DEFAULT_IGNORE_PATTERNS in
  let max_depth := Tree.effective_depth d in
  (forall path' d' match' ignore',
      exists r', Tree.tree_tool lookup fnmatch path' d' match' ignore' = Return r')
  /\ (forall p dir depth,
        walked fnmatch ignore_patterns match_ max_depth path root p dir depth ->
        (forall e, iterdir dir = inr e ->
           let leaf := Tree.error_node p dir e in
           (forall fuel,
              Tree._walk_directory fnmatch ignore_patterns match_ max_depth fuel
                p dir depth = [leaf])
           /\ In_tree (Tree.tree r) leaf
           /\ Tree.node_name leaf = name dir
           /\ Tree.node_path leaf = p
           /\ Tree.type leaf = Tree.directory
           /\ Tree.children leaf = None
           /\ Tree.error leaf
              = Some match e with
                     | PermissionError => "Permission denied"
                     | OtherError msg => msg
                     end)
        /\ (forall items item,
              iterdir dir = inl items -> In item items ->
              Tree.kept fnmatch ignore_patterns match_ item = true ->
              exists n,
                In_tree (Tree.tree r) n
                /\ Tree.node_name n = name item
                /\ Tree.node_path n = Str.child p (name item)
                /\ Tree.error n = None))
  /\ (forall n, In_tree (Tree.tree r) n ->
                Tree.error n = None \/ Tree.children n = None).
Proof.
  intros HL H ignore_patterns max_depth.
  unfold Tree.tree_tool in H. fold max_depth in H.
  destruct (negb (Str.is_absolute path)); [discriminate|].
  rewrite HL in H.
  destruct (negb (is_dir root)); [discriminate|].
  injection H as <-. cbn [Tree.tree]. fold ignore_patterns.
  assert (F : (max_depth - 1 <= Z.of_nat (Z.to_nat max_depth))%Z) by lia.
  split; [intros; apply tree_tool_returns|]. split.
  - intros p dir depth W. split.
    + intros e E. split.
      { intros fuel. rewrite walk_unfold, E. reflexivity. }
      split; [now apply error_leaf_in_tree with (depth := depth)|].
      now destruct e.
    + intros items item HI Hin K.
      now apply kept_item_in_tree with (dir := dir) (depth := depth) (items := items).
  - intros n Hn. eapply error_excludes_children; exact Hn.
Qed.

(** [unreadable_directory_is_error_leaf] on [/w], whose directory [locked]
    cannot be enumerated: the leaf for [locked] is in the tree, and so is
    the node of [docs], which is sorted after [locked]. *)
Lemma unreadable_directory_witness :
  exists r,
    Example.tree_tool "/w" 3 None None = Return (Success r)
    /\ In_tree (Tree.tree r)
         (Tree.Node "locked" Tree.directory "/w/locked" None (Some "Permission denied"))
    /\ (exists n, In_tree (Tree.tree r) n
                  /\ Tree.node_name n = "docs" /\ Tree.node_path n = "/w/docs"
                  /\ Tree.error n = None).
Proof.
  eexists. split; [reflexivity|].
  destruct (unreadable_directory_is_error_leaf Example.lookup Glob.fnmatch "/w" 3
              None None Example.w _ eq_refl eq_refl) as (_ & W & _).
  split.
  - assert (R : walked Glob.fnmatch (or_empty None ++ Tree.DEFAULT_IGNORE_PATTERNS)
                  None (Tree.effective_depth 3) "/w" Example.w
                  "/w/locked" Example.locked 2).
    { apply (walked_into _ _ _ _ _ _ "/w" Example.w 1
               [Example.main_py; Example.deep; Example.locked; Example.docs;
                Example.null_device] Example.locked).
      - apply walked_root.
      - reflexivity.
      - simpl. tauto.
      - reflexivity.
      - reflexivity.
      - reflexivity. }
    destruct (W _ _ _ R) as (E & _).
    destruct (E PermissionError eq_refl) as (_ & T & _). exact T.
  - destruct (W "/w" Example.w 1%Z (walked_root _ _ _ _ _ _)) as (_ & K).
    apply (K [Example.main_py; Example.deep; Example.locked; Example.docs;
              Example.null_device] Example.docs eq_refl).
    + simpl. tauto.
    + reflexivity.
Defined.

(* ----------------------------------------------------------------- *)
(** ** Entries the filters drop count as absent *)

Section TreeFilters.

Variable fnmatch : string -> string -> bool.
Variable ignore_patterns : list string.
Variable match_ : option (list string).
Variable max_depth : Z.

#[local] Abbreviation walk'' := (Tree._walk_directory fnmatch ignore_patterns match_ max_depth).

(** An entry the loop body skips, and everything under it, leaves no trace
    in what the walker returns. *)
Lemma walk_without fuel path dname denied before e after depth :
  Tree.kept fnmatch ignore_patterns match_ e = false ->
  walk'' fuel path (Dir dname denied (before ++ e :: after)) depth
  = walk'' fuel path (Dir dname denied (before ++ after)) depth.
Proof.
  intros K. rewrite !walk_unfold. destruct denied as [ex|]; simpl; [reflexivity|].
  set (f := fun item : entry =>
              if Tree.kept fnmatch ignore_patterns match_ item
              then [item_node fnmatch ignore_patterns match_ max_depth fuel path depth item]
              else []).
  assert (Hf : forall x, Tree.kept fnmatch ignore_patterns match_ x = false -> f x = []).
  { intros x Hx. unfold f. now rewrite Hx. }
  rewrite (flat_map_filter _ f (sort_entries (before ++ e :: after)) Hf).
  rewrite (flat_map_filter _ f (sort_entries (before ++ after)) Hf).
  rewrite !filter_sort_entries. now rewrite (filter_without _ e before after K).
Qed.


End TreeFilters.



(* ----------------------------------------------------------------- *)
(** ** The built-in ignore patterns *)

Lemma existsb_pattern (fnmatch : string -> string -> bool) (n : string)
    (patterns : list string) :
  (exists d, In d patterns /\ fnmatch n d = true) ->
  existsb (fnmatch n) patterns = true.
Proof.
  intros (d & Hd & M). apply existsb_exists. now exists d.
Qed.

Lemma listed_without fnmatch match_ ignore before e after :
  existsb (fnmatch (name e)) (or_empty ignore ++ Ls.DEFAULT_IGNORE_PATTERNS) = true ->
  Ls.listed fnmatch match_ ignore (before ++ e :: after)
  = Ls.listed fnmatch match_ ignore (before ++ after).
Proof.
  intros I. unfold Ls.listed.
  destruct (truthy match_).
  - rewrite !filter_sort_entries. f_equal.
    rewrite !filter_app. simpl.
    destruct (existsb (fnmatch (name e)) (or_empty match_)); [|reflexivity].
    simpl. now rewrite I.
  - rewrite !filter_sort_entries. f_equal. apply filter_without. now rewrite I.
Qed.

Section GrepFilters.

Variable fnmatch : string -> string -> bool.
Variable ignore_patterns : list string.
Variable file_pattern : option (list string).
Variable regex_pattern : regex.
Variable max_results : Z.

#[local] Abbreviation should_ignore := (Grep.should_ignore fnmatch ignore_patterns).
#[local] Abbreviation should_search_file :=
  (Grep.should_search_file fnmatch ignore_patterns file_pattern).
#[local] Abbreviation search_file :=
  (Grep.search_file regex_pattern max_results).
#[local] Abbreviation search_files :=
  (Grep.search_files fnmatch ignore_patterns file_pattern regex_pattern max_results).
#[local] Abbreviation search_items :=
  (Grep.search_items fnmatch ignore_patterns file_pattern regex_pattern max_results).
#[local] Abbreviation search_walk :=
  (Grep.search_walk fnmatch ignore_patterns file_pattern regex_pattern max_results).
#[local] Abbreviation grep_walk := (Grep.walk fnmatch ignore_patterns).

Lemma ignored_not_searched n :
  should_ignore n = true -> should_search_file n = false.
Proof. intros H. unfold Grep.should_search_file. now rewrite H. Qed.

Lemma search_files_without root before e after st :
  should_search_file (name e) = false -> Grep.truncated st = false ->
  search_files root (before ++ e :: after) st = search_files root (before ++ after) st.
Proof.
  intros S. revert st. induction before as [|f before IH]; intros st T; simpl.
  - now rewrite S, T.
  - match goal with
    | |- (if Grep.truncated ?s then _ else _) = _ =>
        destruct (Grep.truncated s) eqn:T'; [reflexivity | now apply IH]
    end.
Qed.

Lemma search_items_without path before e after st :
  should_search_file (name e) = false -> Grep.truncated st = false ->
  search_items path (before ++ e :: after) st = search_items path (before ++ after) st.
Proof.
  intros S. revert st. induction before as [|f before IH]; intros st T; simpl.
  - now rewrite S, andb_false_r, T.
  - match goal with
    | |- (if Grep.truncated ?s then _ else _) = _ =>
        destruct (Grep.truncated s) eqn:T'; [reflexivity | now apply IH]
    end.
Qed.

Lemma search_walk_without root dname denied before e after st :
  should_ignore (name e) = true -> Grep.truncated st = false ->
  search_walk (grep_walk root (Dir dname denied (before ++ e :: after))) st
  = search_walk (grep_walk root (Dir dname denied (before ++ after))) st.
Proof.
  intros I T. destruct denied as [ex|]; [reflexivity|]. simpl.
  rewrite !flat_map_app. simpl. rewrite I, andb_false_r. simpl.
  destruct (is_dir e) eqn:D.
  - rewrite (filter_without (fun c => negb (is_dir c)) e before after)
      by now rewrite D.
    reflexivity.
  - rewrite !filter_app. simpl. rewrite D. simpl.
    rewrite search_files_without; [reflexivity | now apply ignored_not_searched | exact T].
Qed.

Lemma search_without path dname denied before e after recursive :
  should_ignore (name e) = true ->
  Grep.search fnmatch ignore_patterns file_pattern regex_pattern max_results path
    (Dir dname denied (before ++ e :: after)) recursive
  = Grep.search fnmatch ignore_patterns file_pattern regex_pattern max_results path
      (Dir dname denied (before ++ after)) recursive.
Proof.
  intros I. unfold Grep.search. cbn [is_file].
  destruct recursive.
  - now rewrite search_walk_without.
  - destruct denied as [ex|]; [reflexivity|]. cbn [iterdir].
    rewrite search_items_without; [reflexivity | now apply ignored_not_searched | reflexivity].
Qed.

End GrepFilters.

(* ----------------------------------------------------------------- *)
(** ** The search: one file *)

Section GrepScan.

Variable regex_pattern : regex.
Variable max_results : Z.

#[local] Abbreviation cap_reached := (Grep.cap_reached max_results).
#[local] Abbreviation room' := (room max_results).
#[local] Abbreviation scan_lines := (Grep.scan_lines regex_pattern max_results).
#[local] Abbreviation line_matches' := (line_matches regex_pattern).

Lemma room_zero st : cap_reached st = true <-> room' st = 0.
Proof.
  unfold Grep.cap_reached, room. rewrite Z.leb_le. lia.
Qed.

Lemma room_positive st : cap_reached st = false -> exists r, room' st = S r.
Proof.
  intros H. destruct (room' st) as [|r] eqn:E; [|now exists r].
  apply room_zero in E. congruence.
Qed.

Lemma room_append m st : room' (Grep.append_match m st) = room' st - 1.
Proof.
  unfold room. simpl. rewrite length_app. simpl. lia.
Qed.

#[local] Abbreviation scan_spec' := (scan_spec regex_pattern max_results).

Lemma scan_lines_spec file_path lines :
  forall line_num file_matched st,
    Grep.truncated st = false ->
    scan_spec' file_path line_num lines file_matched st
      (scan_lines file_path lines line_num file_matched st).
Proof.
  induction lines as [|line rest IH]; intros n fm st T; unfold scan_spec.
  - simpl. rewrite firstn_nil, !app_nil_r, Nat.add_0_r.
    split; [reflexivity|]. split; [reflexivity|]. split; [reflexivity|].
    split; [now destruct fm|].
    exists 0. simpl. rewrite app_nil_r.
    split; [reflexivity|]. split; [lia|]. split; [easy|]. congruence.
  - cbn [Grep.scan_lines line_matches]. destruct (cap_reached st) eqn:C.
    + apply room_zero in C. rewrite C. simpl. rewrite !app_nil_r, Nat.add_0_r.
      split; [reflexivity|]. split; [reflexivity|]. split; [reflexivity|].
      split; [now destruct fm|].
      exists 0. simpl. rewrite app_nil_r.
      split; [reflexivity|]. split; [lia|]. split; [discriminate|].
      intros _. split; [lia | exact C].
    + destruct (room_positive st C) as (r & R).
      destruct (regex_pattern line) as [span|] eqn:M.
      * set (st2 := Grep.append_match _ _).
        assert (T2 : Grep.truncated st2 = false) by (destruct fm; exact T).
        assert (R2 : room' st2 = r).
        { unfold st2. rewrite room_append. destruct fm; unfold room in *; simpl; lia. }
        destruct (IH (S n) true st2 T2) as (I1 & I2 & I3 & I4 & k & I5 & I6 & I7 & I8).
        rewrite R2 in *. rewrite R. cbn [firstn List.length].
        split; [rewrite I1; unfold st2; simpl; destruct fm; simpl; now rewrite <- app_assoc|].
        split; [rewrite I2; unfold st2; now destruct fm|].
        split; [rewrite I3; unfold st2; destruct fm; simpl; lia|].
        split; [rewrite I4; unfold st2; destruct fm; simpl; lia|].
        exists (S k).
        split; [rewrite I5; unfold st2; destruct fm; simpl; now rewrite <- app_assoc|].
        split; [simpl; lia|].
        split.
        -- intros H. destruct (I7 H) as (-> & ->). now split.
        -- intros H. destruct (I8 H) as (K & Z). split; [simpl; lia | exact Z].
      * set (st1 := Grep.log _ st).
        assert (T1 : Grep.truncated st1 = false) by exact T.
        destruct (IH (S n) fm st1 T1) as (I1 & I2 & I3 & I4 & k & I5 & I6 & I7 & I8).
        change (room' st1) with (room' st) in *.
        split; [exact I1|]. split; [exact I2|]. split; [exact I3|]. split; [exact I4|].
        exists (S k).
        split; [rewrite I5; unfold st1; simpl; now rewrite <- app_assoc|].
        split; [simpl; lia|].
        split.
        -- intros H. destruct (I7 H) as (-> & E). now split.
        -- intros H. destruct (I8 H) as (K & Z). split; [simpl; lia | exact Z].
Qed.

#[local] Abbreviation search_file' := (Grep.search_file regex_pattern max_results).
#[local] Abbreviation file_spec' := (file_spec regex_pattern max_results).
#[local] Abbreviation all_spec' := (all_spec regex_pattern max_results).
#[local] Abbreviation search_all' := (search_all regex_pattern max_results).

Lemma seq_split (start k len : nat) :
  k <= len -> seq start len = seq start k ++ seq (start + k) (len - k).
Proof. intros H. rewrite <- seq_app. f_equal. lia. Qed.

Lemma search_file_spec c st :
  Grep.truncated st = false ->
  file_spec' c st (search_file' (fst c) (snd c) st).
Proof.
  intros T. destruct c as [p d]. unfold file_spec, Grep.search_file.
  cbn [fst snd].
  set (st1 := Grep.count_searched st).
  change (Grep.cap_reached max_results st1) with (Grep.cap_reached max_results st).
  destruct (cap_reached st) eqn:C.
  - apply room_zero in C. rewrite C. simpl. rewrite app_nil_r, !Nat.add_0_r.
    split; [reflexivity|]. split; [reflexivity|]. split; [reflexivity|].
    split; [reflexivity|].
    exists [], (file_log (p, d)). rewrite app_nil_r.
    split; [reflexivity|]. split; [reflexivity|]. split; [discriminate|].
    intros _. split; [discriminate | exact C].
  - set (st2 := Grep.log (Grep.Opened p) st1).
    destruct d as [e|ls tail].
    + unfold file_matches. simpl. rewrite firstn_nil, app_nil_r, !Nat.add_0_r.
      split; [reflexivity|]. split; [reflexivity|]. split; [reflexivity|].
      split; [reflexivity|].
      exists [Grep.Opened p], [].
      split; [reflexivity|]. split; [reflexivity|]. split; [easy|].
      intros H. change (Grep.truncated st = true) in H. congruence.
    + assert (T2 : Grep.truncated st2 = false) by exact T.
      destruct (scan_lines_spec p ls 1 false st2 T2)
        as (I1 & I2 & I3 & I4 & k & I5 & I6 & I7 & I8).
      change (room' st2) with (room' st) in *.
      unfold file_matches. cbn [fst snd lines_of].
      split; [exact I1|]. split; [exact I2|]. split; [exact I3|]. split; [exact I4|].
      exists (Grep.Opened p :: map (Grep.Searched p) (seq 1 k)),
             (map (Grep.Searched p) (seq (1 + k) (List.length ls - k))).
      split; [rewrite I5; unfold st2; simpl; now rewrite <- app_assoc|].
      split.
      { unfold file_log. cbn [fst snd lines_of].
        rewrite (seq_split 1 k (List.length ls) I6), map_app. reflexivity. }
      split.
      * intros H. destruct (I7 H) as (-> & E). rewrite Nat.sub_diag. now split.
      * intros H. destruct (I8 H) as (K & Z). split; [|exact Z].
        destruct (List.length ls - k) as [|j] eqn:J; [lia | discriminate].
Qed.

Lemma room_after st st' found :
  Grep.matches st' = Grep.matches st ++ found ->
  room' st' = room' st - List.length found.
Proof. intros E. unfold room. rewrite E, length_app. lia. Qed.

Lemma firstn_all_inv {A : Type} (n : nat) (l : list A) :
  firstn n l = l -> List.length l <= n.
Proof.
  intros E. assert (H := firstn_le_length n l). rewrite E in H.
  assert (H' := length_firstn n l). rewrite E in H'. lia.
Qed.

Lemma search_all_spec cands :
  forall st, Grep.truncated st = false -> all_spec' cands st (search_all' cands st).
Proof.
  induction cands as [|c rest IH]; intros st T; unfold all_spec.
  - simpl. rewrite firstn_nil, app_nil_r, !Nat.add_0_r.
    split; [reflexivity|]. split; [reflexivity|]. split; [lia|]. split; [lia|].
    exists [], []. rewrite app_nil_r.
    split; [reflexivity|]. split; [reflexivity|]. split; [easy|]. congruence.
  - cbn [search_all complete_matches complete_log flat_map List.length filter].
    fold (complete_matches regex_pattern rest). fold (complete_log rest).
    destruct (search_file_spec c st T)
      as (F1 & F2 & F3 & F4 & log & more & F5 & F6 & F7 & F8).
    set (st1 := search_file' (fst c) (snd c) st) in *.
    set (found := firstn (room' st) (file_matches regex_pattern c)) in *.
    assert (R1 : room' st1 = room' st - List.length found)
      by now apply room_after.
    assert (Lf : List.length found <= List.length (file_matches regex_pattern c)).
    { unfold found. rewrite length_firstn. lia. }
    assert (Lr : List.length found <= room' st).
    { unfold found. rewrite length_firstn. lia. }
    destruct (Grep.truncated st1) eqn:T1.
    + destruct (F8 eq_refl) as (N & Z).
      assert (E : firstn (room' st)
                    (file_matches regex_pattern c ++ complete_matches regex_pattern rest)
                  = found).
      { rewrite firstn_app.
        assert (K : room' st <= List.length (file_matches regex_pattern c)).
        { assert (H := length_firstn (room' st) (file_matches regex_pattern c)).
          fold found in H. lia. }
        replace (room' st - List.length (file_matches regex_pattern c)) with 0 by lia.
        simpl. now rewrite app_nil_r. }
      rewrite E.
      split; [exact F1|]. split; [exact F3|].
      split; [rewrite F2, F4; destruct found; lia|].
      split; [rewrite F2; lia|].
      exists log, (more ++ complete_log rest).
      split; [exact F5|]. split; [rewrite F6; now rewrite <- app_assoc|].
      split; [intros H; congruence|]. intros _. split; [|exact Z].
      destruct more; [congruence | discriminate].
    + destruct (F7 eq_refl) as (-> & Ef).
      destruct (IH st1 T1) as (A1 & A2 & A3 & A4 & log' & more' & A5 & A6 & A7 & A8).
      rewrite app_nil_r in F6.
      assert (K : List.length (file_matches regex_pattern c) <= room' st)
        by (apply firstn_all_inv; exact Ef).
      assert (E : firstn (room' st)
                    (file_matches regex_pattern c ++ complete_matches regex_pattern rest)
                  = found ++ firstn (room' st1) (complete_matches regex_pattern rest)).
      { rewrite firstn_app, R1. fold found. rewrite Ef. reflexivity. }
      rewrite E.
      split; [rewrite A1, F1; now rewrite <- app_assoc|].
      split; [rewrite A2, F3, length_app; lia|].
      split; [rewrite F2 in A3; rewrite F4 in A3; destruct found; simpl in *; lia|].
      split; [rewrite F2 in A4; lia|].
      exists (log ++ log'), more'.
      split; [rewrite A5, F5; now rewrite <- app_assoc|].
      split; [rewrite F6, A6; now rewrite <- app_assoc|].
      split.
      * intros H. destruct (A7 H) as (-> & B1 & B2 & B3).
        split; [reflexivity|]. split; [rewrite B1, Ef; reflexivity|].
        split; [rewrite B2, F2; lia|].
        rewrite B3, F4. unfold has_match. rewrite Ef.
        destruct (file_matches regex_pattern c); simpl; lia.
      * exact A8.
Qed.

End GrepScan.

(* ----------------------------------------------------------------- *)
(** ** The search: the three loops visit the candidates in order *)

Section GrepLoops.

Variable fnmatch : string -> string -> bool.
Variable ignore_patterns : list string.
Variable file_pattern : option (list string).
Variable regex_pattern : regex.
Variable max_results : Z.

#[local] Abbreviation wanted :=
  (fun f : entry => Grep.should_search_file fnmatch ignore_patterns file_pattern (name f)).
#[local] Abbreviation all := (search_all regex_pattern max_results).

Lemma search_all_app a b st :
  Grep.truncated st = false ->
  all (a ++ b) st
  = if Grep.truncated (all a st) then all a st else all b (all a st).
Proof.
  revert st. induction a as [|c a IH]; intros st T; simpl.
  - now rewrite T.
  - destruct (Grep.truncated (Grep.search_file _ _ _ _ _)) eqn:T1.
    + now rewrite T1.
    + now apply IH.
Qed.

Lemma search_files_all root files st :
  Grep.truncated st = false ->
  Grep.search_files fnmatch ignore_patterns file_pattern regex_pattern max_results
    root files st
  = all (map (fun f => (Str.child root (name f), data_of f)) (filter wanted files)) st.
Proof.
  revert st. induction files as [|f files IH]; intros st T; simpl; [reflexivity|].
  destruct (Grep.should_search_file _ _ _ (name f)); simpl.
  - destruct (Grep.truncated (Grep.search_file _ _ _ _ _)) eqn:T1; [reflexivity|].
    now apply IH.
  - rewrite T. now apply IH.
Qed.

Lemma search_items_all path items st :
  Grep.truncated st = false ->
  Grep.search_items fnmatch ignore_patterns file_pattern regex_pattern max_results
    path items st
  = all (map (fun item => (Str.child path (name item), data_of item))
           (filter (fun item => is_file item && wanted item) items)) st.
Proof.
  revert st. induction items as [|f items IH]; intros st T; simpl; [reflexivity|].
  destruct (is_file f && Grep.should_search_file _ _ _ (name f)); simpl.
  - destruct (Grep.truncated (Grep.search_file _ _ _ _ _)) eqn:T1; [reflexivity|].
    now apply IH.
  - rewrite T. now apply IH.
Qed.

Lemma search_walk_all yielded st :
  Grep.truncated st = false ->
  Grep.search_walk fnmatch ignore_patterns file_pattern regex_pattern max_results
    yielded st
  = all (flat_map
           (fun y : string * list entry =>
              map (fun f => (Str.child (fst y) (name f), data_of f))
                (filter wanted (snd y)))
           yielded) st.
Proof.
  revert st. induction yielded as [|[root files] yielded IH]; intros st T; simpl;
    [reflexivity|].
  rewrite search_all_app by exact T. rewrite <- search_files_all by exact T.
  destruct (Grep.truncated (Grep.search_files _ _ _ _ _ _ _ _)) eqn:T1; [reflexivity|].
  now apply IH.
Qed.

(** A successful search is the capped visit of the candidates. *)
Lemma search_success path target recursive st :
  Grep.search fnmatch ignore_patterns file_pattern regex_pattern max_results
    path target recursive = Return (Success st) ->
  st = all (candidates fnmatch ignore_patterns file_pattern path target recursive)
         Grep.initial.
Proof.
  unfold Grep.search, candidates. destruct (is_file target).
  - destruct (Grep.should_search_file _ _ _ (name target)); [|discriminate].
    intros H. injection H as <-. simpl.
    now destruct (Grep.truncated (Grep.search_file _ _ _ _ _)).
  - destruct recursive.
    + intros H. injection H as <-. now apply search_walk_all.
    + destruct (iterdir target) as [items|[|msg]]; try discriminate.
      intros H. injection H as <-. now apply search_items_all.
Qed.

(** When some candidate exists, the search does return a success. *)
Lemma search_returns path target recursive :
  candidates fnmatch ignore_patterns file_pattern path target recursive <> [] ->
  Grep.search fnmatch ignore_patterns file_pattern regex_pattern max_results
    path target recursive
  = Return (Success
      (all (candidates fnmatch ignore_patterns file_pattern path target recursive)
         Grep.initial)).
Proof.
  unfold Grep.search, candidates. destruct (is_file target).
  - destruct (Grep.should_search_file _ _ _ (name target)); [|congruence].
    intros _. simpl. now destruct (Grep.truncated (Grep.search_file _ _ _ _ _)).
  - destruct recursive.
    + intros _. now rewrite search_walk_all.
    + destruct (iterdir target) as [items|e]; [|congruence].
      intros _. now rewrite search_items_all.
Qed.

End GrepLoops.

(* ----------------------------------------------------------------- *)
(** ** Ignored entries at every level *)

Lemma entry_nested_ind (P : entry -> Prop) :
  (forall n d, P (File n d)) ->
  (forall n d, P (Special n d)) ->
  (forall n denied children, Forall P children -> P (Dir n denied children)) ->
  forall e, P e.
Proof.
  intros HF HS HD. fix IH 1. intros [n d|n denied children|n d]; [apply HF| |apply HS].
  apply HD. induction children as [|c l IHl]; constructor; [apply IH | exact IHl].
Qed.

Lemma insert_by_key_map (g : entry -> entry) :
  (forall x, sort_key (g x) = sort_key x) ->
  forall x l, insert_by_key (g x) (map g l) = map g (insert_by_key x l).
Proof.
  intros K x l. induction l as [|y l IH]; simpl; [reflexivity|].
  rewrite !K. destruct (key_leb (sort_key x) (sort_key y)); simpl; [reflexivity|].
  now rewrite IH.
Qed.

Lemma sort_entries_map (g : entry -> entry) :
  (forall x, sort_key (g x) = sort_key x) ->
  forall l, sort_entries (map g l) = map g (sort_entries l).
Proof.
  intros K l. induction l as [|x l IH]; simpl; [reflexivity|].
  rewrite IH. now apply insert_by_key_map.
Qed.

Lemma grep_walk_dir fnmatch ignore_patterns root n children :
  Grep.walk fnmatch ignore_patterns root (Dir n None children)
  = (root, filter (fun c => negb (is_dir c)) children)
    :: flat_map (fun d => if is_dir d
                             && negb (Grep.should_ignore fnmatch ignore_patterns (name d))
                          then Grep.walk fnmatch ignore_patterns
                                 (Str.child root (name d)) d
                          else [])
         children.
Proof. reflexivity. Qed.

Section Without.

Variable sel : string -> bool.

#[local] Abbreviation keep := (fun c : entry => negb (sel (name c))).

Lemma without_dir n denied children :
  without sel (Dir n denied children)
  = Dir n denied (map (without sel) (filter keep children)).
Proof.
  cbn [without]. f_equal.
  induction children as [|c l IH]; [reflexivity|].
  cbn [filter]. destruct (sel (name c)); cbn [negb map]; now rewrite IH.
Qed.

Lemma without_name e : name (without sel e) = name e.
Proof. now destruct e. Qed.

Lemma without_is_dir e : is_dir (without sel e) = is_dir e.
Proof. now destruct e. Qed.

Lemma without_is_file e : is_file (without sel e) = is_file e.
Proof. now destruct e. Qed.

Lemma without_data e : data_of (without sel e) = data_of e.
Proof. now destruct e. Qed.

Lemma without_sort_key e : sort_key (without sel e) = sort_key e.
Proof. unfold sort_key. now rewrite without_is_file, without_name. Qed.

Lemma without_iterdir e :
  iterdir (without sel e)
  = match iterdir e with
    | inl items => inl (map (without sel) (filter keep items))
    | inr ex => inr ex
    end.
Proof.
  destruct e as [n d|n [ex|] children|n d]; try reflexivity;
    now rewrite without_dir.
Qed.

(** *** The tree walker *)

Section WithoutTree.

Variable fnmatch : string -> string -> bool.
Variable ignore_patterns : list string.
Variable match_ : option (list string).
Variable max_depth : Z.

Hypothesis sel_ignored :
  forall n, sel n = true -> existsb (fnmatch n) ignore_patterns = true.

Lemma walk_without_step fuel :
  (forall path depth item,
     item_node fnmatch ignore_patterns match_ max_depth fuel path depth (without sel item)
     = item_node fnmatch ignore_patterns match_ max_depth fuel path depth item) ->
  forall path e depth,
    Tree._walk_directory fnmatch ignore_patterns match_ max_depth fuel path
      (without sel e) depth
    = Tree._walk_directory fnmatch ignore_patterns match_ max_depth fuel path e depth.
Proof.
  intros N path e depth. rewrite !walk_unfold, without_iterdir.
  destruct (iterdir e) as [items|ex];
    [|unfold Tree.error_node; now rewrite without_name].
  rewrite (sort_entries_map _ without_sort_key), <- filter_sort_entries.
  induction (sort_entries items) as [|a l IH]; [reflexivity|].
  cbn [filter]. destruct (sel (name a)) eqn:S; cbn [negb map flat_map].
  - rewrite IH. unfold Tree.kept at 2. now rewrite (sel_ignored _ S).
  - rewrite IH. f_equal. unfold Tree.kept. now rewrite without_name, N.
Qed.

Lemma walk_without_deep fuel path e depth :
  Tree._walk_directory fnmatch ignore_patterns match_ max_depth fuel path
    (without sel e) depth
  = Tree._walk_directory fnmatch ignore_patterns match_ max_depth fuel path e depth.
Proof.
  revert path e depth. induction fuel as [|fuel IH]; apply walk_without_step;
    intros path depth item; unfold item_node;
    rewrite without_name, without_is_dir; [reflexivity|].
  now rewrite IH.
Qed.

End WithoutTree.

(** *** The listing *)

Lemma listed_without_deep fnmatch match_ ignore items :
  (forall n, sel n = true ->
             existsb (fnmatch n) (or_empty ignore ++ Ls.DEFAULT_IGNORE_PATTERNS) = true) ->
  map Ls.display
    (Ls.listed fnmatch match_ ignore (map (without sel) (filter keep items)))
  = map Ls.display (Ls.listed fnmatch match_ ignore items).
Proof.
  intros I. unfold Ls.listed.
  rewrite (sort_entries_map _ without_sort_key), <- filter_sort_entries.
  assert (D : forall a, Ls.display (without sel a) = Ls.display a).
  { intros a. unfold Ls.display. now rewrite without_is_dir, without_name. }
  destruct (truthy match_);
    induction (sort_entries items) as [|a l IH]; try reflexivity;
    cbn [filter]; destruct (sel (name a)) eqn:S; cbn [negb map filter];
    rewrite ?without_name.
  - destruct (existsb (fnmatch (name a)) (or_empty match_)); cbn [filter];
      rewrite ?(I _ S); exact IH.
  - destruct (existsb (fnmatch (name a)) (or_empty match_)); cbn [filter];
      rewrite ?without_name; [|exact IH].
    destruct (existsb (fnmatch (name a)) _); cbn [negb map]; [exact IH|].
    now rewrite D, IH.
  - rewrite (I _ S). exact IH.
  - destruct (existsb (fnmatch (name a)) _); cbn [negb map]; [exact IH|].
    now rewrite D, IH.
Qed.

(** *** The search *)

Section WithoutGrep.

Variable fnmatch : string -> string -> bool.
Variable ignore_patterns : list string.
Variable file_pattern : option (list string).

Hypothesis sel_ignored :
  forall n, sel n = true -> Grep.should_ignore fnmatch ignore_patterns n = true.

#[local] Abbreviation wanted' :=
  (fun f : entry => Grep.should_search_file fnmatch ignore_patterns file_pattern (name f)).

Lemma sel_not_wanted a : sel (name a) = true -> wanted' a = false.
Proof. intros S. unfold Grep.should_search_file. now rewrite (sel_ignored _ S). Qed.

Lemma files_without root children :
  map (fun f => (Str.child root (name f), data_of f))
    (filter wanted' (filter (fun c => negb (is_dir c))
                       (map (without sel) (filter keep children))))
  = map (fun f => (Str.child root (name f), data_of f))
      (filter wanted' (filter (fun c => negb (is_dir c)) children)).
Proof.
  induction children as [|a l IH]; [reflexivity|].
  cbn [filter]. destruct (sel (name a)) eqn:S; cbn [negb map filter].
  - destruct (is_dir a); cbn [negb filter]; [exact IH|].
    now rewrite (sel_not_wanted _ S).
  - rewrite without_is_dir. destruct (is_dir a); cbn [negb filter]; [exact IH|].
    rewrite without_name. destruct (wanted' a); [|exact IH].
    cbn [map]. now rewrite without_name, without_data, IH.
Qed.

Lemma items_without path items :
  map (fun item => (Str.child path (name item), data_of item))
    (filter (fun item => is_file item && wanted' item)
       (map (without sel) (filter keep items)))
  = map (fun item => (Str.child path (name item), data_of item))
      (filter (fun item => is_file item && wanted' item) items).
Proof.
  induction items as [|a l IH]; [reflexivity|].
  cbn [filter]. destruct (sel (name a)) eqn:S; cbn [negb map filter].
  - now rewrite (sel_not_wanted _ S), andb_false_r.
  - rewrite without_is_file, without_name.
    destruct (is_file a && wanted' a); [|exact IH].
    cbn [map]. now rewrite without_name, without_data, IH.
Qed.

Lemma walk_candidates_without e :
  forall root,
    flat_map (fun y : string * list entry =>
                map (fun f => (Str.child (fst y) (name f), data_of f))
                  (filter wanted' (snd y)))
      (Grep.walk fnmatch ignore_patterns root (without sel e))
    = flat_map (fun y : string * list entry =>
                  map (fun f => (Str.child (fst y) (name f), data_of f))
                    (filter wanted' (snd y)))
        (Grep.walk fnmatch ignore_patterns root e).
Proof.
  induction e as [n d|n d|n denied children IH] using entry_nested_ind;
    intros root; try reflexivity.
  rewrite without_dir. destruct denied as [ex|]; [reflexivity|].
  rewrite !grep_walk_dir. cbn [flat_map fst snd]. f_equal; [apply files_without|].
  induction IH as [|c l Hc _ IHl]; [reflexivity|].
  cbn [filter]. destruct (sel (name c)) eqn:S; cbn [negb map flat_map].
  - rewrite (sel_ignored _ S), andb_false_r. exact IHl.
  - rewrite !flat_map_app, IHl. f_equal.
    rewrite without_is_dir, without_name.
    destruct (is_dir c && negb (Grep.should_ignore fnmatch ignore_patterns (name c)));
      [apply Hc | reflexivity].
Qed.

Lemma search_without_deep regex_pattern max_results path target recursive :
  Grep.search fnmatch ignore_patterns file_pattern regex_pattern max_results path
    (without sel target) recursive
  = Grep.search fnmatch ignore_patterns file_pattern regex_pattern max_results path
      target recursive.
Proof.
  unfold Grep.search. rewrite without_is_file, without_name, without_data.
  destruct (is_file target); [reflexivity|]. destruct recursive.
  - rewrite !search_walk_all by reflexivity. now rewrite walk_candidates_without.
  - rewrite without_iterdir. destruct (iterdir target) as [items|[|msg]];
      try reflexivity.
    rewrite !search_items_all by reflexivity. now rewrite items_without.
Qed.

End WithoutGrep.

End Without.

(** C8.  Each tool filters with the caller's ignore list followed by its
    built-in list ([(ignore or []) + DEFAULT_IGNORE_PATTERNS]), and no
    argument removes the built-in part: whatever [ignore] and the other
    arguments are, an entry [e] of the directory a tool is run on whose
    name matches a pattern of the caller's list or of the tool's built-in
    list changes nothing in what the tool returns; the result is the one
    obtained on the same directory without [e] and its subtree.  (The list
    of [grep_tool] is the list of [ls_tool] and [tree_tool] without
    ["*.swp"].)  In particular [ls_tool] on [/repo], which holds exactly
    the directory [.git] and the file [README.md], returns the items
    [["README.md"]] when no ignore list is given.  The same holds at every
    level the recursive tools reach: for every selection [sel] of names
    that match a pattern of the caller's list or of the built-in list (the
    names matching the built-in list, say), each tool returns on a
    directory exactly what it returns once all the entries with a selected
    name have been deleted below that directory, at every level, with all
    that lies under them. *)
Theorem default_ignore_cannot_be_disabled
    (lookup lookup' : string -> option entry)
    (fnmatch : string -> string -> bool)
    (re_compile : string -> bool -> regex + string)
    (path dname : string) (denied : option exn)
    (before after : list entry) (e : entry) :
  lookup path = Some (Dir dname denied (before ++ e :: after)) ->
  lookup' path = Some (Dir dname denied (before ++ after)) ->
  (forall match_ ignore,
     (exists d, In d (or_empty ignore ++ Ls.DEFAULT_IGNORE_PATTERNS)
                /\ fnmatch (name e) d = true) ->
     Ls.ls_tool lookup fnmatch path match_ ignore
     = Ls.ls_tool lookup' fnmatch path match_ ignore)
  /\ (forall max_depth match_ ignore,
        (exists d, In d (or_empty ignore ++ Tree.DEFAULT_IGNORE_PATTERNS)
                   /\ fnmatch (name e) d = true) ->
        Tree.tree_tool lookup fnmatch path max_depth match_ ignore
        = Tree.tree_tool lookup' fnmatch path max_depth match_ ignore)
  /\ (forall pattern recursive file_pattern ignore case_sensitive max_results,
        (exists d, In d (or_empty ignore ++ Grep.DEFAULT_IGNORE_PATTERNS)
                   /\ fnmatch (name e) d = true) ->
        Grep.grep_tool lookup fnmatch re_compile pattern path recursive
          file_pattern ignore case_sensitive max_results
        = Grep.grep_tool lookup' fnmatch re_compile pattern path recursive
            file_pattern ignore case_sensitive max_results)
  /\ Example.ls_tool "/repo" None None
     = Return (Success {| Ls.items := ["README.md"]; Ls.count := 1 |})
  /\ (forall (lookup1 lookup2 : string -> option entry) root target sel match_ ignore,
        lookup1 root = Some target ->
        lookup2 root = Some (without sel target) ->
        (forall n, sel n = true ->
           matches_any fnmatch (or_empty ignore ++ Ls.DEFAULT_IGNORE_PATTERNS) n = true) ->
        Ls.ls_tool lookup1 fnmatch root match_ ignore
        = Ls.ls_tool lookup2 fnmatch root match_ ignore)
  /\ (forall (lookup1 lookup2 : string -> option entry) root target sel
             max_depth match_ ignore,
        lookup1 root = Some target ->
        lookup2 root = Some (without sel target) ->
        (forall n, sel n = true ->
           matches_any fnmatch (or_empty ignore ++ Tree.DEFAULT_IGNORE_PATTERNS) n = true) ->
        Tree.tree_tool lookup1 fnmatch root max_depth match_ ignore
        = Tree.tree_tool lookup2 fnmatch root max_depth match_ ignore)
  /\ (forall (lookup1 lookup2 : string -> option entry) root target sel
             pattern recursive file_pattern ignore case_sensitive max_results,
        lookup1 root = Some target ->
        lookup2 root = Some (without sel target) ->
        (forall n, sel n = true ->
           matches_any fnmatch (or_empty ignore ++ Grep.DEFAULT_IGNORE_PATTERNS) n = true) ->
        Grep.grep_tool lookup1 fnmatch re_compile pattern root recursive
          file_pattern ignore case_sensitive max_results
        = Grep.grep_tool lookup2 fnmatch re_compile pattern root recursive
            file_pattern ignore case_sensitive max_results).
Proof.
  intros L L'. split; [|split; [|split; [|split; [|split; [|split]]]]].
  - intros match_ ignore M. unfold Ls.ls_tool. rewrite L, L'.
    destruct (negb (Str.is_absolute path)); [reflexivity|]. cbn [is_dir negb].
    destruct denied as [ex|]; [reflexivity|]. cbn [iterdir].
    rewrite listed_without; [reflexivity|]. now apply existsb_pattern.
  - intros max_depth match_ ignore M. unfold Tree.tree_tool. rewrite L, L'.
    destruct (negb (Str.is_absolute path)); [reflexivity|]. cbn [is_dir negb].
    rewrite walk_without; [reflexivity|].
    unfold Tree.kept. now rewrite existsb_pattern.
  - intros pattern recursive file_pattern ignore cs max_results M.
    unfold Grep.grep_tool. rewrite L, L'.
    destruct (negb (Str.is_absolute path)); [reflexivity|].
    destruct (re_compile pattern (negb cs)) as [rx|err]; [|reflexivity].
    apply search_without. unfold Grep.should_ignore. now apply existsb_pattern.
  - reflexivity.
  - intros lookup1 lookup2 root target sel match_ ignore L1 L2 I.
    unfold Ls.ls_tool. rewrite L1, L2, without_is_dir, without_iterdir.
    destruct (negb (Str.is_absolute root)); [reflexivity|].
    destruct (negb (is_dir target)); [reflexivity|].
    destruct (iterdir target) as [items|[|msg]]; try reflexivity.
    cbv zeta. now rewrite (listed_without_deep sel fnmatch match_ ignore items I).
  - intros lookup1 lookup2 root target sel max_depth match_ ignore L1 L2 I.
    unfold Tree.tree_tool. rewrite L1, L2, without_is_dir.
    destruct (negb (Str.is_absolute root)); [reflexivity|].
    destruct (negb (is_dir target)); [reflexivity|].
    cbv zeta. now rewrite (walk_without_deep sel fnmatch _ match_ _ I).
  - intros lookup1 lookup2 root target sel pattern recursive file_pattern ignore cs
      max_results L1 L2 I.
    unfold Grep.grep_tool. rewrite L1, L2.
    destruct (negb (Str.is_absolute root)); [reflexivity|].
    destruct (re_compile pattern (negb cs)) as [rx|err]; [|reflexivity].
    cbv zeta. symmetry. apply search_without_deep. exact I.
Qed.

(** [default_ignore_cannot_be_disabled] on [/repo] and its entry [.git],
    with the caller's ignore list given and empty; and on [/ws], where the
    ignored entries lie two and three levels down: with the names matching
    the built-in list deleted at every level the tree and the search are
    the same, and the search opens [run.py] and [core.py] only. *)
Lemma default_ignore_witness :
  Example.ls_tool "/repo" None (Some [])
  = Ls.ls_tool Example.lookup_without_git Glob.fnmatch "/repo" None (Some [])
  /\ Example.tree_tool "/repo" 3 None (Some [])
     = Tree.tree_tool Example.lookup_without_git Glob.fnmatch "/repo" 3 None (Some [])
  /\ Example.grep_tool "core" "/repo" true None (Some []) false 1000
     = Grep.grep_tool Example.lookup_without_git Glob.fnmatch Literal.re_compile
         "core" "/repo" true None (Some []) false 1000
  /\ Example.ls_tool "/repo" None None
     = Return (Success {| Ls.items := ["README.md"]; Ls.count := 1 |})
  /\ Tree.tree_tool Example.lookup_ws Glob.fnmatch "/ws" 3 None None
     = Tree.tree_tool Example.lookup_ws_clean Glob.fnmatch "/ws" 3 None None
  /\ Grep.grep_tool Example.lookup_ws Glob.fnmatch Literal.re_compile
       "core" "/ws" true None None true 1000
     = Grep.grep_tool Example.lookup_ws_clean Glob.fnmatch Literal.re_compile
         "core" "/ws" true None None true 1000
  /\ exists st,
       Grep.grep_tool Example.lookup_ws Glob.fnmatch Literal.re_compile
         "core" "/ws" true None None true 1000 = Return (Success st)
       /\ map Grep.m_file (Grep.matches st) = ["/ws/app/run.py"; "/ws/app/lib/core.py"]
       /\ Grep.files_searched (Grep.stats st) = 2.
Proof.
  destruct (default_ignore_cannot_be_disabled Example.lookup Example.lookup_without_git
              Glob.fnmatch Literal.re_compile "/repo" "repo" None []
              [Example.readme] Example.git_dir eq_refl eq_refl)
    as (L & T & G & X & _ & T' & G').
  assert (D : forall defaults, In ".git" defaults ->
                exists d, In d (or_empty (Some []) ++ defaults)
                          /\ Glob.fnmatch (name Example.git_dir) d = true).
  { intros defaults H. exists ".git". split; [exact H | reflexivity]. }
  split; [|split; [|split; [|split; [|split; [|split]]]]].
  - apply L. apply D. simpl. tauto.
  - apply T. apply D. simpl. tauto.
  - apply G. apply D. simpl. tauto.
  - exact X.
  - apply (T' Example.lookup_ws Example.lookup_ws_clean "/ws" Example.ws
             (matches_any Glob.fnmatch Tree.DEFAULT_IGNORE_PATTERNS) 3%Z None None
             eq_refl eq_refl).
    intros n H. exact H.
  - apply (G' Example.lookup_ws Example.lookup_ws_clean "/ws" Example.ws
             (matches_any Glob.fnmatch Grep.DEFAULT_IGNORE_PATTERNS)
             "core" true None None true 1000%Z eq_refl eq_refl).
    intros n H. exact H.
  - eexists. split; [reflexivity|]. split; reflexivity.
Defined.


(* ----------------------------------------------------------------- *)
(** ** Slices *)

Lemma length_take n s : String.length (Str.take n s) = Nat.min n (String.length s).
Proof.
  revert s. induction n as [|n IH]; intros [|c s]; simpl; try reflexivity.
  now rewrite IH.
Qed.

Lemma length_drop n s : String.length (Str.drop n s) = String.length s - n.
Proof.
  revert s. induction n as [|n IH]; intros [|c s]; simpl; try reflexivity.
  apply IH.
Qed.

Lemma take_drop n s : (Str.take n s ++ Str.drop n s)%string = s.
Proof.
  revert s. induction n as [|n IH]; intros [|c s]; simpl; try reflexivity.
  now rewrite IH.
Qed.

Lemma drop_drop n m s : Str.drop n (Str.drop m s) = Str.drop (m + n) s.
Proof.
  revert s. induction m as [|m IH]; intros s; simpl; [reflexivity|].
  destruct s as [|c s]; [now destruct n|]. apply IH.
Qed.

Lemma drop_all n s : String.length s <= n -> Str.drop n s = EmptyString.
Proof.
  revert s. induction n as [|n IH]; intros [|c s]; simpl; intros H;
    try reflexivity; try lia.
  apply IH. lia.
Qed.

Lemma take_zero s : Str.take 0 s = EmptyString.
Proof. now destruct s. Qed.

Lemma take_empty n : Str.take n EmptyString = EmptyString.
Proof. now destruct n. Qed.

Lemma string_app_empty s : (s ++ "")%string = s.
Proof. induction s as [|c s IH]; simpl; [reflexivity | now rewrite IH]. Qed.

Lemma string_app_assoc a b c : ((a ++ b) ++ c)%string = (a ++ (b ++ c))%string.
Proof. induction a as [|x a IH]; simpl; [reflexivity | now rewrite IH]. Qed.

Lemma string_length_app a b :
  String.length (a ++ b)%string = String.length a + String.length b.
Proof. induction a as [|x a IH]; simpl; [reflexivity | now rewrite IH]. Qed.

Lemma take_app n a b :
  Str.take n (a ++ b)%string
  = (Str.take n a ++ Str.take (n - String.length a) b)%string.
Proof.
  revert a. induction n as [|n IH]; intros [|c a]; simpl; try reflexivity.
  now rewrite IH.
Qed.

Lemma drop_app n a b :
  Str.drop n (a ++ b)%string
  = (Str.drop n a ++ Str.drop (n - String.length a) b)%string.
Proof.
  revert a. induction n as [|n IH]; intros [|c a]; simpl; try reflexivity.
  apply IH.
Qed.

Lemma all_newline_take n s :
  Str.all_newline s = true -> Str.all_newline (Str.take n s) = true.
Proof.
  revert s. induction n as [|n IH]; intros [|c s]; simpl; try reflexivity.
  intros H. apply andb_true_iff in H. destruct H as (H1 & H2).
  now rewrite H1, IH.
Qed.

Lemma all_newline_drop n s :
  Str.all_newline s = true -> Str.all_newline (Str.drop n s) = true.
Proof.
  revert s. induction n as [|n IH]; intros [|c s]; simpl; try easy.
  intros H. apply andb_true_iff in H. now apply IH.
Qed.

(** [rstrip] removes a tail of line terminators and nothing else. *)
Lemma rstrip_newline_tail s :
  exists tail, s = (Str.rstrip_newline s ++ tail)%string
               /\ Str.all_newline tail = true.
Proof.
  induction s as [|c s (tail & E & A)]; simpl.
  - now exists EmptyString.
  - destruct (Str.rstrip_newline s) as [|c' r] eqn:R.
    + destruct (Str.is_newline c) eqn:N.
      * exists (String c s). split; [reflexivity|]. simpl. rewrite N.
        simpl in E. now rewrite E.
      * exists tail. split; [|exact A]. simpl. f_equal. exact E.
    + exists tail. split; [|exact A]. simpl. f_equal. exact E.
Qed.

(** The context of a match, for a line [line] and a span [(s, e)]. *)
Lemma match_result_context file_path line_num line s e :
  let m := Grep.match_result file_path line_num line (s, e) in
  let content := Str.rstrip_newline line in
  String.length (Grep.ctx_prefix m) <= 10
  /\ String.length (Grep.ctx_suffix m) <= 10
  /\ (exists cut, Str.slice s e line = (Grep.ctx_match m ++ cut)%string
                  /\ Str.all_newline cut = true)
  /\ (s <= e -> e <= String.length content ->
      Grep.ctx_match m = Str.slice s e line
      /\ String.length (Grep.ctx_prefix m) = Nat.min 10 s
      /\ String.length (Grep.ctx_suffix m) = Nat.min 10 (String.length content - e)
      /\ content
         = (Str.take (s - 10) content ++ Grep.ctx_prefix m ++ Grep.ctx_match m
            ++ Grep.ctx_suffix m ++ Str.drop (Nat.min (String.length content) (e + 10)) content)%string).
Proof.
  intros m content. unfold m, Grep.match_result. cbn [Grep.ctx_prefix Grep.ctx_match
    Grep.ctx_suffix fst snd]. fold content. unfold Str.slice.
  destruct (rstrip_newline_tail line) as (tail & E & A). fold content in E.
  clearbody content. subst line.
  assert (C : exists cut,
             Str.take (e - s) (Str.drop s (content ++ tail)%string)
             = (Str.take (e - s) (Str.drop s content) ++ cut)%string
             /\ Str.all_newline cut = true
             /\ (e <= String.length content -> s <= e -> cut = EmptyString)).
  { rewrite drop_app, take_app.
    eexists. split; [reflexivity|]. split.
    - now apply all_newline_take, all_newline_drop.
    - intros H1 H2. rewrite length_drop.
      replace (e - s - (String.length content - s)) with 0 by lia. apply take_zero. }
  destruct C as (cut & C1 & C2 & C3).
  rewrite !Nat.max_0_l.
  split; [rewrite length_take; lia|].
  split; [rewrite length_take; lia|].
  split; [now exists cut|].
  intros H1 H2. split; [rewrite C1, (C3 H2 H1); now rewrite string_app_empty|].
  split; [rewrite length_take, length_drop; lia|].
  split; [rewrite length_take, length_drop; lia|].
  rewrite <- (take_drop (s - 10) content) at 1. f_equal.
  rewrite <- (take_drop (s - (s - 10)) (Str.drop (s - 10) content)) at 1. f_equal.
  rewrite drop_drop. replace (s - 10 + (s - (s - 10))) with s by lia.
  rewrite <- (take_drop (e - s) (Str.drop s content)) at 1. f_equal.
  rewrite drop_drop. replace (s + (e - s)) with e by lia.
  set (k := Nat.min (String.length content) (e + 10)).
  rewrite <- (take_drop (k - e) (Str.drop e content)) at 1. f_equal.
  rewrite drop_drop. f_equal. unfold k. lia.
Qed.

Lemma take_min n s : Str.take (Nat.min n (String.length s)) s = Str.take n s.
Proof.
  revert s. induction n as [|n IH]; intros [|c s]; simpl; try reflexivity.
  now rewrite IH.
Qed.

(** A slice of the content is the same slice of the line, cut at the end
    of the content. *)
Lemma slice_content a b line :
  Str.slice a b (Str.rstrip_newline line)
  = Str.slice a (Nat.min b (String.length (Str.rstrip_newline line))) line.
Proof.
  destruct (rstrip_newline_tail line) as (tail & E & _).
  set (content := Str.rstrip_newline line) in *. clearbody content. subst line.
  unfold Str.slice. rewrite drop_app, take_app, length_drop.
  replace (Nat.min b (String.length content) - a - (String.length content - a))
    with 0 by lia.
  rewrite take_zero, string_app_empty.
  rewrite <- (take_min (b - a)), <- (take_min (Nat.min b (String.length content) - a)).
  rewrite length_drop. f_equal. lia.
Qed.

(** The three strings of the context are windows of the line, cut at the
    end of its content. *)
Lemma match_result_windows file_path line_num line s e :
  let m := Grep.match_result file_path line_num line (s, e) in
  let n := String.length (Str.rstrip_newline line) in
  Grep.ctx_prefix m = Str.slice (s - 10) (Nat.min s n) line
  /\ Grep.ctx_match m = Str.slice s (Nat.min e n) line
  /\ Grep.ctx_suffix m = Str.slice e (Nat.min (e + 10) n) line.
Proof.
  intros m n. unfold m, Grep.match_result.
  cbn [Grep.ctx_prefix Grep.ctx_match Grep.ctx_suffix fst snd].
  rewrite Nat.max_0_l, !slice_content. fold n.
  split; [reflexivity|]. split; [reflexivity|].
  f_equal. lia.
Qed.

(* ----------------------------------------------------------------- *)
(** ** The search as a whole *)

Lemma grep_tool_success lookup fnmatch re_compile pattern path recursive
    file_pattern ignore case_sensitive max_results st :
  Grep.grep_tool lookup fnmatch re_compile pattern path recursive file_pattern
    ignore case_sensitive max_results = Return (Success st) ->
  exists target regex_pattern,
    Str.is_absolute path = true
    /\ lookup path = Some target
    /\ re_compile pattern (negb case_sensitive) = inl regex_pattern
    /\ st = search_all regex_pattern max_results
              (candidates fnmatch (or_empty ignore ++ Grep.DEFAULT_IGNORE_PATTERNS)
                 file_pattern path target recursive)
              Grep.initial.
Proof.
  unfold Grep.grep_tool. destruct (Str.is_absolute path); [|discriminate]. simpl.
  destruct (lookup path) as [target|]; [|discriminate].
  destruct (re_compile pattern (negb case_sensitive)) as [rx|err]; [|discriminate].
  intros H. apply search_success in H. now exists target, rx.
Qed.

Lemma app_eq_self {A : Type} (l rest : list A) : l = l ++ rest -> rest = [].
Proof.
  intros H. apply (f_equal (@List.length A)) in H. rewrite length_app in H.
  destruct rest; [reflexivity | simpl in H; lia].
Qed.

Lemma room_initial max_results : room max_results Grep.initial = Z.to_nat max_results.
Proof. unfold room. simpl. f_equal. lia. Qed.

(** Once the cap is reached, [search_file] only counts the file and sets
    the flag. *)
Lemma search_file_at_cap regex_pattern max_results file_path data st :
  Grep.cap_reached max_results st = true ->
  Grep.search_file regex_pattern max_results file_path data st
  = Grep.set_truncated (Grep.count_searched st).
Proof.
  intros C. unfold Grep.search_file.
  change (Grep.cap_reached max_results (Grep.count_searched st))
    with (Grep.cap_reached max_results st).
  now rewrite C.
Qed.

(** C1, as the code has it.  A successful [grep_tool] returns the first
    [max_results] matches of the search without a cap (none when
    [max_results] is negative), so at most [max (0, max_results)] of them,
    which is at most [max_results] when [max_results] is not negative.  What
    it does to the file system is an initial part of what the search without
    a cap does, and [results_truncated] is true exactly when it is not all of
    it: some candidate file was not opened, or the pattern was not run on
    some line of an opened file.  That happens only when the number of
    matches has reached [max_results].  In a state where it has,
    [search_file] accepts no match and opens no file. *)
Theorem grep_cap (lookup : string -> option entry)
    (fnmatch : string -> string -> bool)
    (re_compile : string -> bool -> regex + string)
    (pattern path : string) (recursive : bool)
    (file_pattern ignore : option (list string)) (case_sensitive : bool)
    (max_results : Z) (st : Grep.state) :
  Grep.grep_tool lookup fnmatch re_compile pattern path recursive file_pattern
    ignore case_sensitive max_results = Return (Success st) ->
  exists target regex_pattern,
    lookup path = Some target
    /\ re_compile pattern (negb case_sensitive) = inl regex_pattern
    /\ let cands := candidates fnmatch (or_empty ignore ++ Grep.DEFAULT_IGNORE_PATTERNS)
                      file_pattern path target recursive in
       (Z.of_nat (List.length (Grep.matches st)) <= Z.max 0 max_results)%Z
       /\ ((0 <= max_results)%Z ->
           (Z.of_nat (List.length (Grep.matches st)) <= max_results)%Z)
       /\ Grep.matches st
          = firstn (Z.to_nat max_results) (complete_matches regex_pattern cands)
       /\ (exists rest, complete_log cands = Grep.io st ++ rest)
       /\ (Grep.results_truncated (Grep.stats st) = true
           <-> Grep.io st <> complete_log cands)
       /\ (Grep.results_truncated (Grep.stats st) = true ->
           (max_results <= Z.of_nat (List.length (Grep.matches st)))%Z)
       /\ (forall file_path data s,
             (max_results <= Z.of_nat (List.length (Grep.matches s)))%Z ->
             let s' := Grep.search_file regex_pattern max_results file_path data s in
             Grep.matches s' = Grep.matches s /\ Grep.io s' = Grep.io s
             /\ Grep.results_truncated (Grep.stats s') = true).
Proof.
  intros H. apply grep_tool_success in H.
  destruct H as (target & rx & _ & L & R & E). exists target, rx.
  split; [exact L|]. split; [exact R|]. intros cands. fold cands in E. subst st.
  destruct (search_all_spec rx max_results cands Grep.initial eq_refl)
    as (A1 & _ & _ & _ & log & rest & A5 & A6 & A7 & A8).
  set (st := search_all rx max_results cands Grep.initial) in *.
  rewrite room_initial in A1. simpl in A1, A5. subst log.
  assert (B : (Z.of_nat (List.length (Grep.matches st)) <= Z.max 0 max_results)%Z).
  { assert (B : List.length (Grep.matches st) <= Z.to_nat max_results)
      by (rewrite A1; apply firstn_le_length).
    lia. }
  split; [exact B|]. split; [lia|]. split; [exact A1|].
  split; [now exists rest|]. split; [|split].
  - change (Grep.results_truncated (Grep.stats st)) with (Grep.truncated st). split.
    + intros T E. destruct (A8 T) as (N & _). rewrite A6 in E.
      apply app_eq_self in E. contradiction.
    + intros N. destruct (Grep.truncated st) eqn:T; [reflexivity|].
      destruct (A7 eq_refl) as (-> & _). rewrite app_nil_r in A6. congruence.
  - intros T. destruct (A8 T) as (_ & Z). unfold room in Z. lia.
  - intros file_path data s C s'. unfold s'.
    rewrite search_file_at_cap; [now repeat split|].
    unfold Grep.cap_reached. now apply Z.leb_le.
Qed.

(** The claim as it was stated fails for a negative cap: with
    [max_results = -1] the search of [/w] succeeds with no match, and
    [0 <= -1] is false. *)
Lemma grep_cap_counterexample :
  exists st,
    Example.grep_tool "foo" "/w" true None None false (-1) = Return (Success st)
    /\ (-1 < Z.of_nat (List.length (Grep.matches st)))%Z.
Proof.
  eexists. split; [reflexivity|]. simpl. lia.
Qed.

(** [grep_cap] on [/w] with [max_results = 2]: the search stops in the
    first file, after its second line. *)
Lemma grep_cap_witness :
  exists st,
    Example.grep_tool "foo" "/w" true None None false 2 = Return (Success st)
    /\ (Z.of_nat (List.length (Grep.matches st)) <= 2)%Z
    /\ Grep.results_truncated (Grep.stats st) = true
    /\ Grep.io st = [Grep.Opened "/w/main.py"; Grep.Searched "/w/main.py" 1;
                     Grep.Searched "/w/main.py" 2].
Proof.
  eexists. split; [reflexivity|].
  destruct (grep_cap Example.lookup Glob.fnmatch Literal.re_compile "foo" "/w" true
              None None false 2 _ eq_refl)
    as (target & rx & _ & _ & _ & B & _).
  split; [apply B; lia|]. split; reflexivity.
Defined.

(** C5.  After a successful [grep_tool]: [files_matched <= files_searched],
    [files_searched] is at most the number of candidate files, and
    [lines_matched] is the number of matches returned.  Each call of
    [search_file] adds one to [files_searched] whatever the file is, also
    when [open] raises or the read fails part-way; it adds one to
    [files_matched] when it records at least one match from the file and
    nothing otherwise, and adds to [lines_matched] the number of matches it
    records.  When the search is not truncated, [files_searched] is the
    number of candidate files, unreadable ones included, [files_matched]
    the number of candidate files with at least one matching line, and
    [lines_matched] the number of matching lines in all of them. *)
Theorem grep_counting (lookup : string -> option entry)
    (fnmatch : string -> string -> bool)
    (re_compile : string -> bool -> regex + string)
    (pattern path : string) (recursive : bool)
    (file_pattern ignore : option (list string)) (case_sensitive : bool)
    (max_results : Z) (st : Grep.state) :
  Grep.grep_tool lookup fnmatch re_compile pattern path recursive file_pattern
    ignore case_sensitive max_results = Return (Success st) ->
  exists target regex_pattern,
    lookup path = Some target
    /\ re_compile pattern (negb case_sensitive) = inl regex_pattern
    /\ let cands := candidates fnmatch (or_empty ignore ++ Grep.DEFAULT_IGNORE_PATTERNS)
                      file_pattern path target recursive in
       Grep.files_matched (Grep.stats st) <= Grep.files_searched (Grep.stats st)
       /\ Grep.files_searched (Grep.stats st) <= List.length cands
       /\ Grep.lines_matched (Grep.stats st) = List.length (Grep.matches st)
       /\ (Grep.results_truncated (Grep.stats st) = false ->
           Grep.files_searched (Grep.stats st) = List.length cands
           /\ Grep.files_matched (Grep.stats st)
              = List.length (filter (has_match regex_pattern) cands)
           /\ Grep.lines_matched (Grep.stats st)
              = List.length (complete_matches regex_pattern cands))
       /\ (forall file_path data s,
             Grep.results_truncated (Grep.stats s) = false ->
             let s' := Grep.search_file regex_pattern max_results file_path data s in
             exists found,
               Grep.matches s' = Grep.matches s ++ found
               /\ Grep.files_searched (Grep.stats s')
                  = S (Grep.files_searched (Grep.stats s))
               /\ Grep.files_matched (Grep.stats s')
                  = Grep.files_matched (Grep.stats s)
                    + match found with [] => 0 | _ :: _ => 1 end
               /\ Grep.lines_matched (Grep.stats s')
                  = Grep.lines_matched (Grep.stats s) + List.length found).
Proof.
  intros H. apply grep_tool_success in H.
  destruct H as (target & rx & _ & L & R & E). exists target, rx.
  split; [exact L|]. split; [exact R|]. intros cands. fold cands in E. subst st.
  destruct (search_all_spec rx max_results cands Grep.initial eq_refl)
    as (A1 & A2 & A3 & A4 & log & rest & A5 & A6 & A7 & A8).
  set (st := search_all rx max_results cands Grep.initial) in *.
  simpl in A1, A2, A3, A4.
  split; [lia|]. split; [exact A4|]. split; [rewrite A2, A1; reflexivity|].
  split.
  - intros T. destruct (A7 T) as (_ & B1 & B2 & B3). simpl in B2, B3.
    split; [exact B2|]. split; [exact B3|]. now rewrite A2, B1.
  - intros file_path data s T s'.
    destruct (search_file_spec rx max_results (file_path, data) s T)
      as (F1 & F2 & F3 & F4 & _).
    exists (firstn (room max_results s) (file_matches rx (file_path, data))).
    split; [exact F1|]. split; [exact F2|]. split; [exact F4 | exact F3].
Qed.

(** [grep_counting] on [/mail]: four files are searched, among them one
    that cannot be opened and one whose read fails; two contain a matching
    line, and three lines match in all. *)
Lemma grep_counting_witness :
  exists st,
    Example.grep_tool "foo" "/mail" true None None false 1000 = Return (Success st)
    /\ Grep.stats st
       = {| Grep.files_searched := 4; Grep.files_matched := 2;
            Grep.lines_matched := 3; Grep.results_truncated := false |}
    /\ Grep.files_matched (Grep.stats st) <= Grep.files_searched (Grep.stats st)
    /\ Grep.lines_matched (Grep.stats st) = List.length (Grep.matches st).
Proof.
  eexists. split; [reflexivity|]. split; [reflexivity|].
  destruct (grep_counting Example.lookup Glob.fnmatch Literal.re_compile "foo"
              "/mail" true None None false 1000 _ eq_refl)
    as (target & rx & _ & _ & B1 & _ & B3 & _).
  split; [exact B1 | exact B3].
Defined.

(** C10.  With [max_results = 0], an absolute path that exists, a pattern
    that compiles and at least one candidate file, [grep_tool] returns a
    success with no match, [results_truncated] set, [files_searched = 1],
    [files_matched = 0] and [lines_matched = 0], and it opens no file. *)
Theorem grep_zero_cap (lookup : string -> option entry)
    (fnmatch : string -> string -> bool)
    (re_compile : string -> bool -> regex + string)
    (pattern path : string) (recursive : bool)
    (file_pattern ignore : option (list string)) (case_sensitive : bool)
    (target : entry) (regex_pattern : regex) :
  Str.is_absolute path = true ->
  lookup path = Some target ->
  re_compile pattern (negb case_sensitive) = inl regex_pattern ->
  candidates fnmatch (or_empty ignore ++ Grep.DEFAULT_IGNORE_PATTERNS) file_pattern
    path target recursive <> [] ->
  Grep.grep_tool lookup fnmatch re_compile pattern path recursive file_pattern
    ignore case_sensitive 0
  = Return (Success
      {| Grep.stats := {| Grep.files_searched := 1; Grep.files_matched := 0;
                          Grep.lines_matched := 0; Grep.results_truncated := true |};
         Grep.matches := [];
         Grep.io := [] |}).
Proof.
  intros A L R C. unfold Grep.grep_tool. rewrite A, L, R. simpl negb. cbv iota.
  rewrite search_returns by exact C.
  destruct (candidates _ _ _ _ _ _) as [|c rest]; [congruence|]. reflexivity.
Qed.

(** [grep_zero_cap] on [/w], searched recursively. *)
Lemma grep_zero_cap_witness :
  Example.grep_tool "foo" "/w" true None None false 0
  = Return (Success
      {| Grep.stats := {| Grep.files_searched := 1; Grep.files_matched := 0;
                          Grep.lines_matched := 0; Grep.results_truncated := true |};
         Grep.matches := [];
         Grep.io := [] |}).
Proof.
  apply (grep_zero_cap Example.lookup Glob.fnmatch Literal.re_compile "foo" "/w" true
           None None false Example.w (Literal.search "foo" true)
           eq_refl eq_refl eq_refl).
  discriminate.
Defined.

(* ----------------------------------------------------------------- *)
(** ** The context of a match *)

Lemma line_matches_in regex_pattern file_path lines :
  forall line_num m,
    In m (line_matches regex_pattern file_path line_num lines) ->
    exists k line span,
      In line lines /\ regex_pattern line = Some span
      /\ m = Grep.match_result file_path k line span.
Proof.
  induction lines as [|line rest IH]; intros n m H; simpl in H; [easy|].
  destruct (regex_pattern line) as [span|] eqn:M.
  - destruct H as [<-|H].
    + exists n, line, span. split; [now left | now split].
    + destruct (IH _ _ H) as (k & l & sp & I & R & E).
      exists k, l, sp. split; [now right | now split].
  - destruct (IH _ _ H) as (k & l & sp & I & R & E).
    exists k, l, sp. split; [now right | now split].
Qed.

Lemma In_firstn {A : Type} (n : nat) (l : list A) (x : A) :
  In x (firstn n l) -> In x l.
Proof.
  intros H. rewrite <- (firstn_skipn n l). apply in_or_app. now left.
Qed.

(** Every match returned was built by [match_result] from a line the
    pattern matched. *)
Lemma grep_match_origin lookup fnmatch re_compile pattern path recursive
    file_pattern ignore case_sensitive max_results st m :
  Grep.grep_tool lookup fnmatch re_compile pattern path recursive file_pattern
    ignore case_sensitive max_results = Return (Success st) ->
  In m (Grep.matches st) ->
  exists regex_pattern file_path line_num line span,
    re_compile pattern (negb case_sensitive) = inl regex_pattern
    /\ regex_pattern line = Some span
    /\ m = Grep.match_result file_path line_num line span.
Proof.
  intros H Hm. apply grep_tool_success in H.
  destruct H as (target & rx & _ & _ & R & ->).
  set (cands := candidates _ _ _ _ _ _) in Hm.
  destruct (search_all_spec rx max_results cands Grep.initial eq_refl) as (A1 & _).
  rewrite A1 in Hm. simpl in Hm. apply In_firstn in Hm.
  unfold complete_matches in Hm. apply in_flat_map in Hm.
  destruct Hm as (c & _ & Hm). unfold file_matches in Hm.
  apply line_matches_in in Hm. destruct Hm as (k & line & span & _ & M & ->).
  now exists rx, (fst c), k, line, span.
Qed.

(** C9, as the code has it.  Every match [grep_tool] returns comes from a
    line on which the compiled pattern found the span
    [(match_start, match_end)]; [content] is that line without its
    terminator, of length [n].  The three strings of the context are taken
    from the line: the prefix is [line[max(0, match_start - 10) :
    min(match_start, n)]], the match is [line[match_start :
    min(match_end, n)]] and the suffix is [line[match_end :
    min(match_end + 10, n)]], that is the 10 characters before the match
    start, the match, and the 10 characters after the match end, each cut
    at the two ends of the content.  So the prefix and the suffix have at
    most 10 characters.  The matched text [line[match_start:match_end]] is
    [context.match] followed by line-terminator characters only: the two
    differ when the match runs into the terminator.  When the match lies
    within [content], [context.match] is the matched text, the prefix is
    the [min (10, match_start)] characters of [content] just before it and
    the suffix the [min (10, len (content) - match_end)] characters just
    after it: [content] is some text, then prefix, match and suffix, then
    the rest. *)
Theorem match_context (lookup : string -> option entry)
    (fnmatch : string -> string -> bool)
    (re_compile : string -> bool -> regex + string)
    (pattern path : string) (recursive : bool)
    (file_pattern ignore : option (list string)) (case_sensitive : bool)
    (max_results : Z) (st : Grep.state) (m : Grep.SearchMatch) :
  Grep.grep_tool lookup fnmatch re_compile pattern path recursive file_pattern
    ignore case_sensitive max_results = Return (Success st) ->
  In m (Grep.matches st) ->
  exists regex_pattern line,
    re_compile pattern (negb case_sensitive) = inl regex_pattern
    /\ regex_pattern line = Some (Grep.m_start m, Grep.m_end m)
    /\ Grep.m_content m = Str.rstrip_newline line
    /\ String.length (Grep.ctx_prefix m) <= 10
    /\ String.length (Grep.ctx_suffix m) <= 10
    /\ (exists cut,
          Str.slice (Grep.m_start m) (Grep.m_end m) line
          = (Grep.ctx_match m ++ cut)%string
          /\ Str.all_newline cut = true)
    /\ Grep.ctx_prefix m
       = Str.slice (Grep.m_start m - 10)
           (Nat.min (Grep.m_start m) (String.length (Grep.m_content m))) line
    /\ Grep.ctx_match m
       = Str.slice (Grep.m_start m)
           (Nat.min (Grep.m_end m) (String.length (Grep.m_content m))) line
    /\ Grep.ctx_suffix m
       = Str.slice (Grep.m_end m)
           (Nat.min (Grep.m_end m + 10) (String.length (Grep.m_content m))) line
    /\ (Grep.m_start m <= Grep.m_end m ->
        Grep.m_end m <= String.length (Grep.m_content m) ->
        Grep.ctx_match m = Str.slice (Grep.m_start m) (Grep.m_end m) line
        /\ String.length (Grep.ctx_prefix m) = Nat.min 10 (Grep.m_start m)
        /\ String.length (Grep.ctx_suffix m)
           = Nat.min 10 (String.length (Grep.m_content m) - Grep.m_end m)
        /\ exists before after,
             Grep.m_content m
             = (before ++ Grep.ctx_prefix m ++ Grep.ctx_match m
                ++ Grep.ctx_suffix m ++ after)%string
             /\ String.length before + String.length (Grep.ctx_prefix m)
                = Grep.m_start m).
Proof.
  intros H Hm.
  destruct (grep_match_origin _ _ _ _ _ _ _ _ _ _ _ _ H Hm)
    as (rx & p & k & line & [s e] & R & M & ->).
  exists rx, line. split; [exact R|]. split; [exact M|]. split; [reflexivity|].
  destruct (match_result_context p k line s e) as (C1 & C2 & C3 & C4).
  destruct (match_result_windows p k line s e) as (W1 & W2 & W3).
  split; [exact C1|]. split; [exact C2|]. split; [exact C3|].
  split; [exact W1|]. split; [exact W2|]. split; [exact W3|].
  intros H1 H2. destruct (C4 H1 H2) as (D1 & D2 & D3 & D4).
  split; [exact D1|]. split; [exact D2|]. split; [exact D3|].
  eexists _, _. split; [exact D4|].
  rewrite D2, length_take. cbn [Grep.match_result Grep.m_start Grep.m_content fst] in *.
  lia.
Qed.

(** The claim as it was stated fails when the match runs into the line
    terminator: on the first line of [/w/main.py], which is
    ["import foo"] and a newline, the pattern ["foo"] followed by a newline
    matches the four characters from 7 to 11, and [context.match] is only
    ["foo"].  The prefix is still the seven characters before the match. *)
Lemma match_context_counterexample :
  exists st m,
    Example.grep_tool (Example.ln "foo") "/w/main.py" true None None true 1000
    = Return (Success st)
    /\ In m (Grep.matches st)
    /\ Literal.search (Example.ln "foo") false (Example.ln "import foo")
       = Some (Grep.m_start m, Grep.m_end m)
    /\ Str.slice (Grep.m_start m) (Grep.m_end m) (Example.ln "import foo")
       = Example.ln "foo"
    /\ Grep.ctx_match m = "foo"
    /\ Grep.ctx_prefix m = "import "
    /\ Grep.ctx_suffix m = "".
Proof.
  eexists. eexists. split; [reflexivity|]. split; [left; reflexivity|].
  split; [reflexivity|]. split; [reflexivity|]. split; [reflexivity|].
  split; reflexivity.
Qed.

(** [match_context] on the match found in the third line of
    [/mail/inbox.txt], ["bar foo"]. *)
Lemma match_context_witness :
  exists st m,
    Example.grep_tool "foo" "/mail" true None None false 1000 = Return (Success st)
    /\ nth_error (Grep.matches st) 1 = Some m
    /\ Grep.m_content m = "bar foo"
    /\ Grep.ctx_prefix m = "bar " /\ Grep.ctx_match m = "foo" /\ Grep.ctx_suffix m = ""
    /\ String.length (Grep.ctx_prefix m) <= 10
    /\ String.length (Grep.ctx_suffix m) <= 10.
Proof.
  eexists. eexists. split; [reflexivity|]. split; [reflexivity|].
  split; [reflexivity|]. split; [reflexivity|]. split; [reflexivity|].
  split; [reflexivity|].
  destruct (match_context Example.lookup Glob.fnmatch Literal.re_compile "foo" "/mail"
              true None None false 1000 _ _ eq_refl (or_intror (or_introl eq_refl)))
    as (rx & line & _ & _ & _ & P & S & _).
  split; [exact P | exact S].
Defined.

(* ----------------------------------------------------------------- *)
(** ** Exceptions *)

Lemma ls_tool_returns lookup fnmatch path match_ ignore :
  exists r, Ls.ls_tool lookup fnmatch path match_ ignore = Return r.
Proof.
  unfold Ls.ls_tool.
  destruct (negb (Str.is_absolute path)); [eauto|].
  destruct (lookup path) as [target|]; [|eauto].
  destruct (negb (is_dir target)); [eauto|].
  destruct (iterdir target) as [items|[|msg]]; eauto.
Qed.

(** The recursive search and the search of a single file always return. *)
Lemma grep_tool_recursive_returns lookup fnmatch re_compile pattern path
    file_pattern ignore case_sensitive max_results :
  exists r,
    Grep.grep_tool lookup fnmatch re_compile pattern path true file_pattern ignore
      case_sensitive max_results = Return r.
Proof.
  unfold Grep.grep_tool, Grep.search.
  destruct (negb (Str.is_absolute path)); [eauto|].
  destruct (lookup path) as [target|]; [|eauto].
  destruct (re_compile pattern (negb case_sensitive)); [|eauto].
  destruct (is_file target); [|eauto].
  destruct (Grep.should_search_file _ _ _ _); eauto.
Qed.

(** C3 fails for [grep_tool]: searched without recursion, the character
    device [/dev/null] exists and is not a regular file, so it is
    enumerated; [iterdir] raises [NotADirectoryError], the only handler is
    [except PermissionError], and the exception leaves [grep_tool].
    [ls_tool] ([ls_tool_returns]) and [tree_tool] ([tree_tool_returns])
    always return. *)
Theorem grep_tool_raises_on_device :
  Example.grep_tool "foo" "/dev/null" false None None false 1000
  = Raise (OtherError "[Errno 20] Not a directory").
Proof. reflexivity. Qed.

(* ================================================================= *)
(** * Further properties of the tools *)

(* ----------------------------------------------------------------- *)
(** ** The listing *)

Lemma insert_by_key_perm (x : entry) (l : list entry) :
  Permutation (insert_by_key x l) (x :: l).
Proof.
  induction l as [|y l IH]; simpl; [reflexivity|].
  destruct (key_leb (sort_key x) (sort_key y)); [reflexivity|].
  rewrite IH. apply perm_swap.
Qed.

Lemma sort_entries_perm (l : list entry) : Permutation (sort_entries l) l.
Proof.
  induction l as [|x l IH]; simpl; [reflexivity|].
  rewrite insert_by_key_perm. now constructor.
Qed.

Lemma strongly_sorted_nth {A : Type} (R : A -> A -> Prop) (l : list A) :
  StronglySorted R l ->
  forall i j a b, i < j -> nth_error l i = Some a -> nth_error l j = Some b -> R a b.
Proof.
  induction 1 as [|x l S IH F]; intros i j a b Hij Ha Hb.
  - now destruct i.
  - destruct j as [|j]; [lia|]. simpl in Hb. destruct i as [|i]; simpl in Ha.
    + injection Ha as <-. rewrite Forall_forall in F. apply F.
      eapply nth_error_In; eassumption.
    + apply (IH i j); [lia | assumption | assumption].
Qed.

(** What the two filters of [ls_tool] let through. *)
Lemma listed_is_sorted_filter fnmatch match_ ignore items :
  Ls.listed fnmatch match_ ignore items
  = sort_entries
      (filter (fun item =>
                 (negb (truthy match_)
                  || existsb (fnmatch (name item)) (or_empty match_))
                 && negb (existsb (fnmatch (name item))
                            (or_empty ignore ++ Ls.DEFAULT_IGNORE_PATTERNS)))
         items).
Proof.
  unfold Ls.listed. destruct (truthy match_); simpl.
  - rewrite !filter_sort_entries. f_equal.
    induction items as [|x items IH]; simpl; [reflexivity|].
    destruct (existsb (fnmatch (name x)) (or_empty match_)); simpl; [|exact IH].
    destruct (existsb (fnmatch (name x)) _); simpl; now rewrite IH.
  - now rewrite filter_sort_entries.
Qed.

Lemma ls_tool_success lookup fnmatch path match_ ignore r :
  Ls.ls_tool lookup fnmatch path match_ ignore = Return (Success r) ->
  exists target items,
    Str.is_absolute path = true /\ lookup path = Some target
    /\ is_dir target = true /\ iterdir target = inl items
    /\ r = {| Ls.items := map Ls.display (Ls.listed fnmatch match_ ignore items);
              Ls.count := List.length (map Ls.display
                                         (Ls.listed fnmatch match_ ignore items)) |}.
Proof.
  unfold Ls.ls_tool. destruct (Str.is_absolute path); [|discriminate]. simpl.
  destruct (lookup path) as [target|]; [|discriminate].
  destruct (is_dir target) eqn:D; [|discriminate]. simpl.
  destruct (iterdir target) as [items|[|msg]] eqn:I; try discriminate.
  intros H. injection H as <-. now exists target, items.
Qed.

(** X1.  Let [ls_tool] succeed on a directory whose entries have ASCII
    names.  The items it returns are the entries that pass the filters,
    each once, in the order of the sort key [(is_file, name.lower())]: of
    two items, the earlier one is not a regular file while the later one
    is, or both are of the same kind and the lower-cased name of the earlier
    one is not greater.  So no directory comes after a regular file. *)
Theorem ls_items_ordered (lookup : string -> option entry)
    (fnmatch : string -> string -> bool) (path : string)
    (match_ ignore : option (list string)) (r : Ls.Listing)
    (target : entry) (entries : list entry) :
  Ls.ls_tool lookup fnmatch path match_ ignore = Return (Success r) ->
  lookup path = Some target ->
  iterdir target = inl entries ->
  Forall (fun e => ascii_only (name e) = true) entries ->
  exists shown : list entry,
    Ls.items r = map Ls.display shown
    /\ Permutation shown
         (filter (fun item =>
                    (negb (truthy match_)
                     || existsb (fnmatch (name item)) (or_empty match_))
                    && negb (existsb (fnmatch (name item))
                               (or_empty ignore ++ Ls.DEFAULT_IGNORE_PATTERNS)))
            entries)
    /\ (forall a, In a shown -> In a entries /\ ascii_only (name a) = true)
    /\ forall i j a b,
         i < j -> nth_error shown i = Some a -> nth_error shown j = Some b ->
         (is_file a = false /\ is_file b = true)
         \/ (is_file a = is_file b
             /\ String.leb (Str.lower (name a)) (Str.lower (name b)) = true).
Proof.
  intros H L I A. apply ls_tool_success in H.
  destruct H as (target' & items & _ & L' & _ & I' & ->).
  rewrite L in L'. injection L' as <-. rewrite I in I'. injection I' as <-.
  exists (Ls.listed fnmatch match_ ignore entries). split; [reflexivity|].
  assert (P : Permutation (Ls.listed fnmatch match_ ignore entries)
                (filter (fun item =>
                           (negb (truthy match_)
                            || existsb (fnmatch (name item)) (or_empty match_))
                           && negb (existsb (fnmatch (name item))
                                      (or_empty ignore ++ Ls.DEFAULT_IGNORE_PATTERNS)))
                   entries)).
  { rewrite listed_is_sorted_filter. apply sort_entries_perm. }
  split; [exact P|]. split.
  - intros a Ha. apply (Permutation_in _ P) in Ha. apply filter_In in Ha.
    destruct Ha as (Ha & _). split; [exact Ha|].
    rewrite Forall_forall in A. now apply A.
  - intros i j a b Hij Ha Hb.
    assert (S : StronglySorted entry_le (Ls.listed fnmatch match_ ignore entries)).
    { rewrite listed_is_sorted_filter. apply sort_entries_sorted. }
    assert (K := strongly_sorted_nth _ _ S i j a b Hij Ha Hb).
    unfold entry_le, key_leb, sort_key in K. simpl in K.
    destruct (is_file a), (is_file b); simpl in K; try discriminate; auto.
Qed.

(** X2.  The items [ls_tool] returns are the entries of the directory that
    match the match list (when one is given and not empty) and match no
    pattern of the caller's ignore list or of the built-in list: each such
    entry is shown exactly once and nothing else is shown, and [count] is
    their number. *)
Theorem ls_items_complete (lookup : string -> option entry)
    (fnmatch : string -> string -> bool) (path : string)
    (match_ ignore : option (list string)) (r : Ls.Listing) :
  Ls.ls_tool lookup fnmatch path match_ ignore = Return (Success r) ->
  exists (target : entry) (entries shown : list entry),
    lookup path = Some target
    /\ iterdir target = inl entries
    /\ Ls.items r = map Ls.display shown
    /\ Permutation shown
         (filter (fun item =>
                    (negb (truthy match_)
                     || existsb (fnmatch (name item)) (or_empty match_))
                    && negb (existsb (fnmatch (name item))
                               (or_empty ignore ++ Ls.DEFAULT_IGNORE_PATTERNS)))
            entries)
    /\ Ls.count r = List.length shown
    /\ Ls.count r = List.length (Ls.items r).
Proof.
  intros H. apply ls_tool_success in H.
  destruct H as (target & items & _ & L & _ & I & ->).
  exists target, items, (Ls.listed fnmatch match_ ignore items).
  split; [exact L|]. split; [exact I|]. split; [reflexivity|].
  split; [rewrite listed_is_sorted_filter; apply sort_entries_perm|].
  simpl. split; [apply length_map | reflexivity].
Qed.

(** [ls_items_ordered] on [/proj], which lists [b.txt], [A/], [c.txt] and
    [B/] in this order. *)
Lemma ls_items_ordered_witness :
  exists r,
    More.ls_tool "/proj" None None = Return (Success r)
    /\ Ls.items r = ["A/"; "B/"; "b.txt"; "c.txt"]
    /\ exists shown : list entry,
         Ls.items r = map Ls.display shown
         /\ (forall a, In a shown -> In a (children_of More.proj))
         /\ forall i j a b,
              i < j -> nth_error shown i = Some a -> nth_error shown j = Some b ->
              (is_file a = false /\ is_file b = true)
              \/ (is_file a = is_file b
                  /\ String.leb (Str.lower (name a)) (Str.lower (name b)) = true).
Proof.
  eexists. split; [reflexivity|]. split; [reflexivity|].
  destruct (ls_items_ordered More.lookup Glob.fnmatch "/proj" None None _
              More.proj (children_of More.proj) eq_refl eq_refl eq_refl)
    as (shown & E & _ & T & O).
  - repeat constructor.
  - exists shown. split; [exact E|]. split; [|exact O].
    intros a Ha. now apply T.
Defined.

(** [ls_items_complete] on [/w] with the match list [["*.py"; "d*"]]. *)
Lemma ls_items_complete_witness :
  exists r,
    Example.ls_tool "/w" (Some ["*.py"; "d*"]) None = Return (Success r)
    /\ Ls.items r = ["docs/"; "main.py"]
    /\ Ls.count r = List.length (Ls.items r).
Proof.
  eexists. split; [reflexivity|]. split; [reflexivity|].
  destruct (ls_items_complete Example.lookup Glob.fnmatch "/w" (Some ["*.py"; "d*"])
              None _ eq_refl) as (t & es & shown & _ & _ & _ & _ & _ & C).
  exact C.
Defined.

(* ----------------------------------------------------------------- *)
(** ** Directories that cannot be read, again *)

(** X3.  On an absolute path to a directory that exists and cannot be
    enumerated, [ls_tool] returns an error result (the permission message
    for a permission error, the exception's text otherwise), while
    [tree_tool] returns a success whose tree is the single error leaf of
    that directory, with [directories = 1], [files = 0] and [total = 1]. *)
Theorem unreadable_root_ls_and_tree (lookup : string -> option entry)
    (fnmatch : string -> string -> bool) (path : string) (target : entry) (e : exn) :
  Str.is_absolute path = true ->
  lookup path = Some target ->
  is_dir target = true ->
  iterdir target = inr e ->
  (forall match_ ignore,
     Ls.ls_tool lookup fnmatch path match_ ignore
     = Return (Error match e with
                     | PermissionError => Msg.no_permission path
                     | OtherError msg => Msg.access_exception msg
                     end))
  /\ (forall d match_ ignore,
        Tree.tree_tool lookup fnmatch path d match_ ignore
        = Return (Success {| Tree.max_depth := Tree.effective_depth d;
                             Tree.tree := [Tree.error_node path target e];
                             Tree.directories := 1;
                             Tree.files := 0;
                             Tree.total := 1 |})).
Proof.
  intros A L D I. split.
  - intros match_ ignore. unfold Ls.ls_tool. rewrite A, L, D, I. now destruct e.
  - intros d match_ ignore. unfold Tree.tree_tool. rewrite A, L, D. simpl negb. cbv iota.
    rewrite walk_unfold, I. reflexivity.
Qed.

(** [unreadable_root_ls_and_tree] on [/w/locked]. *)
Lemma unreadable_root_witness :
  Example.ls_tool "/w/locked" None None
  = Return (Error (Msg.no_permission "/w/locked"))
  /\ Example.tree_tool "/w/locked" 3 None None
     = Return (Success
         {| Tree.max_depth := 3;
            Tree.tree := [Tree.Node "locked" Tree.directory "/w/locked" None
                            (Some "Permission denied")];
            Tree.directories := 1; Tree.files := 0; Tree.total := 1 |}).
Proof.
  destruct (unreadable_root_ls_and_tree Example.lookup Glob.fnmatch "/w/locked"
              Example.locked PermissionError eq_refl eq_refl eq_refl eq_refl)
    as (L & T).
  split; [apply L | apply T].
Defined.

(** X5.  A directory below the root that passes the filters, lies above
    the depth limit and cannot be enumerated is in the tree twice: as its
    own directory node, whose children list holds one element, and as that
    element, the error leaf with the same name and path.  (So it counts
    twice in [directories].) *)
Theorem unreadable_subdirectory_listed_twice (lookup : string -> option entry)
    (fnmatch : string -> string -> bool) (path : string) (d : Z)
    (match_ ignore : option (list string)) (root : entry) (r : Tree.TreeResult)
    (p : string) (dir : entry) (depth : Z) (items : list entry) (item : entry)
    (e : exn) :
  lookup path = Some root ->
  Tree.tree_tool lookup fnmatch path d match_ ignore = Return (Success r) ->
  walked fnmatch (or_empty ignore ++ Tree.DEFAULT_IGNORE_PATTERNS) match_
    (Tree.effective_depth d) path root p dir depth ->
  iterdir dir = inl items ->
  In item items ->
  Tree.kept fnmatch (or_empty ignore ++ Tree.DEFAULT_IGNORE_PATTERNS) match_ item = true ->
  is_dir item = true ->
  (depth < Tree.effective_depth d)%Z ->
  iterdir item = inr e ->
  let item_path := Str.child p (name item) in
  let leaf := Tree.error_node item_path item e in
  In_tree (Tree.tree r)
    (Tree.Node (name item) Tree.directory item_path (Some [leaf]) None)
  /\ In_tree (Tree.tree r) leaf
  /\ Tree.node_name leaf = name item
  /\ Tree.node_path leaf = item_path.
Proof.
  intros HL H W HI Hin K D Hd E item_path leaf.
  unfold Tree.tree_tool in H.
  destruct (negb (Str.is_absolute path)); [discriminate|].
  rewrite HL in H. destruct (negb (is_dir root)); [discriminate|].
  injection H as <-. cbn [Tree.tree].
  set (ign := or_empty ignore ++ Tree.DEFAULT_IGNORE_PATTERNS) in *.
  set (md := Tree.effective_depth d) in *.
  assert (F : (md - 1 <= Z.of_nat (Z.to_nat md))%Z) by lia.
  destruct (walked_in_tree fnmatch ign match_ md path root (Z.to_nat md) p dir depth F W)
    as (fuel & Hf & T).
  destruct fuel as [|fuel]; [simpl in Hf; lia|].
  assert (N : item_node fnmatch ign match_ md (S fuel) p depth item
              = Tree.Node (name item) Tree.directory item_path (Some [leaf]) None).
  { unfold item_node. rewrite D. simpl.
    replace (depth <? md)%Z with true by (symmetry; apply Z.ltb_lt; lia).
    rewrite walk_unfold, E. reflexivity. }
  assert (P : In_tree
                (Tree._walk_directory fnmatch ign match_ md (Z.to_nat md) path root 1)
                (Tree.Node (name item) Tree.directory item_path (Some [leaf]) None)).
  { rewrite <- N. apply T. eapply walk_item; eassumption. }
  split; [exact P|]. split; [|now split].
  eapply in_children; [exact P | reflexivity | now left].
Qed.

(** [unreadable_subdirectory_listed_twice] on [/w] and its directory
    [locked]. *)
Lemma unreadable_subdirectory_witness :
  exists r,
    Example.tree_tool "/w" 3 None None = Return (Success r)
    /\ In_tree (Tree.tree r)
         (Tree.Node "locked" Tree.directory "/w/locked"
            (Some [Tree.Node "locked" Tree.directory "/w/locked" None
                     (Some "Permission denied")]) None)
    /\ In_tree (Tree.tree r)
         (Tree.Node "locked" Tree.directory "/w/locked" None (Some "Permission denied")).
Proof.
  eexists. split; [reflexivity|].
  destruct (unreadable_subdirectory_listed_twice Example.lookup Glob.fnmatch "/w" 3
              None None Example.w _ "/w" Example.w 1
              [Example.main_py; Example.deep; Example.locked; Example.docs;
               Example.null_device]
              Example.locked PermissionError eq_refl eq_refl
              (walked_root _ _ _ _ _ _) eq_refl
              (or_intror (or_intror (or_introl eq_refl)))
              eq_refl eq_refl eq_refl eq_refl) as (A & B & _).
  split; [exact A | exact B].
Defined.

(** X6.  At every level of the tree [tree_tool] returns, a node that is not
    an error leaf has a name that matches no pattern of the caller's ignore
    list or of the built-in list and, when a non-empty match list is given,
    matches one of its patterns. *)
Theorem tree_nodes_pass_filters (lookup : string -> option entry)
    (fnmatch : string -> string -> bool) (path : string) (d : Z)
    (match_ ignore : option (list string)) (r : Tree.TreeResult) (n : Tree.TreeNode) :
  Tree.tree_tool lookup fnmatch path d match_ ignore = Return (Success r) ->
  In_tree (Tree.tree r) n ->
  Tree.error n = None ->
  existsb (fnmatch (Tree.node_name n))
    (or_empty ignore ++ Tree.DEFAULT_IGNORE_PATTERNS) = false
  /\ (truthy match_ = true ->
      existsb (fnmatch (Tree.node_name n)) (or_empty match_) = true).
Proof.
  intros H T E. unfold Tree.tree_tool in H.
  destruct (negb (Str.is_absolute path)); [discriminate|].
  destruct (lookup path) as [root|]; [|discriminate].
  destruct (negb (is_dir root)); [discriminate|].
  injection H as <-. cbn [Tree.tree] in T.
  apply in_tree_walked in T. destruct T as (fuel & p & dir & depth & Hn).
  apply walk_node in Hn.
  destruct Hn as [(e & _ & ->)|(items & item & _ & _ & K & ->)]; [discriminate|].
  cbn [item_node Tree.node_name]. unfold Tree.kept in K.
  apply andb_true_iff in K. destruct K as (K1 & K2).
  split; [now apply negb_true_iff in K1|].
  intros M. rewrite M in K2. exact K2.
Qed.

(** [tree_nodes_pass_filters] on the node of [/w/a/notes.txt] under the
    match list [["a"; "*.txt"]]. *)
Lemma tree_nodes_pass_filters_witness :
  exists r n,
    Example.tree_tool "/w" 3 (Some ["a"; "*.txt"]) None = Return (Success r)
    /\ In_tree (Tree.tree r) n
    /\ Tree.node_path n = "/w/a/notes.txt"
    /\ existsb (Glob.fnmatch (Tree.node_name n)) ["a"; "*.txt"] = true.
Proof.
  eexists.
  exists (Tree.Node "notes.txt" Tree.file "/w/a/notes.txt" None None).
  split; [reflexivity|].
  assert (T : In_tree
                [Tree.Node "a" Tree.directory "/w/a"
                   (Some [Tree.Node "notes.txt" Tree.file "/w/a/notes.txt" None None])
                   None]
                (Tree.Node "notes.txt" Tree.file "/w/a/notes.txt" None None)).
  { eapply in_children; [apply in_top; now left | reflexivity | now left]. }
  split; [exact T|]. split; [reflexivity|].
  destruct (tree_nodes_pass_filters Example.lookup Glob.fnmatch "/w" 3
              (Some ["a"; "*.txt"]) None _ _ eq_refl T eq_refl) as (_ & M).
  exact (M eq_refl).
Defined.

(* ----------------------------------------------------------------- *)
(** ** The outcomes of grep *)

(** X7.  Let the path exist and the pattern compile.  Then [grep_tool]
    lets an exception out exactly when the path is absolute and not a
    regular file, the search is not recursive, and enumerating the path
    raises something other than [PermissionError]; the exception is the one
    [iterdir] raised.  So no failure of opening or reading a file, and
    nothing the recursive walk meets, leaves [grep_tool] as an exception. *)
Theorem grep_tool_raises_iff (lookup : string -> option entry)
    (fnmatch : string -> string -> bool)
    (re_compile : string -> bool -> regex + string)
    (pattern path : string) (recursive : bool)
    (file_pattern ignore : option (list string)) (case_sensitive : bool)
    (max_results : Z) (target : entry) (regex_pattern : regex) (e : exn) :
  lookup path = Some target ->
  re_compile pattern (negb case_sensitive) = inl regex_pattern ->
  (Grep.grep_tool lookup fnmatch re_compile pattern path recursive file_pattern
     ignore case_sensitive max_results = Raise e
   <-> Str.is_absolute path = true
       /\ is_file target = false
       /\ recursive = false
       /\ iterdir target = inr e
       /\ e <> PermissionError).
Proof.
  intros L R. unfold Grep.grep_tool, Grep.search. rewrite L, R. split.
  - destruct (Str.is_absolute path); [|discriminate]. simpl.
    destruct (is_file target) eqn:F.
    + destruct (Grep.should_search_file _ _ _ _); discriminate.
    + destruct recursive; [discriminate|].
      destruct (iterdir target) as [items|[|msg]] eqn:I; try discriminate.
      intros H. injection H as <-.
      do 4 (split; [reflexivity|]). intros N. discriminate N.
  - intros (A & F & -> & I & N).
    rewrite A, F, I. simpl. destruct e; [congruence | reflexivity].
Qed.

(** [grep_tool_raises_iff] on the device [/dev/null]. *)
Lemma grep_tool_raises_witness :
  Example.grep_tool "x" "/dev/null" false None None true 10
  = Raise (OtherError "[Errno 20] Not a directory").
Proof.
  apply (proj2 (grep_tool_raises_iff Example.lookup Glob.fnmatch Literal.re_compile
                  "x" "/dev/null" false None None true 10 Example.null_device
                  (Literal.search "x" false)
                  (OtherError "[Errno 20] Not a directory") eq_refl eq_refl)).
  split; [reflexivity|]. split; [reflexivity|]. split; [reflexivity|].
  split; [reflexivity|]. intros N. discriminate N.
Defined.

(** X8.  A recursive [grep_tool] on an absolute path that exists, is not a
    regular file and cannot be enumerated, with a pattern that compiles,
    returns a success with no match, [files_searched = 0] and
    [results_truncated = false], and opens nothing: the failure of the
    enumeration is not reported.  Without recursion the same call returns
    the permission error when the failure is a [PermissionError]. *)
Theorem grep_unreadable_root (lookup : string -> option entry)
    (fnmatch : string -> string -> bool)
    (re_compile : string -> bool -> regex + string)
    (pattern path : string) (file_pattern ignore : option (list string))
    (case_sensitive : bool) (max_results : Z) (target : entry)
    (regex_pattern : regex) (e : exn) :
  Str.is_absolute path = true ->
  lookup path = Some target ->
  re_compile pattern (negb case_sensitive) = inl regex_pattern ->
  is_file target = false ->
  iterdir target = inr e ->
  Grep.grep_tool lookup fnmatch re_compile pattern path true file_pattern ignore
    case_sensitive max_results = Return (Success Grep.initial)
  /\ (e = PermissionError ->
      Grep.grep_tool lookup fnmatch re_compile pattern path false file_pattern ignore
        case_sensitive max_results = Return (Error (Msg.no_permission path))).
Proof.
  intros A L R F I. unfold Grep.grep_tool, Grep.search. rewrite A, L, R, F, I. simpl.
  split.
  - destruct target as [n dt|n [ex|] ch|n dt]; try discriminate; reflexivity.
  - now intros ->.
Qed.

(** [grep_unreadable_root] on [/w/locked]. *)
Lemma grep_unreadable_root_witness :
  Example.grep_tool "foo" "/w/locked" true None None false 1000
  = Return (Success Grep.initial)
  /\ Example.grep_tool "foo" "/w/locked" false None None false 1000
     = Return (Error (Msg.no_permission "/w/locked")).
Proof.
  destruct (grep_unreadable_root Example.lookup Glob.fnmatch Literal.re_compile "foo"
              "/w/locked" None None false 1000 Example.locked
              (Literal.search "foo" true) PermissionError
              eq_refl eq_refl eq_refl eq_refl eq_refl) as (S & N).
  split; [exact S | exact (N eq_refl)].
Defined.

Lemma line_matches_nth regex_pattern file_path lines :
  forall line_num m,
    In m (line_matches regex_pattern file_path line_num lines) ->
    exists k line span,
      nth_error lines k = Some line /\ regex_pattern line = Some span
      /\ m = Grep.match_result file_path (line_num + k) line span.
Proof.
  induction lines as [|line rest IH]; intros n m H; simpl in H; [easy|].
  assert (R : In m (line_matches regex_pattern file_path (S n) rest) ->
              exists k l span,
                nth_error (line :: rest) k = Some l /\ regex_pattern l = Some span
                /\ m = Grep.match_result file_path (n + k) l span).
  { intros H'. destruct (IH _ _ H') as (k & l & sp & N & M & E).
    exists (S k), l, sp. split; [exact N|]. split; [exact M|].
    rewrite E. f_equal. lia. }
  destruct (regex_pattern line) as [span|] eqn:M; [|now apply R].
  destruct H as [<-|H]; [|now apply R].
  exists 0, line, span. split; [reflexivity|]. split; [exact M|].
  now rewrite Nat.add_0_r.
Qed.

(** X9.  Every match [grep_tool] returns belongs to a candidate file: its
    [file] is the path of that file, its [line] is the position, counted
    from 1, of a line the file delivers, the pattern finds the span
    [(match_start, match_end)] in that line, and [content] is that line
    without its terminator. *)
Theorem grep_match_location (lookup : string -> option entry)
    (fnmatch : string -> string -> bool)
    (re_compile : string -> bool -> regex + string)
    (pattern path : string) (recursive : bool)
    (file_pattern ignore : option (list string)) (case_sensitive : bool)
    (max_results : Z) (st : Grep.state) (m : Grep.SearchMatch) :
  Grep.grep_tool lookup fnmatch re_compile pattern path recursive file_pattern
    ignore case_sensitive max_results = Return (Success st) ->
  In m (Grep.matches st) ->
  exists target regex_pattern c line,
    lookup path = Some target
    /\ re_compile pattern (negb case_sensitive) = inl regex_pattern
    /\ In c (candidates fnmatch (or_empty ignore ++ Grep.DEFAULT_IGNORE_PATTERNS)
               file_pattern path target recursive)
    /\ Grep.m_file m = fst c
    /\ 1 <= Grep.m_line m <= List.length (lines_of (snd c))
    /\ nth_error (lines_of (snd c)) (Grep.m_line m - 1) = Some line
    /\ regex_pattern line = Some (Grep.m_start m, Grep.m_end m)
    /\ Grep.m_content m = Str.rstrip_newline line.
Proof.
  intros H Hm. apply grep_tool_success in H.
  destruct H as (target & rx & _ & L & R & ->).
  set (cands := candidates _ _ _ _ _ _) in *.
  destruct (search_all_spec rx max_results cands Grep.initial eq_refl) as (A1 & _).
  rewrite A1 in Hm. simpl in Hm. apply In_firstn in Hm.
  unfold complete_matches in Hm. apply in_flat_map in Hm.
  destruct Hm as (c & Hc & Hm). unfold file_matches in Hm.
  apply line_matches_nth in Hm. destruct Hm as (k & line & [s e] & N & M & ->).
  exists target, rx, c, line. cbn [Grep.match_result Grep.m_file Grep.m_line
    Grep.m_start Grep.m_end Grep.m_content fst snd].
  split; [exact L|]. split; [exact R|]. split; [exact Hc|]. split; [reflexivity|].
  assert (B : k < List.length (lines_of (snd c))).
  { apply nth_error_Some. congruence. }
  split; [lia|]. split; [|now split].
  replace (1 + k - 1) with k by lia. exact N.
Qed.

(** [grep_match_location] on the match in the third line of
    [/mail/inbox.txt]. *)
Lemma grep_match_location_witness :
  exists st m,
    Example.grep_tool "foo" "/mail" true None None false 1000 = Return (Success st)
    /\ nth_error (Grep.matches st) 1 = Some m
    /\ Grep.m_file m = "/mail/inbox.txt"
    /\ Grep.m_line m = 3
    /\ exists target regex_pattern c line,
         Example.lookup "/mail" = Some target
         /\ Literal.re_compile "foo" (negb false) = inl regex_pattern
         /\ In c (candidates Glob.fnmatch (or_empty None ++ Grep.DEFAULT_IGNORE_PATTERNS)
                    None "/mail" target true)
         /\ Grep.m_file m = fst c
         /\ 1 <= Grep.m_line m <= List.length (lines_of (snd c))
         /\ nth_error (lines_of (snd c)) (Grep.m_line m - 1) = Some line
         /\ regex_pattern line = Some (Grep.m_start m, Grep.m_end m)
         /\ Grep.m_content m = Str.rstrip_newline line.
Proof.
  eexists. eexists. split; [reflexivity|]. split; [reflexivity|].
  split; [reflexivity|]. split; [reflexivity|].
  exact (grep_match_location Example.lookup Glob.fnmatch Literal.re_compile "foo"
           "/mail" true None None false 1000 _ _ eq_refl
           (or_intror (or_introl eq_refl))).
Defined.

(* ----------------------------------------------------------------- *)
(** ** Counting and printing the tree *)

Lemma TreeNode_nested_ind (P : Tree.TreeNode -> Prop) :
  (forall nm ty p err, P (Tree.Node nm ty p None err)) ->
  (forall nm ty p sub err, Forall P sub -> P (Tree.Node nm ty p (Some sub) err)) ->
  forall n, P n.
Proof.
  intros H0 H1. fix IH 1. intros [nm ty p [sub|] err]; [|apply H0].
  apply H1. induction sub as [|x sub IHs]; constructor; [apply IH | exact IHs].
Qed.

Lemma format_item_unfold level prefix is_last nm ty p ch err :
  TreeFormat.format_item level prefix is_last (Tree.Node nm ty p ch err)
  = (prefix
     ++ (if Nat.eqb level 0 then "" else if is_last then "└── " else "├── ")
     ++ match ty with Tree.directory => "[D] " | Tree.file => "[F] " end
     ++ nm
     ++ match err with
        | Some e => "  [ERROR: " ++ e ++ "]"
        | None => ""
        end)%string
    :: match ch with
       | Some sub =>
           TreeFormat._format_tree sub (S level)
             (if Nat.eqb level 0 then "    "
              else if is_last then (prefix ++ "    ")%string
                   else (prefix ++ "│   ")%string)
       | None => []
       end.
Proof. destruct ch; reflexivity. Qed.

Lemma format_tree_cons x items level prefix :
  TreeFormat._format_tree (x :: items) level prefix
  = TreeFormat.format_item level prefix
      (match items with [] => true | _ :: _ => false end) x
    ++ TreeFormat._format_tree items level prefix.
Proof. reflexivity. Qed.

Lemma format_item_lines n :
  forall level prefix is_last,
    Forall2 line_shows (TreeFormat.format_item level prefix is_last n) (nodes_of n).
Proof.
  assert (Head : forall (level : nat) (prefix : string) (is_last : bool) nm ty p ch err,
             line_shows
               (prefix
                ++ (if Nat.eqb level 0 then "" else if is_last then "└── " else "├── ")
                ++ match ty with Tree.directory => "[D] " | Tree.file => "[F] " end
                ++ nm
                ++ match err with
                   | Some e => "  [ERROR: " ++ e ++ "]"
                   | None => ""
                   end)%string
               (Tree.Node nm ty p ch err)).
  { intros level prefix is_last nm ty p ch err.
    exists (prefix ++ (if Nat.eqb level 0 then "" else if is_last then "└── " else "├── "))%string.
    unfold is_directory_node. cbn [Tree.type Tree.node_name Tree.error].
    rewrite string_app_assoc. destruct ty; reflexivity. }
  induction n as [nm ty p err|nm ty p sub err IH] using TreeNode_nested_ind;
    intros level prefix is_last; rewrite format_item_unfold; cbn [nodes_of];
    (constructor; [apply Head|]); [constructor|].
  generalize (S level) as lv.
  generalize (if Nat.eqb level 0 then "    "
              else if is_last then (prefix ++ "    ")%string
                   else (prefix ++ "│   ")%string) as pre.
  induction IH as [|x sub Hx _ IHs]; intros pre lv; [constructor|].
  rewrite format_tree_cons. cbn [flat_map]. apply Forall2_app; [apply Hx | apply IHs].
Qed.

Lemma format_tree_lines items level prefix :
  Forall2 line_shows (TreeFormat._format_tree items level prefix) (all_nodes items).
Proof.
  induction items as [|x items IH]; [constructor|].
  rewrite format_tree_cons. unfold all_nodes. cbn [flat_map].
  apply Forall2_app; [apply format_item_lines | exact IH].
Qed.

Lemma count_item_unfold nm ty p ch err :
  Tree.count_item (Tree.Node nm ty p ch err)
  = match ty with
    | Tree.directory =>
        let below := match ch with
                     | Some sub => Tree._count_items sub
                     | None => (0, 0)
                     end in
        (S (fst below), snd below)
    | Tree.file => (0, 1)
    end.
Proof.
  destruct ty; [|reflexivity]. destruct ch as [sub|]; [|reflexivity].
  cbn [Tree.count_item]. f_equal; f_equal;
    induction sub as [|x sub IH]; simpl; try reflexivity;
    unfold Tree._count_items in IH; simpl; now rewrite IH.
Qed.

Lemma count_items_cons n items :
  Tree._count_items (n :: items)
  = (fst (Tree.count_item n) + fst (Tree._count_items items),
     snd (Tree.count_item n) + snd (Tree._count_items items)).
Proof. reflexivity. Qed.

Lemma counts_cons n items :
  Tree.count_item n
  = (List.length (filter is_directory_node (nodes_of n)),
     List.length (filter (fun n => negb (is_directory_node n)) (nodes_of n))) ->
  Tree._count_items items
  = (List.length (filter is_directory_node (all_nodes items)),
     List.length (filter (fun n => negb (is_directory_node n)) (all_nodes items))) ->
  Tree._count_items (n :: items)
  = (List.length (filter is_directory_node (all_nodes (n :: items))),
     List.length (filter (fun n => negb (is_directory_node n)) (all_nodes (n :: items)))).
Proof.
  intros Hn Hi. rewrite count_items_cons, Hn, Hi. unfold all_nodes. cbn [flat_map fst snd].
  now rewrite !filter_app, !length_app.
Qed.

Lemma counts_directory nm p sub err :
  Tree._count_items sub
  = (List.length (filter is_directory_node (all_nodes sub)),
     List.length (filter (fun n => negb (is_directory_node n)) (all_nodes sub))) ->
  let n := Tree.Node nm Tree.directory p (Some sub) err in
  Tree.count_item n
  = (List.length (filter is_directory_node (nodes_of n)),
     List.length (filter (fun n => negb (is_directory_node n)) (nodes_of n))).
Proof.
  intros H n. unfold n. rewrite count_item_unfold. cbv zeta. rewrite H. reflexivity.
Qed.

(** The pair [_count_items] returns, for the trees the walker builds. *)
Lemma walk_counts fnmatch ignore_patterns match_ max_depth fuel :
  forall path current depth,
    let t := Tree._walk_directory fnmatch ignore_patterns match_ max_depth fuel
               path current depth in
    Tree._count_items t
    = (List.length (filter is_directory_node (all_nodes t)),
       List.length (filter (fun n => negb (is_directory_node n)) (all_nodes t))).
Proof.
  induction fuel as [|fuel IH]; intros path current depth t; unfold t;
    rewrite walk_unfold; destruct (iterdir current) as [items|e]; try reflexivity;
    induction (sort_entries items) as [|x l IHl]; try reflexivity;
    cbn [flat_map]; (destruct (Tree.kept _ _ _ x); [|exact IHl]);
    cbn [app]; (apply counts_cons; [|exact IHl]);
    unfold item_node; destruct (is_dir x); try reflexivity;
    destruct (depth <? max_depth)%Z; try reflexivity.
  cbn [andb]. apply counts_directory. apply IH.
Qed.

(** X4.  In a success of [tree_tool], [directories] is the number of nodes
    of type directory in the whole tree, error leaves included, [files] the
    number of the other nodes, and [total] the number of all nodes. *)
Theorem tree_counts (lookup : string -> option entry)
    (fnmatch : string -> string -> bool) (path : string) (d : Z)
    (match_ ignore : option (list string)) (r : Tree.TreeResult) :
  Tree.tree_tool lookup fnmatch path d match_ ignore = Return (Success r) ->
  Tree.directories r
  = List.length (filter is_directory_node (all_nodes (Tree.tree r)))
  /\ Tree.files r
     = List.length (filter (fun n => negb (is_directory_node n)) (all_nodes (Tree.tree r)))
  /\ Tree.total r = List.length (all_nodes (Tree.tree r)).
Proof.
  intros H. unfold Tree.tree_tool in H.
  destruct (negb (Str.is_absolute path)); [discriminate|].
  destruct (lookup path) as [root|]; [|discriminate].
  destruct (negb (is_dir root)); [discriminate|].
  injection H as <-. cbn [Tree.directories Tree.files Tree.total Tree.tree].
  rewrite walk_counts. cbn [fst snd]. split; [reflexivity|]. split; [reflexivity|].
  generalize (all_nodes (Tree._walk_directory fnmatch
                (or_empty ignore ++ Tree.DEFAULT_IGNORE_PATTERNS) match_
                (Tree.effective_depth d) (Z.to_nat (Tree.effective_depth d)) path root 1)).
  intros l. induction l as [|n l IH]; [reflexivity|].
  simpl. destruct (is_directory_node n); simpl; lia.
Qed.

(** [tree_counts] on [/w] with depth 2: five directory nodes ([a], [b],
    [docs], [locked] and the error leaf of [locked]) and four others. *)
Lemma tree_counts_witness :
  exists r,
    Example.tree_tool "/w" 2 None None = Return (Success r)
    /\ Tree.directories r = 5 /\ Tree.files r = 4 /\ Tree.total r = 9
    /\ Tree.total r = List.length (all_nodes (Tree.tree r)).
Proof.
  eexists. split; [reflexivity|]. split; [reflexivity|]. split; [reflexivity|].
  split; [reflexivity|].
  destruct (tree_counts Example.lookup Glob.fnmatch "/w" 2 None None _ eq_refl)
    as (_ & _ & T).
  exact T.
Defined.

(** X11.  [_format_tree] puts out one line for every node of the tree it is
    given, parents before children: after the indentation, the line of a
    node holds [[D] ] or [[F] ] for its type, its name and, when it has an
    error, the error in brackets.  For the tree of a successful [tree_tool]
    the number of those lines is [total], so [formatted_lines] has
    [total + 6] lines. *)
Theorem format_tree_one_line_per_node (lookup : string -> option entry)
    (fnmatch : string -> string -> bool) (path : string) (d : Z)
    (match_ ignore : option (list string)) (r : Tree.TreeResult) :
  Tree.tree_tool lookup fnmatch path d match_ ignore = Return (Success r) ->
  (forall items level prefix,
      Forall2 line_shows (TreeFormat._format_tree items level prefix) (all_nodes items))
  /\ List.length (TreeFormat._format_tree (Tree.tree r) 0 "") = Tree.total r
  /\ List.length (TreeFormat.formatted_lines path r) = Tree.total r + 6.
Proof.
  intros H. split; [intros; apply format_tree_lines|].
  assert (T : Tree.total r = List.length (all_nodes (Tree.tree r))).
  { unfold Tree.tree_tool in H.
    destruct (negb (Str.is_absolute path)); [discriminate|].
    destruct (lookup path) as [root|]; [|discriminate].
    destruct (negb (is_dir root)); [discriminate|].
    injection H as <-. cbn [Tree.total Tree.tree].
    rewrite walk_counts. cbn [fst snd].
    generalize (all_nodes (Tree._walk_directory fnmatch
                  (or_empty ignore ++ Tree.DEFAULT_IGNORE_PATTERNS) match_
                  (Tree.effective_depth d) (Z.to_nat (Tree.effective_depth d)) path root 1)).
    intros l. induction l as [|n l IH]; [reflexivity|].
    simpl. destruct (is_directory_node n); simpl; lia. }
  assert (L : List.length (TreeFormat._format_tree (Tree.tree r) 0 "") = Tree.total r).
  { rewrite T. eapply Forall2_length. apply format_tree_lines. }
  split; [exact L|].
  unfold TreeFormat.formatted_lines. rewrite !length_app, L. simpl. lia.
Qed.

(** [format_tree_one_line_per_node] on [/w] with depth 2. *)
Lemma format_tree_witness :
  exists r,
    Example.tree_tool "/w" 2 None None = Return (Success r)
    /\ TreeFormat._format_tree (Tree.tree r) 0 ""
       = [ "[D] a"; "    ├── [D] b"; "    └── [F] notes.txt";
           "[D] docs"; "    └── [F] guide.md";
           "[D] locked"; "    └── [D] locked  [ERROR: Permission denied]";
           "[F] null"; "[F] main.py" ]
    /\ List.length (TreeFormat._format_tree (Tree.tree r) 0 "") = Tree.total r.
Proof.
  eexists. split; [reflexivity|]. split; [reflexivity|].
  destruct (format_tree_one_line_per_node Example.lookup Glob.fnmatch "/w" 2 None None
              _ eq_refl) as (_ & L & _).
  exact L.
Defined.

(* ----------------------------------------------------------------- *)
(** ** Highlighting a match *)




(* ----------------------------------------------------------------- *)
(** ** The configuration *)

Lemma split_not_nil sep s : Config.split sep s <> [].
Proof.
  destruct s as [|c s]; simpl; [discriminate|].
  destruct (Ascii.eqb c sep); [discriminate|].
  destruct (Config.split sep s); discriminate.
Qed.

Lemma split_app sep a b :
  Config.split sep (a ++ String sep b)%string
  = Config.split sep a ++ Config.split sep b.
Proof.
  induction a as [|c a IH]; simpl.
  - now rewrite Ascii.eqb_refl.
  - destruct (Ascii.eqb c sep); [now rewrite IH|].
    rewrite IH. destruct (Config.split sep a) as [|h t] eqn:E; [|reflexivity].
    now apply split_not_nil in E.
Qed.

Lemma get_loop_resolve keys value default :
  Config.get_loop keys value default
  = match resolve keys value with
    | Some v => v
    | None => default
    end.
Proof.
  revert value. induction keys as [|k keys IH]; intros value; simpl; [reflexivity|].
  destruct value; try reflexivity. destruct (Config.item d k); [apply IH | reflexivity].
Qed.

Lemma get_loop_app keys1 keys2 value default :
  Config.get_loop (keys1 ++ keys2) value default
  = match resolve keys1 value with
    | Some v => Config.get_loop keys2 v default
    | None => default
    end.
Proof.
  revert value. induction keys1 as [|k keys1 IH]; intros value; simpl; [reflexivity|].
  destruct value; try reflexivity. destruct (Config.item d k); [apply IH | reflexivity].
Qed.

Lemma get_loop_nested keys v default :
  Config.get_loop keys (nested keys v) default = v.
Proof.
  induction keys as [|k keys IH]; simpl; [reflexivity|].
  now rewrite String.eqb_refl.
Qed.

(** X12.  Storing and fetching: in the configuration that holds a value
    under the nested keys of a dotted path, [get] with that path returns
    the value, whatever the default is. *)
Theorem config_get_nested (key_path : string) (v default : Config.yaml) :
  Config.get (nested (Config.split "." key_path) v) key_path default = v.
Proof. apply get_loop_nested. Qed.

(** X13.  Paths compose: [get] with the path [a + "." + b] is [get] with
    [b] on the value found at [a], and the default when nothing is found at
    [a].  In every case [get] returns the value the keys lead to, or the
    default when a key is missing or a value on the way is not a mapping. *)
Theorem config_get_composes (_config_data : Config.yaml) (a b : string)
    (default : Config.yaml) :
  Config.get _config_data (a ++ "." ++ b) default
  = match resolve (Config.split "." a) _config_data with
    | Some section => Config.get section b default
    | None => default
    end
  /\ Config.get _config_data a default
     = match resolve (Config.split "." a) _config_data with
       | Some v => v
       | None => default
       end.
Proof.
  split.
  - unfold Config.get.
    change (a ++ "." ++ b)%string with (a ++ String "." b)%string.
    rewrite split_app. apply get_loop_app.
  - apply get_loop_resolve.
Qed.

(** X14.  When the loaded data is not a mapping (an empty [config.yaml]
    loads as [None]), [get] returns the default for every key path, the
    empty one included, while each property of [Config] raises. *)
Theorem config_not_a_mapping (_config_data : Config.yaml) :
  is_dict _config_data = false ->
  (forall key_path default, Config.get _config_data key_path default = default)
  /\ (exists e, Config.model _config_data = Raise e)
  /\ (exists e, Config.volcengine _config_data = Raise e)
  /\ (exists e, Config.observability _config_data = Raise e)
  /\ (exists e, Config.database _config_data = Raise e)
  /\ (exists e, Config.logging_level _config_data = Raise e)
  /\ (exists e, Config.workspace_path _config_data = Raise e).
Proof.
  intros H. split.
  - intros key_path default. unfold Config.get.
    destruct (Config.split "." key_path) as [|k keys] eqn:E.
    + now apply split_not_nil in E.
    + destruct _config_data; try reflexivity. discriminate.
  - destruct _config_data; try discriminate;
      repeat split; eexists; reflexivity.
Qed.

(** [config_not_a_mapping] on the data of an empty file. *)
Lemma config_not_a_mapping_witness :
  Config.get Config.YNone "project.workspace.path" (Config.YStr "/tmp")
  = Config.YStr "/tmp"
  /\ exists e, Config.workspace_path Config.YNone = Raise e.
Proof.
  destruct (config_not_a_mapping Config.YNone eq_refl) as (G & _ & _ & _ & _ & _ & W).
  split; [apply G | exact W].
Defined.

(** X15.  Whenever the property [workspace_path] returns, it returns what
    [get ("project.workspace.path", "/tmp")] returns, and whenever
    [logging_level] returns, it returns what [get ("logging.level", "INFO")]
    returns. *)
Theorem config_properties_agree_with_get (_config_data v : Config.yaml) :
  (Config.workspace_path _config_data = Return v ->
   Config.get _config_data "project.workspace.path" (Config.YStr "/tmp") = v)
  /\ (Config.logging_level _config_data = Return v ->
      Config.get _config_data "logging.level" (Config.YStr "INFO") = v).
Proof.
  split.
  - unfold Config.workspace_path, Config.get.
    change (Config.split "." "project.workspace.path")
      with ["project"; "workspace"; "path"].
    destruct _config_data as [| | | | | |d]; try discriminate. simpl.
    destruct (Config.item d "project") as [project|]; simpl.
    + destruct project as [| | | | | |d1]; try discriminate. simpl.
      destruct (Config.item d1 "workspace") as [workspace|]; simpl.
      * destruct workspace as [| | | | | |d2]; try discriminate. simpl.
        destruct (Config.item d2 "path"); intros H; now injection H.
      * intros H; now injection H.
    + intros H; now injection H.
  - unfold Config.logging_level, Config.get.
    change (Config.split "." "logging.level") with ["logging"; "level"].
    destruct _config_data as [| | | | | |d]; try discriminate. simpl.
    destruct (Config.item d "logging") as [logging|]; simpl.
    + destruct logging as [| | | | | |d1]; try discriminate. simpl.
      destruct (Config.item d1 "level"); intros H; now injection H.
    + intros H; now injection H.
Qed.

(** X16.  When [config.yaml] is missing or is not valid YAML,
    [_load_config] returns the empty mapping; on it [get] returns the
    default for every key path, [workspace_path] is ["/tmp"],
    [logging_level] is ["INFO"] and [model] is the empty mapping. *)
Theorem config_fallback (safe_load : string -> Config.yaml + string)
    (f : Config.config_file) :
  f = Config.Missing
  \/ (exists content err, f = Config.Text content /\ safe_load content = inr err) ->
  exists data,
    Config._load_config safe_load f = Return data
    /\ (forall key_path default, Config.get data key_path default = default)
    /\ Config.workspace_path data = Return (Config.YStr "/tmp")
    /\ Config.logging_level data = Return (Config.YStr "INFO")
    /\ Config.model data = Return (Config.YDict []).
Proof.
  intros H. exists (Config.YDict []). split.
  - destruct H as [->|(content & err & -> & E)]; simpl; [reflexivity | now rewrite E].
  - split; [|now repeat split].
    intros key_path default. unfold Config.get.
    destruct (Config.split "." key_path) as [|k keys] eqn:E; [|reflexivity].
    now apply split_not_nil in E.
Qed.

(** [config_fallback] for a missing file. *)
Lemma config_fallback_witness :
  exists data,
    Config._load_config (fun _ => inr "not loaded") Config.Missing = Return data
    /\ (forall key_path default, Config.get data key_path default = default)
    /\ Config.workspace_path data = Return (Config.YStr "/tmp")
    /\ Config.logging_level data = Return (Config.YStr "INFO")
    /\ Config.model data = Return (Config.YDict []).
Proof.
  exact (config_fallback (fun _ => inr "not loaded") Config.Missing (or_introl eq_refl)).
Defined.

(** [config_properties_agree_with_get] on a configuration that sets the
    workspace path. *)
Lemma config_properties_witness :
  Config.get (nested ["project"; "workspace"; "path"] (Config.YStr "/data"))
    "project.workspace.path" (Config.YStr "/tmp") = Config.YStr "/data".
Proof.
  apply (proj1 (config_properties_agree_with_get
                  (nested ["project"; "workspace"; "path"] (Config.YStr "/data"))
                  (Config.YStr "/data"))).
  reflexivity.
Defined.

(* ----------------------------------------------------------------- *)
(** ** The kept-alive terminal *)

Section Terminal.

Variable _config_data : Config.yaml.
Variable construct : list Bash.event -> option Config.yaml -> option string.
Variable close : list Bash.event -> nat -> option string.
Variable execute : list Bash.event -> nat -> string -> string + string.

#[local] Abbreviation prepare := (Bash.prepare construct close).
#[local] Abbreviation bash_tool := (Bash.bash_tool _config_data construct close execute).

Lemma tidy_append w ev k :
  tidy w ->
  terminal_of ev < S (List.length (Bash.history w)) ->
  (forall t, k = Some t -> t < S (List.length (Bash.history w))) ->
  (forall t, open_terminal (Bash.history w ++ [ev]) t -> k = Some t) ->
  tidy {| Bash.keep_alive_terminal := k; Bash.history := Bash.history w ++ [ev] |}.
Proof.
  intros (B & K & O) He Hk Ho. unfold tidy. cbn [Bash.history Bash.keep_alive_terminal].
  rewrite length_app. cbn [List.length]. rewrite Nat.add_1_r.
  split; [|split; [exact Hk | exact Ho]].
  intros ev' H. apply in_app_iff in H. destruct H as [H|[<-|[]]]; [|exact He].
  apply B in H. lia.
Qed.

Lemma open_after_other h ev t :
  open_terminal (h ++ [ev]) t ->
  (forall cwd, ev <> Bash.Created t cwd) ->
  open_terminal h t.
Proof.
  intros ((cwd & C) & N) Hev. split.
  - exists cwd. apply in_app_iff in C. destruct C as [C|[C|[]]]; [exact C|].
    now apply Hev in C.
  - intros H. apply N. apply in_app_iff. now left.
Qed.

Lemma prepare_tidy reset_cwd project_workspace w :
  tidy w ->
  match prepare reset_cwd project_workspace w with
  | inl (t, w') => tidy w' /\ Bash.keep_alive_terminal w' = Some t
  | inr (_, w') => tidy w'
  end.
Proof.
  intros T. unfold Bash.prepare.
  destruct (Bash.keep_alive_terminal w) as [t|] eqn:G;
    pose proof T as (B & K & O).
  - destruct reset_cwd; [|split; [exact T | exact G]].
    assert (Tc : tidy {| Bash.keep_alive_terminal := Some t;
                         Bash.history := Bash.history w ++ [Bash.Closed t] |}).
    { apply tidy_append; [exact T | | |].
      - simpl. specialize (K t G). lia.
      - intros t' E. injection E as <-. specialize (K t G). lia.
      - intros t' Ht. apply open_after_other in Ht; [|discriminate].
        rewrite <- G. now apply O. }
    destruct (close (Bash.history w) t); [exact Tc|].
    destruct (construct (Bash.history w ++ [Bash.Closed t]) project_workspace);
      [exact Tc|].
    split; [|reflexivity].
    apply (tidy_append {| Bash.keep_alive_terminal := Some t;
                          Bash.history := Bash.history w ++ [Bash.Closed t] |});
      [exact Tc | | |]; cbn [Bash.history].
    + simpl. unfold Bash.fresh. lia.
    + intros t' E. injection E as <-. unfold Bash.fresh. lia.
    + intros t' Ht. unfold Bash.fresh in *.
      destruct (Nat.eq_dec t' (List.length (Bash.history w ++ [Bash.Closed t])))
        as [->|Ne]; [reflexivity|].
      exfalso. apply open_after_other in Ht; [|intros cwd E; injection E; congruence].
      destruct Ht as (C' & N'). apply N'.
      assert (Ot : open_terminal (Bash.history w) t').
      { destruct (Nat.eq_dec t' t) as [->|Nt].
        - exfalso. apply N'. apply in_app_iff. right. now left.
        - split.
          + destruct C' as (cwd & C'). exists cwd. apply in_app_iff in C'.
            destruct C' as [C'|[C'|[]]]; [exact C' | discriminate].
          + intros H. apply N'. apply in_app_iff. now left. }
      apply O in Ot. rewrite G in Ot. injection Ot as <-.
      apply in_app_iff. right. now left.
  - destruct (construct (Bash.history w) project_workspace); [exact T|].
    split; [|reflexivity].
    apply tidy_append; [exact T | | |].
    + simpl. unfold Bash.fresh. lia.
    + intros t' E. injection E as <-. unfold Bash.fresh. lia.
    + intros t' Ht. unfold Bash.fresh in *.
      destruct (Nat.eq_dec t' (List.length (Bash.history w))) as [->|Ne]; [reflexivity|].
      exfalso. apply open_after_other in Ht; [|intros cwd E; injection E; congruence].
      apply O in Ht. congruence.
Qed.

Lemma bash_tool_tidy command reset_cwd tool_context w :
  tidy w -> tidy (snd (bash_tool command reset_cwd tool_context w)).
Proof.
  intros T. unfold Bash.bash_tool.
  destruct (Bash.project_workspace _config_data tool_context) as [pw|e]; [|exact T].
  pose proof (prepare_tidy reset_cwd pw w T) as P.
  destruct (Bash.prepare construct close reset_cwd pw w) as [[t w']|[msg w']];
    [|exact P].
  destruct P as (T' & G').
  assert (A : tidy {| Bash.keep_alive_terminal := Bash.keep_alive_terminal w';
                      Bash.history := Bash.history w' ++ [Bash.Executed t command] |}).
  { pose proof T' as (B & K & O). apply tidy_append; [exact T' | | |].
    - simpl. specialize (K t G'). lia.
    - intros t' E. specialize (K t' E). lia.
    - intros t' Ht. apply open_after_other in Ht; [|discriminate]. now apply O. }
  destruct (execute (Bash.history w') t command); exact A.
Qed.

Lemma calls_tidy l :
  forall w, tidy w -> tidy (Bash.calls _config_data construct close execute l w).
Proof.
  induction l as [|[[command reset_cwd] tool_context] l IH]; intros w T; [exact T|].
  apply IH. now apply bash_tool_tidy.
Qed.

End Terminal.

Lemma start_tidy : tidy Bash.start.
Proof.
  split; [|split].
  - intros ev [].
  - discriminate.
  - intros t ((cwd & []) & _).
Qed.

(** X17.  No terminal is left behind.  After any sequence of calls of
    [bash_tool], whatever the constructor, [close] and [execute] do or
    raise: a terminal that was created and on which [close] was never
    called is the one [keep_alive_terminal] names.  So at most one terminal
    is open at any time. *)
Theorem bash_tool_leaves_no_terminal_open (_config_data : Config.yaml)
    (construct : list Bash.event -> option Config.yaml -> option string)
    (close : list Bash.event -> nat -> option string)
    (execute : list Bash.event -> nat -> string -> string + string)
    (l : list (string * bool * bool)) :
  let w := Bash.calls _config_data construct close execute l Bash.start in
  (forall t, open_terminal (Bash.history w) t -> Bash.keep_alive_terminal w = Some t)
  /\ (forall t t',
        open_terminal (Bash.history w) t -> open_terminal (Bash.history w) t' -> t = t').
Proof.
  intros w.
  destruct (calls_tidy _config_data construct close execute l Bash.start start_tidy)
    as (_ & _ & O).
  split; [exact O|].
  intros t t' H H'. apply O in H. apply O in H'. congruence.
Qed.

(** [bash_tool_leaves_no_terminal_open] after a command and a second one
    with [reset_cwd]: the second terminal is open and is the one kept. *)
Lemma bash_tool_open_terminal_witness :
  Bash.keep_alive_terminal
    (Bash.calls Config.YNone More.construct_ok More.close_ok More.execute_echo
       [("ls", false, false); ("pwd", true, false)] Bash.start)
  = Some 3.
Proof.
  apply (proj1 (bash_tool_leaves_no_terminal_open Config.YNone More.construct_ok
                  More.close_ok More.execute_echo
                  [("ls", false, false); ("pwd", true, false)])).
  split.
  - exists None. vm_compute. tauto.
  - vm_compute. intros [H|[H|[H|[H|[H|[]]]]]]; discriminate H.
Defined.

Section TerminalCalls.

Variable _config_data : Config.yaml.
Variable construct : list Bash.event -> option Config.yaml -> option string.
Variable close : list Bash.event -> nat -> option string.
Variable execute : list Bash.event -> nat -> string -> string + string.

#[local] Abbreviation bash_tool' := (Bash.bash_tool _config_data construct close execute).

Lemma prepare_names_terminal reset_cwd project_workspace w t w' :
  Bash.prepare construct close reset_cwd project_workspace w = inl (t, w') ->
  Bash.keep_alive_terminal w' = Some t.
Proof.
  unfold Bash.prepare.
  destruct (Bash.keep_alive_terminal w) as [t0|] eqn:G.
  - destruct reset_cwd.
    + destruct (close (Bash.history w) t0); [discriminate|].
      destruct (construct _ project_workspace); [discriminate|].
      intros H. injection H as <- <-. reflexivity.
    + intros H. injection H as <- <-. exact G.
  - destruct (construct _ project_workspace); [discriminate|].
    intros H. injection H as <- <-. reflexivity.
Qed.

(** Without [reset_cwd] a call runs its command on the terminal the global
    names, and starts or closes nothing. *)
Lemma bash_tool_on_kept_terminal command tool_context w t :
  Bash.keep_alive_terminal w = Some t ->
  (exists e, bash_tool' command false tool_context w = (Raise e, w))
  \/ snd (bash_tool' command false tool_context w)
     = {| Bash.keep_alive_terminal := Some t;
          Bash.history := Bash.history w ++ [Bash.Executed t command] |}.
Proof.
  intros G. unfold Bash.bash_tool.
  destruct (Bash.project_workspace _config_data tool_context) as [pw|e];
    [right | left; now exists e].
  unfold Bash.prepare. rewrite G.
  destruct (execute (Bash.history w) t command); cbn [snd]; now rewrite G.
Qed.

End TerminalCalls.

(** X18.  The terminal is kept between calls.  After a call of [bash_tool]
    that returned a success result, [keep_alive_terminal] names the
    terminal the command ran on, and a following call without [reset_cwd]
    runs its command on that same terminal, without starting or closing
    any (unless it raises before its [try], which changes nothing). *)
Theorem bash_tool_reuses_terminal (_config_data : Config.yaml)
    (construct : list Bash.event -> option Config.yaml -> option string)
    (close : list Bash.event -> nat -> option string)
    (execute : list Bash.event -> nat -> string -> string + string)
    (command : string) (reset_cwd tool_context : bool) (w w1 : Bash.world)
    (output : string) :
  Bash.bash_tool _config_data construct close execute command reset_cwd tool_context w
  = (Return (Success output), w1) ->
  exists t h,
    Bash.keep_alive_terminal w1 = Some t
    /\ Bash.history w1 = h ++ [Bash.Executed t command]
    /\ forall command' tool_context',
         (exists e,
            Bash.bash_tool _config_data construct close execute
              command' false tool_context' w1 = (Raise e, w1))
         \/ snd (Bash.bash_tool _config_data construct close execute
                   command' false tool_context' w1)
            = {| Bash.keep_alive_terminal := Some t;
                 Bash.history := Bash.history w1 ++ [Bash.Executed t command'] |}.
Proof.
  unfold Bash.bash_tool at 1.
  destruct (Bash.project_workspace _config_data tool_context) as [pw|e]; [|discriminate].
  destruct (Bash.prepare construct close reset_cwd pw w) as [[t w']|[msg w']] eqn:P;
    [|discriminate].
  apply prepare_names_terminal in P.
  destruct (execute (Bash.history w') t command) as [out|msg]; [|discriminate].
  intros H. injection H as _ <-.
  exists t, (Bash.history w').
  split; [exact P | split; [reflexivity|]].
  intros command' tool_context'.
  apply (bash_tool_on_kept_terminal _config_data construct close execute
           command' tool_context'
           {| Bash.keep_alive_terminal := Bash.keep_alive_terminal w';
              Bash.history := Bash.history w' ++ [Bash.Executed t command] |} t).
  exact P.
Qed.

(** [bash_tool_reuses_terminal] for [cd /srv] followed by [pwd]: both run on
    terminal 0. *)
Lemma bash_tool_reuses_terminal_witness :
  exists t h,
    Bash.keep_alive_terminal
      (snd (Bash.bash_tool Config.YNone More.construct_ok More.close_ok
              More.execute_echo "cd /srv" false false Bash.start)) = Some t
    /\ Bash.history
         (snd (Bash.bash_tool Config.YNone More.construct_ok More.close_ok
                 More.execute_echo "cd /srv" false false Bash.start))
       = h ++ [Bash.Executed t "cd /srv"]
    /\ forall command' tool_context',
         (exists e,
            Bash.bash_tool Config.YNone More.construct_ok More.close_ok
              More.execute_echo command' false tool_context'
              (snd (Bash.bash_tool Config.YNone More.construct_ok More.close_ok
                      More.execute_echo "cd /srv" false false Bash.start))
            = (Raise e,
               snd (Bash.bash_tool Config.YNone More.construct_ok More.close_ok
                      More.execute_echo "cd /srv" false false Bash.start)))
         \/ snd (Bash.bash_tool Config.YNone More.construct_ok More.close_ok
                   More.execute_echo command' false tool_context'
                   (snd (Bash.bash_tool Config.YNone More.construct_ok More.close_ok
                           More.execute_echo "cd /srv" false false Bash.start)))
            = {| Bash.keep_alive_terminal := Some t;
                 Bash.history :=
                   Bash.history
                     (snd (Bash.bash_tool Config.YNone More.construct_ok
                             More.close_ok More.execute_echo "cd /srv" false false
                             Bash.start))
                   ++ [Bash.Executed t command'] |}.
Proof.
  apply (bash_tool_reuses_terminal Config.YNone More.construct_ok More.close_ok
           More.execute_echo "cd /srv" false false Bash.start _ "cd /srv").
  reflexivity.
Defined.

(** X19.  A reset that fails leaves a closed terminal in place.  When
    [reset_cwd] is set and [close] raises, or [close] returns and the
    constructor of the new terminal raises, [bash_tool] returns the error
    result with the text of the exception, [close] has been called on the
    kept terminal and [keep_alive_terminal] still names it; the next call
    without [reset_cwd] runs its command on that terminal. *)
Theorem bash_tool_failed_reset (_config_data : Config.yaml)
    (construct : list Bash.event -> option Config.yaml -> option string)
    (close : list Bash.event -> nat -> option string)
    (execute : list Bash.event -> nat -> string -> string + string)
    (command : string) (tool_context : bool) (w : Bash.world) (t : nat)
    (cwd : option Config.yaml) (msg : string) :
  Bash.keep_alive_terminal w = Some t ->
  Bash.project_workspace _config_data tool_context = Return cwd ->
  close (Bash.history w) t = Some msg
  \/ (close (Bash.history w) t = None
      /\ construct (Bash.history w ++ [Bash.Closed t]) cwd = Some msg) ->
  let w' := {| Bash.keep_alive_terminal := Some t;
               Bash.history := Bash.history w ++ [Bash.Closed t] |} in
  Bash.bash_tool _config_data construct close execute command true tool_context w
  = (Return (Bash.failed msg), w')
  /\ forall command',
       snd (Bash.bash_tool _config_data construct close execute
              command' false false w')
       = {| Bash.keep_alive_terminal := Some t;
            Bash.history := Bash.history w' ++ [Bash.Executed t command'] |}.
Proof.
  intros G W H w'. split.
  - unfold Bash.bash_tool. rewrite W. unfold Bash.prepare. rewrite G.
    destruct H as [C|(C & N)]; rewrite C; [reflexivity|].
    now rewrite N.
  - intros command'.
    destruct (bash_tool_on_kept_terminal _config_data construct close execute
                command' false w' t eq_refl) as [(e & R)|S]; [|exact S].
    exfalso. revert R. unfold Bash.bash_tool, Bash.project_workspace, Bash.prepare.
    cbn [Bash.keep_alive_terminal w'].
    destruct (execute (Bash.history w') t command'); discriminate.
Qed.

(** [bash_tool_failed_reset] where a second shell cannot be started: after
    [ls] on terminal 0, a reset closes it and fails, and [pwd] is then sent
    to terminal 0. *)
Lemma bash_tool_failed_reset_witness :
  Bash.history
    (Bash.calls Config.YNone More.construct_once More.close_ok More.execute_echo
       [("ls", false, false); ("ls", true, false); ("pwd", false, false)] Bash.start)
  = [Bash.Created 0 None; Bash.Executed 0 "ls"; Bash.Closed 0; Bash.Executed 0 "pwd"].
Proof.
  exact (f_equal Bash.history
           (proj2 (bash_tool_failed_reset Config.YNone More.construct_once
                     More.close_ok More.execute_echo "ls" false
                     {| Bash.keep_alive_terminal := Some 0;
                        Bash.history := [Bash.Created 0 None; Bash.Executed 0 "ls"] |}
                     0 None "cannot start bash" eq_refl eq_refl
                     (or_intror (conj eq_refl eq_refl))) "pwd")).
Defined.

(** X20.  [bash_tool] raises exactly when a tool context is given and the
    property [workspace_path] of the configuration raises: that statement
    comes before the [try].  It then raises that exception, and no terminal
    is started, closed or used.  In every other case it returns a
    dictionary. *)
Theorem bash_tool_raises_iff (_config_data : Config.yaml)
    (construct : list Bash.event -> option Config.yaml -> option string)
    (close : list Bash.event -> nat -> option string)
    (execute : list Bash.event -> nat -> string -> string + string)
    (command : string) (reset_cwd tool_context : bool) (w : Bash.world) :
  (forall e,
     fst (Bash.bash_tool _config_data construct close execute
            command reset_cwd tool_context w) = Raise e
     <-> tool_context = true /\ Config.workspace_path _config_data = Raise e)
  /\ (forall e,
        fst (Bash.bash_tool _config_data construct close execute
               command reset_cwd tool_context w) = Raise e ->
        snd (Bash.bash_tool _config_data construct close execute
               command reset_cwd tool_context w) = w)
  /\ fst (Bash.bash_tool More.blank_workspace construct close execute
            command reset_cwd true w)
     = Raise (OtherError "'NoneType' object has no attribute 'get'").
Proof.
  assert (R : forall e,
             fst (Bash.bash_tool _config_data construct close execute
                    command reset_cwd tool_context w) = Raise e
             -> Bash.project_workspace _config_data tool_context = Raise e).
  { intros e. unfold Bash.bash_tool.
    destruct (Bash.project_workspace _config_data tool_context) as [pw|e'];
      [|intros H; injection H as ->; reflexivity].
    destruct (Bash.prepare construct close reset_cwd pw w) as [[t w']|[msg w']];
      [|discriminate].
    destruct (execute (Bash.history w') t command); discriminate. }
  split; [|split].
  - intros e. split.
    + intros H. apply R in H. unfold Bash.project_workspace in H.
      destruct tool_context; [|discriminate]. split; [reflexivity|].
      destruct (Config.workspace_path _config_data); [discriminate|].
      injection H as ->. reflexivity.
    + intros (-> & E). unfold Bash.bash_tool, Bash.project_workspace.
      now rewrite E.
  - intros e H. apply R in H. unfold Bash.bash_tool. now rewrite H.
  - reflexivity.
Qed.

(* ----------------------------------------------------------------- *)
(** ** k6_tool *)

Section K6Tool.

Variable isfile : string -> bool.
Variable environ : K6.environment.
Variable version : K6.version_outcome.
Variable mktemp : string + string.
Variable run : list string -> K6.environment -> K6.run_outcome.
Variable loads : string -> option K6.json.

#[local] Abbreviation k6_tool' := (K6.k6_tool isfile environ version mktemp run loads).

Lemma k6_tool_invalid script_path options env_vars format :
  valid_script isfile script_path = false ->
  exists message,
    k6_tool' script_path options env_vars format = (Return (K6.failure message), []).
Proof.
  unfold valid_script, K6.k6_tool. intros V.
  destruct (Str.is_absolute script_path); [|eexists; reflexivity].
  destruct (isfile script_path); [|eexists; reflexivity].
  simpl in V. rewrite V. eexists; reflexivity.
Qed.

Lemma k6_tool_valid script_path options env_vars format :
  valid_script isfile script_path = true ->
  k6_tool' script_path options env_vars format
  = match version with
    | K6.VersionRaises e => (Raise e, [K6.Run K6.version_cmd None])
    | K6.NotRunnable =>
        (Return (K6.failure "k6未安装或不在PATH中"), [K6.Run K6.version_cmd None])
    | K6.Installed =>
        let process_env := K6.update environ env_vars in
        match mktemp with
        | inr msg => (Return (K6.run_failed msg), [K6.Run K6.version_cmd None])
        | inl temp_file_path =>
            let cmd := K6.command script_path options format temp_file_path in
            let launched := [K6.Run K6.version_cmd None; K6.Created temp_file_path;
                             K6.Run cmd (Some process_env)] in
            match run cmd process_env with
            | K6.RunRaises msg => (Return (K6.run_failed msg), launched)
            | K6.Completed returncode out err temp =>
                let done :=
                  launched ++ (if K6.temp_exists temp
                               then [K6.Unlinked temp_file_path] else []) in
                match K6.read_output loads format temp with
                | inr msg => (Return (K6.run_failed msg), done)
                | inl output =>
                    let success := Z.eqb returncode 0 in
                    (Return {| K6.success := success;
                               K6.data := Some output;
                               K6.error := if success then None else Some err;
                               K6.stats := K6.stats_of format output;
                               K6.stdout := Some out |},
                     done)
                end
            end
        end
    end.
Proof.
  unfold valid_script, K6.k6_tool. intros V.
  apply andb_true_iff in V. destruct V as (V & E).
  apply andb_true_iff in V. destruct V as (A & F).
  now rewrite A, F, E.
Qed.

End K6Tool.

(** X21.  k6 is started for a valid script only.  Whatever the machine
    does, [k6_tool] calls [subprocess.run], or touches a temporary file,
    only when the script path is absolute, names a regular file and ends in
    [.js] or [.ts]; otherwise it returns an error dictionary at once.  Every
    command it runs is [k6 --version], or, after that one returned, a
    command that starts with [k6 run] and has the script path as its last
    argument. *)
Theorem k6_runs_only_valid_scripts (isfile : string -> bool)
    (environ : K6.environment) (version : K6.version_outcome)
    (mktemp : string + string)
    (run : list string -> K6.environment -> K6.run_outcome)
    (loads : string -> option K6.json)
    (script_path : string) (options : list (string * option string))
    (env_vars : K6.environment) (format : string) :
  let r := K6.k6_tool isfile environ version mktemp run loads
             script_path options env_vars format in
  (forall ev, In ev (snd r) -> valid_script isfile script_path = true)
  /\ (valid_script isfile script_path = false ->
      exists message, r = (Return (K6.failure message), []))
  /\ (forall cmd env,
        In (K6.Run cmd env) (snd r) ->
        cmd = K6.version_cmd
        \/ (version = K6.Installed
            /\ (exists rest, cmd = "k6" :: "run" :: rest)
            /\ last_arg cmd script_path)).
Proof.
  intros r. subst r.
  destruct (valid_script isfile script_path) eqn:V.
  - split; [reflexivity | split; [discriminate|]].
    rewrite (k6_tool_valid _ _ _ _ _ _ _ _ _ _ V).
    intros cmd env H.
    destruct version; [|destruct H as [H|[]]; injection H as <- _; now left ..].
    cbv zeta in H.
    assert (L : forall temp, In (K6.Run cmd env)
                  [K6.Run K6.version_cmd None; K6.Created temp;
                   K6.Run (K6.command script_path options format temp)
                     (Some (K6.update environ env_vars))] ->
                cmd = K6.version_cmd
                \/ (K6.Installed = K6.Installed
                    /\ (exists rest, cmd = "k6" :: "run" :: rest)
                    /\ last_arg cmd script_path)).
    { intros temp [E|[E|[E|[]]]]; [injection E as <- _; now left | discriminate |].
      injection E as <- _. right. split; [reflexivity|]. split.
      - eexists. reflexivity.
      - unfold last_arg, K6.command. rewrite app_assoc. eexists. reflexivity. }
    destruct mktemp as [temp|msg]; [|destruct H as [H|[]]; injection H as <- _; now left].
    destruct (run _ _) as [msg|rc out err t]; [now apply (L temp)|].
    assert (H' : In (K6.Run cmd env)
                   ([K6.Run K6.version_cmd None; K6.Created temp;
                     K6.Run (K6.command script_path options format temp)
                       (Some (K6.update environ env_vars))]
                    ++ (if K6.temp_exists t then [K6.Unlinked temp] else []))).
    { destruct (K6.read_output loads format t); exact H. }
    apply in_app_iff in H'. destruct H' as [H'|H']; [now apply (L temp)|].
    destruct (K6.temp_exists t); [destruct H' as [H'|[]]; discriminate | destruct H'].
  - destruct (k6_tool_invalid isfile environ version mktemp run loads
                script_path options env_vars format V) as (message & E).
    rewrite E. split; [intros ev []|]. split; [intros _; now exists message|].
    intros cmd env [].
Qed.

(** [k6_runs_only_valid_scripts] for a relative path. *)
Lemma k6_runs_only_valid_scripts_witness :
  exists message,
    More.k6_tool "load.js" [] [] "json" = (Return (K6.failure message), []).
Proof.
  apply (proj1 (proj2 (k6_runs_only_valid_scripts More.isfile [] K6.Installed
                         (inl "/tmp/tmpa.json") More.run_k6 More.loads
                         "load.js" [] [] "json"))).
  reflexivity.
Defined.

(** X22.  [k6_tool] raises exactly when the script path passes the three
    checks and [k6 --version] raises an exception that is neither a
    [SubprocessError] nor a [FileNotFoundError] (a [PermissionError] for a
    [k6] that may not be executed, say): it then raises that exception.  In
    every other case it returns a dictionary. *)
Theorem k6_tool_raises_iff (isfile : string -> bool)
    (environ : K6.environment) (version : K6.version_outcome)
    (mktemp : string + string)
    (run : list string -> K6.environment -> K6.run_outcome)
    (loads : string -> option K6.json)
    (script_path : string) (options : list (string * option string))
    (env_vars : K6.environment) (format : string) (e : exn) :
  fst (K6.k6_tool isfile environ version mktemp run loads
         script_path options env_vars format) = Raise e
  <-> valid_script isfile script_path = true /\ version = K6.VersionRaises e.
Proof.
  destruct (valid_script isfile script_path) eqn:V.
  - rewrite (k6_tool_valid _ _ _ _ _ _ _ _ _ _ V). split.
    + intros H. split; [reflexivity|].
      destruct version as [| |e']; [|discriminate|now injection H as ->].
      cbv zeta in H. destruct mktemp; [|discriminate].
      destruct (run _ _); [discriminate|].
      destruct (K6.read_output loads format temp); discriminate.
    + intros (_ & ->). reflexivity.
  - destruct (k6_tool_invalid isfile environ version mktemp run loads
                script_path options env_vars format V) as (message & E).
    rewrite E. split; [discriminate | intros (H & _); discriminate].
Qed.

(** X23.  Output that is not one JSON document is lost.  With the format
    [json], when k6 has run and the temporary file holds a text that
    [json.loads] rejects, the [data] of the result is
    [{"raw_output": ""}], with the empty string and not the text of the
    file, because [json.load] has read the file to its end; [stats] is the
    empty dictionary; [success] is decided by the return code alone. *)
Theorem k6_unparsed_output_is_lost (isfile : string -> bool)
    (environ : K6.environment) (mktemp : string + string)
    (run : list string -> K6.environment -> K6.run_outcome)
    (loads : string -> option K6.json)
    (script_path : string) (options : list (string * option string))
    (env_vars : K6.environment)
    (temp_file_path : string) (returncode : Z) (out err content : string) :
  valid_script isfile script_path = true ->
  mktemp = inl temp_file_path ->
  run (K6.command script_path options "json" temp_file_path)
      (K6.update environ env_vars)
  = K6.Completed returncode out err (K6.Content content) ->
  loads content = None ->
  fst (K6.k6_tool isfile environ K6.Installed mktemp run loads
         script_path options env_vars "json")
  = Return {| K6.success := Z.eqb returncode 0;
              K6.data := Some (K6.JObject [("raw_output", K6.JString EmptyString)]);
              K6.error := if Z.eqb returncode 0 then None else Some err;
              K6.stats := Some (K6.JObject []);
              K6.stdout := Some out |}.
Proof.
  intros V M R L.
  rewrite (k6_tool_valid _ _ _ _ _ _ _ _ _ _ V). cbv zeta. rewrite M, R.
  unfold K6.read_output. rewrite String.eqb_refl.
  unfold K6.load, K6.read. cbn [K6.pos K6.text Str.drop fst snd].
  rewrite L. rewrite (drop_all (String.length content) content (le_n _)).
  reflexivity.
Qed.

(** [k6_unparsed_output_is_lost] for a run of [/srv/load.js] that leaves two
    lines of JSON. *)
Lemma k6_unparsed_output_witness :
  fst (More.k6_tool "/srv/load.js" [("vus", Some "3"); ("duration", None)] [] "json")
  = Return {| K6.success := true;
              K6.data := Some (K6.JObject [("raw_output", K6.JString EmptyString)]);
              K6.error := None;
              K6.stats := Some (K6.JObject []);
              K6.stdout := Some "done" |}.
Proof.
  apply (k6_unparsed_output_is_lost More.isfile [] (inl "/tmp/tmpa.json")
           More.run_k6 More.loads "/srv/load.js"
           [("vus", Some "3"); ("duration", None)] [] "/tmp/tmpa.json" 0 "done" ""
           More.two_points);
    reflexivity.
Defined.

(** X24.  The temporary file.  When the script is valid, k6 is installed
    and the temporary file has been created, [os.unlink] is called on it
    exactly when [subprocess.run] returned and the file still exists then,
    also when reading it failed.  When [subprocess.run] raises, the file
    that was created is left behind. *)
Theorem k6_temporary_file (isfile : string -> bool)
    (environ : K6.environment) (mktemp : string + string)
    (run : list string -> K6.environment -> K6.run_outcome)
    (loads : string -> option K6.json)
    (script_path : string) (options : list (string * option string))
    (env_vars : K6.environment) (format temp_file_path : string) :
  valid_script isfile script_path = true ->
  mktemp = inl temp_file_path ->
  let log := snd (K6.k6_tool isfile environ K6.Installed mktemp run loads
                    script_path options env_vars format) in
  In (K6.Created temp_file_path) log
  /\ (In (K6.Unlinked temp_file_path) log
      <-> exists returncode out err temp,
            run (K6.command script_path options format temp_file_path)
                (K6.update environ env_vars)
            = K6.Completed returncode out err temp
            /\ K6.temp_exists temp = true).
Proof.
  intros V M log. subst log.
  rewrite (k6_tool_valid _ _ _ _ _ _ _ _ _ _ V). cbv zeta. rewrite M.
  destruct (run _ _) as [msg|rc out err t].
  - cbn [snd]. split; [right; now left|]. split.
    + intros [H|[H|[H|[]]]]; discriminate.
    + intros (rc & out & err & t & H & _). discriminate.
  - assert (E : snd (match K6.read_output loads format t with
                     | inl output =>
                         (Return {| K6.success := Z.eqb rc 0;
                                    K6.data := Some output;
                                    K6.error := if Z.eqb rc 0 then None else Some err;
                                    K6.stats := K6.stats_of format output;
                                    K6.stdout := Some out |},
                          [K6.Run K6.version_cmd None; K6.Created temp_file_path;
                           K6.Run (K6.command script_path options format temp_file_path)
                             (Some (K6.update environ env_vars))]
                          ++ (if K6.temp_exists t then [K6.Unlinked temp_file_path]
                              else []))
                     | inr msg =>
                         (Return (K6.run_failed msg),
                          [K6.Run K6.version_cmd None; K6.Created temp_file_path;
                           K6.Run (K6.command script_path options format temp_file_path)
                             (Some (K6.update environ env_vars))]
                          ++ (if K6.temp_exists t then [K6.Unlinked temp_file_path]
                              else []))
                     end)
                = [K6.Run K6.version_cmd None; K6.Created temp_file_path;
                   K6.Run (K6.command script_path options format temp_file_path)
                     (Some (K6.update environ env_vars))]
                  ++ (if K6.temp_exists t then [K6.Unlinked temp_file_path] else [])).
    { now destruct (K6.read_output loads format t). }
    rewrite E. clear E. split; [apply in_app_iff; left; right; now left|]. split.
    + intros H. exists rc, out, err, t. split; [reflexivity|].
      apply in_app_iff in H. destruct H as [[H|[H|[H|[]]]]|H]; try discriminate.
      destruct (K6.temp_exists t); [reflexivity | destruct H].
    + intros (rc' & out' & err' & t' & H & X). injection H as -> -> -> ->.
      rewrite X. apply in_app_iff. right. now left.
Qed.

(** [k6_temporary_file] when [subprocess.run] raises: the file created is
    not removed. *)
Lemma k6_temporary_file_witness :
  In (K6.Created "/tmp/tmpa.json")
    (snd (K6.k6_tool More.isfile [] K6.Installed (inl "/tmp/tmpa.json")
            More.run_raises More.loads "/srv/load.js" [] [] "json")).
Proof.
  apply (proj1 (k6_temporary_file More.isfile [] (inl "/tmp/tmpa.json")
                  More.run_raises More.loads "/srv/load.js" [] [] "json"
                  "/tmp/tmpa.json" eq_refl eq_refl)).
Defined.
